(** * Gauges of opencensus.metrics.export.gauge

    A shallow embedding of [opencensus/metrics/export/gauge.py]: the two
    mutable gauge points, the derived point that tracks a function through a
    weak reference, and the four gauge classes that map label-value tuples to
    points and export them as time series.

    Python objects live in a store and are named by their address, so that
    "the same instance" is equality of addresses.  Every method is a
    computation in a state-and-exception monad: an exception leaves the store
    as the method left it when it raised. *)

From Stdlib Require Import ZArith Lia.
From Stdlib Require Import Floats.SpecFloat.
From stdpp Require Import base option list strings.

Open Scope Z_scope.

(** ** Python values *)

(** A Python [float] is an IEEE 754 binary64 number. *)
Definition pyfloat : Type := spec_float.

(** The values a gauge point is given: [None], a [bool], an [int] (Python
    integers are unbounded), a [float], or an object of some other class that
    defines no arithmetic and that [float] does not accept (so not a string,
    which [float] parses, nor a number of another type). *)
Inductive pyval : Type :=
| VNone
| VBool (b : bool)
| VInt (z : Z)
| VFloat (f : pyfloat)
| VObject (id : nat).

Inductive exn : Type :=
| TypeError
| ValueError
| KeyError
| OverflowError
| AttributeError
| OtherError (name : string)
| DanglingReference.

#[export] Instance exn_eq_dec : EqDecision exn.
Proof. solve_decision. Defined.

Inductive outcome (A : Type) : Type :=
| Ok (a : A)
| Raise (e : exn).
Arguments Ok {A} a.
Arguments Raise {A} e.

(** [isinstance(val, six.integer_types)]: [bool] is a subclass of [int]. *)
Definition isinstance_integer (val : pyval) : bool :=
  match val with
  | VInt _ | VBool _ => true
  | _ => false
  end.

(** The integer an [int] or [bool] stands for in arithmetic. *)
Definition int_of (val : pyval) : option Z :=
  match val with
  | VInt z => Some z
  | VBool b => Some (Z.b2z b)
  | _ => None
  end.

(** [int.__float__]: the nearest binary64 number, ties to even;
    [OverflowError] when the integer is too large. *)
Definition int_to_float (z : Z) : outcome pyfloat :=
  match binary_normalize 53 1024 z 0 false with
  | S754_infinity _ => Raise OverflowError
  | f => Ok f
  end.

(** [float(val)] on these values: a [float] is returned as it is, an [int]
    or [bool] is converted, [None] and an object that [float] does not
    accept are a [TypeError]. *)
Definition py_float (val : pyval) : outcome pyval :=
  match val with
  | VFloat f => Ok (VFloat f)
  | VInt z =>
      match int_to_float z with Ok f => Ok (VFloat f) | Raise e => Raise e end
  | VBool b =>
      match int_to_float (Z.b2z b) with
      | Ok f => Ok (VFloat f)
      | Raise e => Raise e
      end
  | VNone | VObject _ => Raise TypeError
  end.

(** [a + b] on these values (what [a += b] computes for them, as they are
    immutable); [None] and an object without arithmetic are a
    [TypeError]. *)
Definition py_add (a b : pyval) : outcome pyval :=
  match a, b with
  | VFloat x, VFloat y => Ok (VFloat (SFadd 53 1024 x y))
  | VFloat x, (VInt _ | VBool _) =>
      match int_to_float (default 0 (int_of b)) with
      | Ok y => Ok (VFloat (SFadd 53 1024 x y))
      | Raise e => Raise e
      end
  | (VInt _ | VBool _), VFloat y =>
      match int_to_float (default 0 (int_of a)) with
      | Ok x => Ok (VFloat (SFadd 53 1024 x y))
      | Raise e => Raise e
      end
  | (VInt _ | VBool _), (VInt _ | VBool _) =>
      Ok (VInt (default 0 (int_of a) + default 0 (int_of b)))
  | _, _ => Raise TypeError
  end.

(** ** Collaborators of the gauge module *)

(** Modelled from the spec: the modules [value], [point], [time_series],
    [metric] and [metric_descriptor] that [gauge.py] imports are not part of
    the sources.  The spec takes them as constructors of plain data: "given
    (tuple-of-label-values, typed-value, timestamp) the collaborator
    constructs one exportable point and one time series; given (descriptor,
    list-of-time-series) it constructs one exportable metric".  Label values
    are opaque and nullable: a string, or [None]. *)
Definition LabelValue : Type := string.
Definition label_values_t : Type := list (option LabelValue).
Definition timestamp : Type := Z.

Inductive Value : Type :=
| ValueLong (value : pyval)
| ValueDouble (value : pyval).

Record Point : Type := mkPoint {
  point_value : option Value;
  point_timestamp : timestamp }.

Record TimeSeries : Type := mkTimeSeries {
  ts_label_values : label_values_t;
  ts_points : list Point;
  ts_start_timestamp : timestamp }.

Inductive MetricDescriptorType : Type := GAUGE_INT64 | GAUGE_DOUBLE.

Record MetricDescriptor : Type := mkMetricDescriptor {
  md_name : string;
  md_description : string;
  md_unit : string;
  md_type : MetricDescriptorType;
  md_label_keys : list string }.

Record Metric : Type := mkMetric {
  metric_descriptor : MetricDescriptor;
  metric_time_series : list TimeSeries }.

(** ** The object store *)

Definition loc : Type := nat.
Definition fid : Type := nat.

(** Modelled from the spec: [utils.get_weakref] is not part of this module.
    It returns "a zero-argument accessor which yields the callable if its
    target object is still live, or an absent/null indicator otherwise". *)
Inductive weakref : Type := WeakRef (f : fid).
Definition get_weakref (func : fid) : weakref := WeakRef func.

Inductive point_class : Type := GaugePointLong | GaugePointDouble.

Inductive gauge_class : Type :=
| LongGauge | DoubleGauge | DerivedLongGauge | DerivedDoubleGauge.

(** The attributes [BaseGauge.__init__] sets; [points] is the only one that is
    assigned again (by [clear]). *)
Record gauge_fields : Type := mkGauge {
  g_class : gauge_class;
  _len_label_keys : nat;
  default_label_values : label_values_t;
  descriptor : MetricDescriptor;
  points : loc }.

Inductive obj : Type :=
| ObjGaugePointLong (value : pyval)
| ObjGaugePointDouble (value : pyval)
| ObjDerivedGaugePoint (gauge_point : loc) (func : weakref)
| ObjOrderedDict (items : list (label_values_t * loc))
| ObjGauge (g : gauge_fields).

(** Locks are named by the object that owns them. *)
Inductive lock : Type :=
| ValueLock (owner : loc)
| PointsLock (owner : loc).

(** What a method does, in the order it does it: a lock taken or released,
    a tracked function called, and [to_point_value] called on an entry by
    [get_timeseries_list]. *)
Inductive event : Type :=
| EvAcquire (l : lock)
| EvRelease (l : lock)
| EvCall (f : fid)
| EvToPointValue (p : loc).

#[export] Instance lock_eq_dec : EqDecision lock.
Proof. solve_decision. Defined.

Record state : Type := mkState {
  heap : list obj;
  trace : list event }.

(** ** The monad of methods *)

Definition M (A : Type) : Type := state -> outcome A * state.

#[export] Instance M_ret : MRet M := fun A a s => (Ok a, s).

#[export] Instance M_bind : MBind M := fun A B k m s =>
  match m s with
  | (Ok a, s') => k a s'
  | (Raise e, s') => (Raise e, s')
  end.

Definition raise {A : Type} (e : exn) : M A := fun s => (Raise e, s).

Definition lift {A : Type} (r : outcome A) : M A := fun s => (r, s).

Definition emit (ev : event) : M unit := fun s =>
  (Ok tt, mkState (heap s) (trace s ++ [ev])).

(** [with l: body]: the lock is released however the body ends. *)
Definition with_lock {A : Type} (l : lock) (body : M A) : M A := fun s =>
  match emit (EvAcquire l) s with
  | (_, s1) =>
      match body s1 with
      | (r, s2) => (r, snd (emit (EvRelease l) s2))
      end
  end.

(** [try: body except e: handler]. *)
Definition try_except {A : Type} (body : M A) (e : exn) (handler : M A)
  : M A := fun s =>
  match body s with
  | (Raise e', s') =>
      if decide (e' = e) then handler s' else (Raise e', s')
  | r => r
  end.

Definition load (l : loc) : M obj := fun s =>
  match heap s !! l with
  | Some o => (Ok o, s)
  | None => (Raise DanglingReference, s)
  end.

Definition store (l : loc) (o : obj) : M unit := fun s =>
  (Ok tt, mkState (<[l := o]> (heap s)) (trace s)).

Definition alloc (o : obj) : M loc := fun s =>
  (Ok (length (heap s)), mkState (heap s ++ [o]) (trace s)).

(** ** GaugePointLong and GaugePointDouble *)

(** [self.value] and [self.value = v] on a gauge point. *)
Definition getattr_value (self : loc) : M pyval :=
  o ← load self;
  match o with
  | ObjGaugePointLong v | ObjGaugePointDouble v => mret v
  | _ => raise AttributeError
  end.

Definition setattr_value (self : loc) (v : pyval) : M unit :=
  o ← load self;
  match o with
  | ObjGaugePointLong _ => store self (ObjGaugePointLong v)
  | ObjGaugePointDouble _ => store self (ObjGaugePointDouble v)
  | _ => raise AttributeError
  end.

Definition GaugePointLong_init : M loc :=
  alloc (ObjGaugePointLong (VInt 0)).

Definition GaugePointLong_add (self : loc) (val : pyval) : M unit :=
  if negb (isinstance_integer val) then raise ValueError
  else
    with_lock (ValueLock self)
      (v ← getattr_value self;
       r ← lift (py_add v val);
       setattr_value self r).

Definition GaugePointLong_set (self : loc) (val : pyval) : M unit :=
  if negb (isinstance_integer val) then raise ValueError
  else with_lock (ValueLock self) (setattr_value self val).

Definition GaugePointLong_get_value (self : loc) : M pyval :=
  getattr_value self.

Definition GaugePointLong_to_point_value (self : loc) : M (option Value) :=
  v ← getattr_value self; mret (Some (ValueLong v)).

Definition GaugePointDouble_init : M loc :=
  alloc (ObjGaugePointDouble (VFloat (S754_zero false))).

Definition GaugePointDouble_add (self : loc) (val : pyval) : M unit :=
  with_lock (ValueLock self)
    (v ← getattr_value self;
     r ← lift (py_add v val);
     setattr_value self r).

Definition GaugePointDouble_set (self : loc) (val : pyval) : M unit :=
  with_lock (ValueLock self)
    (r ← lift (py_float val);
     setattr_value self r).

Definition GaugePointDouble_get_value (self : loc) : M pyval :=
  getattr_value self.

Definition GaugePointDouble_to_point_value (self : loc) : M (option Value) :=
  v ← getattr_value self; mret (Some (ValueDouble v)).

(** [gauge_point.set(val)], [gauge_point.get_value()] and
    [gauge_point.to_point_value()] on the point a derived point wraps: the
    method of the object's class is the one that runs. *)
Definition call_set (gauge_point : loc) (val : pyval) : M unit :=
  o ← load gauge_point;
  match o with
  | ObjGaugePointLong _ => GaugePointLong_set gauge_point val
  | ObjGaugePointDouble _ => GaugePointDouble_set gauge_point val
  | _ => raise AttributeError
  end.

Definition call_get_value (gauge_point : loc) : M pyval :=
  o ← load gauge_point;
  match o with
  | ObjGaugePointLong _ => GaugePointLong_get_value gauge_point
  | ObjGaugePointDouble _ => GaugePointDouble_get_value gauge_point
  | _ => raise AttributeError
  end.

Definition call_to_point_value (gauge_point : loc) : M (option Value) :=
  o ← load gauge_point;
  match o with
  | ObjGaugePointLong _ => GaugePointLong_to_point_value gauge_point
  | ObjGaugePointDouble _ => GaugePointDouble_to_point_value gauge_point
  | _ => raise AttributeError
  end.

(** ** DerivedGaugePoint *)

(** What the tracked functions do when a point is read: whether the target of
    a weak reference is still alive, and what calling the function gives.
    Tracked functions are outside this module; they are taken to return a
    value or raise without calling a method of a gauge or of a point
    ([get_metric] calls them while it holds the lock of the map). *)
Record func_env : Type := mkEnv {
  target_alive : fid -> bool;
  func_result : fid -> outcome pyval }.

(** [self.func()]: the function, or [None] once it has been collected. *)
Definition weakref_call (env : func_env) (r : weakref) : option fid :=
  match r with
  | WeakRef f => if target_alive env f then Some f else None
  end.

(** [callee()]: calling [None] is a [TypeError]. *)
Definition py_call (env : func_env) (callee : option fid) : M pyval :=
  match callee with
  | None => raise TypeError
  | Some f => emit (EvCall f);; lift (func_result env f)
  end.

Definition DerivedGaugePoint_init (func : fid) (gauge_point : loc) : M loc :=
  alloc (ObjDerivedGaugePoint gauge_point (get_weakref func)).

Definition DerivedGaugePoint_get_value (env : func_env) (self : loc)
  : M pyval :=
  o ← load self;
  match o with
  | ObjDerivedGaugePoint gauge_point func =>
      returned ← try_except
        (v ← py_call env (weakref_call env func);
         call_set gauge_point v;;
         mret None)
        TypeError
        (mret (Some VNone));
      match returned with
      | Some r => mret r
      | None => call_get_value gauge_point
      end
  | _ => raise AttributeError
  end.

Definition DerivedGaugePoint_to_point_value (env : func_env) (self : loc)
  : M (option Value) :=
  v ← DerivedGaugePoint_get_value env self;
  match v with
  | VNone => mret None
  | _ =>
      o ← load self;
      match o with
      | ObjDerivedGaugePoint gauge_point _ => call_to_point_value gauge_point
      | _ => raise AttributeError
      end
  end.

(** [gp.to_point_value()] and [gp.get_value()] on an entry of a gauge. *)
Definition to_point_value (env : func_env) (gp : loc) : M (option Value) :=
  o ← load gp;
  match o with
  | ObjGaugePointLong _ => GaugePointLong_to_point_value gp
  | ObjGaugePointDouble _ => GaugePointDouble_to_point_value gp
  | ObjDerivedGaugePoint _ _ => DerivedGaugePoint_to_point_value env gp
  | _ => raise AttributeError
  end.

Definition get_value (env : func_env) (gp : loc) : M pyval :=
  o ← load gp;
  match o with
  | ObjGaugePointLong _ => GaugePointLong_get_value gp
  | ObjGaugePointDouble _ => GaugePointDouble_get_value gp
  | ObjDerivedGaugePoint _ _ => DerivedGaugePoint_get_value env gp
  | _ => raise AttributeError
  end.

(** ** OrderedDict, keyed by label-value tuples *)

Definition dict_items (d : loc) : M (list (label_values_t * loc)) :=
  o ← load d;
  match o with
  | ObjOrderedDict items => mret items
  | _ => raise AttributeError
  end.

Fixpoint dict_get (k : label_values_t) (items : list (label_values_t * loc))
  : option loc :=
  match items with
  | [] => None
  | (k', v) :: rest => if decide (k' = k) then Some v else dict_get k rest
  end.

Fixpoint dict_remove (k : label_values_t)
  (items : list (label_values_t * loc)) : list (label_values_t * loc) :=
  match items with
  | [] => []
  | (k', v) :: rest =>
      if decide (k' = k) then rest else (k', v) :: dict_remove k rest
  end.

(** [del d[k]]. *)
Definition dict_delitem (d : loc) (k : label_values_t) : M unit :=
  items ← dict_items d;
  match dict_get k items with
  | Some _ => store d (ObjOrderedDict (dict_remove k items))
  | None => raise KeyError
  end.

(** [d.setdefault(k, default)]: a new key goes last. *)
Definition dict_setdefault (d : loc) (k : label_values_t) (default : loc)
  : M loc :=
  items ← dict_items d;
  match dict_get k items with
  | Some v => mret v
  | None => store d (ObjOrderedDict (items ++ [(k, default)]));; mret default
  end.

(** ** get_timeseries_list *)

Fixpoint get_timeseries_list_loop (env : func_env)
  (items : list (label_values_t * loc)) (timestamp : timestamp)
  (ts_list : list TimeSeries) : M (list TimeSeries) :=
  match items with
  | [] => mret ts_list
  | (lv, gp) :: rest =>
      emit (EvToPointValue gp);;
      v ← to_point_value env gp;
      let point := mkPoint v timestamp in
      get_timeseries_list_loop env rest timestamp
        (ts_list ++ [mkTimeSeries lv [point] timestamp])
  end.

Definition get_timeseries_list (env : func_env) (points : loc)
  (timestamp : timestamp) : M (list TimeSeries) :=
  items ← dict_items points;
  get_timeseries_list_loop env items timestamp [].

(** ** BaseGauge *)

(** The class attributes of [LongGaugeMixin] and [DoubleGaugeMixin]. *)
Definition descriptor_type (c : gauge_class) : MetricDescriptorType :=
  match c with
  | LongGauge | DerivedLongGauge => GAUGE_INT64
  | DoubleGauge | DerivedDoubleGauge => GAUGE_DOUBLE
  end.

Definition point_type (c : gauge_class) : point_class :=
  match c with
  | LongGauge | DerivedLongGauge => GaugePointLong
  | DoubleGauge | DerivedDoubleGauge => GaugePointDouble
  end.

(** [Gauge] is the base of the two direct classes, [DerivedGauge] of the two
    derived ones. *)
Definition is_Gauge (c : gauge_class) : bool :=
  match c with
  | LongGauge | DoubleGauge => true
  | DerivedLongGauge | DerivedDoubleGauge => false
  end.

Definition is_DerivedGauge (c : gauge_class) : bool := negb (is_Gauge c).

(** [self.point_type()]. *)
Definition new_point (c : point_class) : M loc :=
  match c with
  | GaugePointLong => GaugePointLong_init
  | GaugePointDouble => GaugePointDouble_init
  end.

(** The attributes of a gauge [self]. *)
Definition getattr_gauge (self : loc) : M gauge_fields :=
  o ← load self;
  match o with
  | ObjGauge g => mret g
  | _ => raise AttributeError
  end.

Definition BaseGauge_init (cls : gauge_class) (name description unit : string)
  (label_keys : list string) : M loc :=
  d ← alloc (ObjOrderedDict []);
  alloc (ObjGauge
    {| g_class := cls;
       _len_label_keys := length label_keys;
       default_label_values := replicate (length label_keys) None;
       descriptor :=
         mkMetricDescriptor name description unit (descriptor_type cls)
           label_keys;
       points := d |}).

Definition BaseGauge__remove_time_series (self : loc)
  (label_values : label_values_t) : M unit :=
  with_lock (PointsLock self)
    (try_except
       (g ← getattr_gauge self;
        dict_delitem (points g) label_values)
       KeyError
       (mret tt)).

(** [any(lv is None for lv in label_values)]. *)
Definition any_is_None (label_values : label_values_t) : bool :=
  existsb (fun lv => match lv with None => true | Some _ => false end)
    label_values.

Definition BaseGauge_remove_time_series (self : loc)
  (label_values : option label_values_t) : M unit :=
  match label_values with
  | None => raise ValueError
  | Some label_values =>
      if any_is_None label_values then raise ValueError
      else
        g ← getattr_gauge self;
        if negb (length label_values =? _len_label_keys g)%nat
        then raise ValueError
        else BaseGauge__remove_time_series self label_values
  end.

Definition BaseGauge_remove_default_time_series (self : loc) : M unit :=
  g ← getattr_gauge self;
  BaseGauge__remove_time_series self (default_label_values g).

Definition BaseGauge_clear (self : loc) : M unit :=
  with_lock (PointsLock self)
    (d ← alloc (ObjOrderedDict []);
     g ← getattr_gauge self;
     store self
       (ObjGauge
          {| g_class := g_class g;
             _len_label_keys := _len_label_keys g;
             default_label_values := default_label_values g;
             descriptor := descriptor g;
             points := d |})).

Definition BaseGauge_get_metric (env : func_env) (self : loc)
  (timestamp : timestamp) : M (option Metric) :=
  g ← getattr_gauge self;
  items ← dict_items (points g);
  match items with
  | [] => mret None
  | _ :: _ =>
      ts_list ← with_lock (PointsLock self)
        (g ← getattr_gauge self;
         get_timeseries_list env (points g) timestamp);
      g ← getattr_gauge self;
      mret (Some (mkMetric (descriptor g) ts_list))
  end.

(** ** Gauge: LongGauge and DoubleGauge *)

(** Looking a method of [Gauge] up on an object of another class fails. *)
Definition Gauge_method (self : loc) : M unit :=
  g ← getattr_gauge self;
  if is_Gauge (g_class g) then mret tt else raise AttributeError.

Definition Gauge__get_or_create_time_series (self : loc)
  (label_values : label_values_t) : M loc :=
  with_lock (PointsLock self)
    (g ← getattr_gauge self;
     p ← new_point (point_type (g_class g));
     dict_setdefault (points g) label_values p).

Definition Gauge_get_or_create_time_series (self : loc)
  (label_values : option label_values_t) : M loc :=
  Gauge_method self;;
  match label_values with
  | None => raise ValueError
  | Some label_values =>
      if any_is_None label_values then raise ValueError
      else
        g ← getattr_gauge self;
        if negb (length label_values =? _len_label_keys g)%nat
        then raise ValueError
        else Gauge__get_or_create_time_series self label_values
  end.

Definition Gauge_get_or_create_default_time_series (self : loc) : M loc :=
  Gauge_method self;;
  g ← getattr_gauge self;
  Gauge__get_or_create_time_series self (default_label_values g).

(** ** DerivedGauge: DerivedLongGauge and DerivedDoubleGauge *)

Definition DerivedGauge_method (self : loc) : M unit :=
  g ← getattr_gauge self;
  if is_DerivedGauge (g_class g) then mret tt else raise AttributeError.

Definition DerivedGauge__create_time_series (self : loc)
  (label_values : label_values_t) (func : fid) : M loc :=
  with_lock (PointsLock self)
    (g ← getattr_gauge self;
     gauge_point ← new_point (point_type (g_class g));
     p ← DerivedGaugePoint_init func gauge_point;
     dict_setdefault (points g) label_values p).

Definition DerivedGauge_create_time_series (self : loc)
  (label_values : option label_values_t) (func : option fid) : M loc :=
  DerivedGauge_method self;;
  match label_values with
  | None => raise ValueError
  | Some label_values =>
      if any_is_None label_values then raise ValueError
      else
        g ← getattr_gauge self;
        if negb (length label_values =? _len_label_keys g)%nat
        then raise ValueError
        else
          match func with
          | None => raise ValueError
          | Some func =>
              DerivedGauge__create_time_series self label_values func
          end
  end.

Definition DerivedGauge_create_default_time_series (self : loc)
  (func : option fid) : M loc :=
  DerivedGauge_method self;;
  match func with
  | None => raise ValueError
  | Some func =>
      g ← getattr_gauge self;
      DerivedGauge__create_time_series self (default_label_values g) func
  end.

(** The state before any object exists. *)
Definition empty_state : state := mkState [] [].

(** ** Calls on a gauge and on its points

    [p.add(val)] and [p.set(val)] on a point handed out by a gauge: the two
    direct classes define them, [DerivedGaugePoint] does not. *)
Definition call_add (p : loc) (val : pyval) : M unit :=
  o ← load p;
  match o with
  | ObjGaugePointLong _ => GaugePointLong_add p val
  | ObjGaugePointDouble _ => GaugePointDouble_add p val
  | _ => raise AttributeError
  end.

(** One call of the public interface, on the gauge [self] or on a point. *)
Inductive call : Type :=
| Call_get_or_create_time_series (label_values : option label_values_t)
| Call_get_or_create_default_time_series
| Call_create_time_series (label_values : option label_values_t)
    (func : option fid)
| Call_create_default_time_series (func : option fid)
| Call_remove_time_series (label_values : option label_values_t)
| Call_remove_default_time_series
| Call_clear
| Call_get_metric (timestamp : timestamp)
| Call_add (p : loc) (val : pyval)
| Call_set (p : loc) (val : pyval)
| Call_get_value (p : loc)
| Call_to_point_value (p : loc).

Definition run_call (env : func_env) (self : loc) (c : call) : M unit :=
  match c with
  | Call_get_or_create_time_series label_values =>
      Gauge_get_or_create_time_series self label_values;; mret tt
  | Call_get_or_create_default_time_series =>
      Gauge_get_or_create_default_time_series self;; mret tt
  | Call_create_time_series label_values func =>
      DerivedGauge_create_time_series self label_values func;; mret tt
  | Call_create_default_time_series func =>
      DerivedGauge_create_default_time_series self func;; mret tt
  | Call_remove_time_series label_values =>
      BaseGauge_remove_time_series self label_values
  | Call_remove_default_time_series =>
      BaseGauge_remove_default_time_series self
  | Call_clear => BaseGauge_clear self
  | Call_get_metric timestamp =>
      BaseGauge_get_metric env self timestamp;; mret tt
  | Call_add p val => call_add p val
  | Call_set p val => call_set p val
  | Call_get_value p => get_value env p;; mret tt
  | Call_to_point_value p => to_point_value env p;; mret tt
  end.

(** A sequence of calls, each under the tracked functions' behaviour at the
    time of the call; a call that raises does not stop the caller. *)
Fixpoint run_calls (self : loc) (cs : list (func_env * call)) (s : state)
  : state :=
  match cs with
  | [] => s
  | (env, c) :: rest => run_calls self rest (snd (run_call env self c s))
  end.

(** The label-value tuple a call may add to the map of a gauge. *)
Definition created_key (g : gauge_fields) (c : call)
  : option label_values_t :=
  match c with
  | Call_get_or_create_time_series label_values => label_values
  | Call_create_time_series label_values _ => label_values
  | Call_get_or_create_default_time_series
  | Call_create_default_time_series _ => Some (default_label_values g)
  | _ => None
  end.

(** ** Invariants of the store *)

Definition point_obj (c : point_class) (v : pyval) : obj :=
  match c with
  | GaugePointLong => ObjGaugePointLong v
  | GaugePointDouble => ObjGaugePointDouble v
  end.

(** A long point holds an [int], a double point a [float]. *)
Definition value_ok (c : point_class) (v : pyval) : bool :=
  match c with
  | GaugePointLong => isinstance_integer v
  | GaugePointDouble => match v with VFloat _ => true | _ => false end
  end.

Definition values_ok (h : list obj) : Prop :=
  forall l c v, h !! l = Some (point_obj c v) -> value_ok c v = true.

Definition direct_point (h : list obj) (c : point_class) (p : loc) : Prop :=
  exists v, h !! p = Some (point_obj c v).

(** What the map of a gauge of class [cls] holds: points of its point type,
    wrapped in a [DerivedGaugePoint] for the derived classes. *)
Definition entry_ok (h : list obj) (cls : gauge_class) (p : loc) : Prop :=
  if is_Gauge cls then direct_point h (point_type cls) p
  else exists gp f,
      h !! p = Some (ObjDerivedGaugePoint gp (WeakRef f)) /\
      direct_point h (point_type cls) gp.

(** The gauge at [g] has the attributes [gf] and its map holds [items]. *)
Record gauge_inv (h : list obj) (g : loc) (gf : gauge_fields)
  (items : list (label_values_t * loc)) : Prop := mkInv {
  inv_gauge : h !! g = Some (ObjGauge gf);
  inv_dict : h !! points gf = Some (ObjOrderedDict items);
  inv_keys : NoDup items.*1;
  inv_locs : NoDup items.*2;
  inv_entries : Forall (entry_ok h (g_class gf)) items.*2;
  inv_default :
    default_label_values gf = replicate (_len_label_keys gf) None;
  inv_values : values_ok h }.

(** The attributes of a gauge that no method assigns. *)
Definition same_config (gf gf' : gauge_fields) : Prop :=
  g_class gf' = g_class gf /\
  _len_label_keys gf' = _len_label_keys gf /\
  default_label_values gf' = default_label_values gf /\
  descriptor gf' = descriptor gf.

(** The store after some points were assigned new values of their kind. *)
Inductive point_update (h : list obj) : list obj -> Prop :=
| pu_refl : point_update h h
| pu_step h1 gp c v r :
    point_update h h1 ->
    h1 !! gp = Some (point_obj c v) ->
    value_ok c r = true ->
    point_update h (<[gp := point_obj c r]> h1).

(** What [set] stores in a point of class [c] when given [val]. *)
Definition stored_value (c : point_class) (val : pyval) : outcome pyval :=
  match c with
  | GaugePointLong =>
      if isinstance_integer val then Ok val else Raise ValueError
  | GaugePointDouble => py_float val
  end.

Definition snapshot (c : point_class) (v : pyval) : Value :=
  match c with
  | GaugePointLong => ValueLong v
  | GaugePointDouble => ValueDouble v
  end.

(** A label-value argument that passes the checks of the public methods. *)
Definition valid_label_values (gf : gauge_fields)
  (label_values : label_values_t) : Prop :=
  any_is_None label_values = false /\
  length label_values = _len_label_keys gf.

(** ** Effects of reading and writing points *)

(** The events of reading or writing one point: a call of the tracked
    function, and the lock of a point taken and released. *)
Definition value_event (ev : event) : bool :=
  match ev with
  | EvCall _ | EvAcquire (ValueLock _) | EvRelease (ValueLock _) => true
  | _ => false
  end.

(** The events that are not on the lock of a gauge. *)
Definition point_event (ev : event) : bool :=
  match ev with
  | EvAcquire (PointsLock _) | EvRelease (PointsLock _) => false
  | _ => true
  end.

(** [s'] differs from [s] by new values of points and by the events of
    reading or writing them. *)
Definition points_only (s s' : state) : Prop :=
  point_update (heap s) (heap s') /\
  exists evs, trace s' = trace s ++ evs /\ forallb value_event evs = true.

(** The points that [evs] converts, in order. *)
Definition conversions (evs : list event) : list loc :=
  omap (fun ev => match ev with EvToPointValue p => Some p | _ => None end)
    evs.

(** The functions that [evs] calls, in order. *)
Definition calls (evs : list event) : list fid :=
  omap (fun ev => match ev with EvCall f => Some f | _ => None end) evs.

(** Whether every conversion of a point and every call of a tracked function
    in [evs] happens while the lock [l] is not held; [held] says whether it
    is held at the start. *)
Fixpoint outside_lock (l : lock) (held : bool) (evs : list event) : bool :=
  match evs with
  | [] => true
  | EvAcquire l' :: rest =>
      outside_lock l (if decide (l' = l) then true else held) rest
  | EvRelease l' :: rest =>
      outside_lock l (if decide (l' = l) then false else held) rest
  | (EvToPointValue _ | EvCall _) :: rest =>
      negb held && outside_lock l held rest
  end.

(** Whether every conversion of a point and every call of a tracked function
    in [evs] happens while the lock [l] is held; [held] says whether it is
    held at the start. *)
Fixpoint under_lock (l : lock) (held : bool) (evs : list event) : bool :=
  match evs with
  | [] => true
  | EvAcquire l' :: rest =>
      under_lock l (if decide (l' = l) then true else held) rest
  | EvRelease l' :: rest =>
      under_lock l (if decide (l' = l) then false else held) rest
  | (EvToPointValue _ | EvCall _) :: rest =>
      held && under_lock l held rest
  end.

(** The time series [get_timeseries_list] makes of label values and
    converted values. *)
Definition series (timestamp : timestamp)
  (vs : list (label_values_t * option Value)) : list TimeSeries :=
  map (fun lv_v => mkTimeSeries lv_v.1 [mkPoint lv_v.2 timestamp] timestamp)
    vs.

(** The typed value a direct point at [p] holds. *)
Definition snapshot_at (h : list obj) (p : loc) : option Value :=
  match h !! p with
  | Some (ObjGaugePointLong v) => Some (ValueLong v)
  | Some (ObjGaugePointDouble v) => Some (ValueDouble v)
  | _ => None
  end.

(** The value of a point that was just created. *)
Definition zero_value (c : point_class) : pyval :=
  match c with
  | GaugePointLong => VInt 0
  | GaugePointDouble => VFloat (S754_zero false)
  end.

(** [s] with the events [evs] added to its trace. *)
Definition after_events (s : state) (evs : list event) : state :=
  mkState (heap s) (trace s ++ evs).

(** [gf] with its [points] attribute assigned. *)
Definition with_points (gf : gauge_fields) (d : loc) : gauge_fields :=
  {| g_class := g_class gf;
     _len_label_keys := _len_label_keys gf;
     default_label_values := default_label_values gf;
     descriptor := descriptor gf;
     points := d |}.

(** The items of a map after [setdefault(lv, n)]. *)
Definition items_after_setdefault (items : list (label_values_t * loc))
  (lv : label_values_t) (n : loc) : list (label_values_t * loc) :=
  match dict_get lv items with
  | Some _ => items
  | None => items ++ [(lv, n)]
  end.

(** ** Example stores, built through the public interface *)

(** A [LongGauge] with the label key ["method"] and one time series. *)
Definition example_long : loc * state :=
  Eval vm_compute in
    match
      (g ← BaseGauge_init LongGauge "requests" "served requests" "1"
             ["method"];
       Gauge_get_or_create_time_series g (Some [Some "GET"]);;
       mret g) empty_state
    with
    | (Ok g, s) => (g, s)
    | (Raise _, s) => (0%nat, s)
    end.

(** A [DerivedLongGauge] without label keys whose default time series tracks
    the function [7]. *)
Definition example_derived : loc * state :=
  Eval vm_compute in
    match
      (g ← BaseGauge_init DerivedLongGauge "queue" "queue size" "1" [];
       DerivedGauge_create_default_time_series g (Some 7%nat);;
       mret g) empty_state
    with
    | (Ok g, s) => (g, s)
    | (Raise _, s) => (0%nat, s)
    end.

(** A [DerivedDoubleGauge] whose default time series tracks [7]. *)
Definition example_derived_double : loc * state :=
  Eval vm_compute in
    match
      (g ← BaseGauge_init DerivedDoubleGauge "load" "load average" "1" [];
       DerivedGauge_create_default_time_series g (Some 7%nat);;
       mret g) empty_state
    with
    | (Ok g, s) => (g, s)
    | (Raise _, s) => (0%nat, s)
    end.

(** Tracked functions that are alive and return [v], that are alive and
    raise [e], and whose targets were collected. *)
Definition env_returning (v : pyval) : func_env :=
  mkEnv (fun _ => true) (fun _ => Ok v).

Definition env_raising (e : exn) : func_env :=
  mkEnv (fun _ => true) (fun _ => Raise e).

Definition env_collected : func_env :=
  mkEnv (fun _ => false) (fun _ => Ok VNone).

Definition example_long_fields : gauge_fields :=
  {| g_class := LongGauge;
     _len_label_keys := 1;
     default_label_values := [None];
     descriptor :=
       mkMetricDescriptor "requests" "served requests" "1" GAUGE_INT64
         ["method"];
     points := 0%nat |}.

Definition example_derived_fields : gauge_fields :=
  {| g_class := DerivedLongGauge;
     _len_label_keys := 0;
     default_label_values := [];
     descriptor :=
       mkMetricDescriptor "queue" "queue size" "1" GAUGE_INT64 [];
     points := 0%nat |}.

Definition example_derived_double_fields : gauge_fields :=
  {| g_class := DerivedDoubleGauge;
     _len_label_keys := 0;
     default_label_values := [];
     descriptor :=
       mkMetricDescriptor "load" "load average" "1" GAUGE_DOUBLE [];
     points := 0%nat |}.

(** Whether reading the tracked function [f] into a point of class [c] ends
    without an error: the target was collected, or the call or the [set]
    that follows raises a [TypeError], which [get_value] catches, or the
    value is stored. *)
Definition readable (env : func_env) (c : point_class) (f : fid) : bool :=
  if target_alive env f then
    match func_result env f with
    | Raise e => bool_decide (e = TypeError)
    | Ok val =>
        match stored_value c val with
        | Ok _ => true
        | Raise e => bool_decide (e = TypeError)
        end
    end
  else true.

(** The function a derived point at [p] tracks. *)
Definition entry_func (h : list obj) (p : loc) : option fid :=
  match h !! p with
  | Some (ObjDerivedGaugePoint _ (WeakRef f)) => Some f
  | _ => None
  end.

Definition all_readable (env : func_env) (c : point_class) (h : list obj)
  (ps : list loc) : bool :=
  forallb
    (fun p =>
       match entry_func h p with
       | Some f => readable env c f
       | None => true
       end)
    ps.

(** A [DerivedLongGauge] with the label key ["queue"] and no time series. *)
Definition example_derived_empty : loc * state :=
  Eval vm_compute in
    match
      BaseGauge_init DerivedLongGauge "depth" "queue depth" "1" ["queue"]
        empty_state
    with
    | (Ok g, s) => (g, s)
    | (Raise _, s) => (0%nat, s)
    end.

Definition example_derived_empty_fields : gauge_fields :=
  {| g_class := DerivedLongGauge;
     _len_label_keys := 1;
     default_label_values := [None];
     descriptor :=
       mkMetricDescriptor "depth" "queue depth" "1" GAUGE_INT64 ["queue"];
     points := 0%nat |}.

(** Whether an exported value has the kind of a point of class [c]: a
    [ValueLong] of an [int], a [ValueDouble] of a [float], or the [None] of
    a derived point whose function could not be read. *)
Definition well_typed (c : point_class) (x : option Value) : bool :=
  match x, c with
  | None, _ => true
  | Some (ValueLong v), GaugePointLong => isinstance_integer v
  | Some (ValueDouble (VFloat _)), GaugePointDouble => true
  | _, _ => false
  end.

(** A time series as [get_timeseries_list] makes them for a gauge of class
    [cls] at [t]: one point, stamped [t], of the kind of the gauge, and
    never [None] in a direct gauge. *)
Definition series_ok (cls : gauge_class) (t : timestamp) (ts : TimeSeries)
  : Prop :=
  ts_start_timestamp ts = t /\
  exists x,
    ts_points ts = [mkPoint x t] /\
    well_typed (point_type cls) x = true /\
    (is_Gauge cls = true -> x <> None).

(** The value a derived entry at [p] exports when its function is
    readable: the stored result as a typed value, or [None] when the target
    was collected or the read ended in a [TypeError]. *)
Definition exported_value (env : func_env) (c : point_class) (h : list obj)
  (p : loc) : option Value :=
  match entry_func h p with
  | Some f =>
      if target_alive env f then
        match func_result env f with
        | Ok val =>
            match stored_value c val with
            | Ok r => Some (snapshot c r)
            | Raise _ => None
            end
        | Raise _ => None
        end
      else None
  | None => None
  end.

(** ** The discipline of the two kinds of lock *)

Definition is_points_lock (l : lock) : bool :=
  match l with
  | PointsLock _ => true
  | ValueLock _ => false
  end.

(** Whether a thread that holds [held] (most recent first) may take [l]:
    the lock of a map only when it holds nothing, the lock of a point only
    when it holds no lock of a point.  [threading.Lock] is not reentrant,
    and with this order no two threads can wait for each other. *)
Definition may_acquire (l : lock) (held : list lock) : bool :=
  if is_points_lock l then bool_decide (held = [])
  else forallb is_points_lock held.

(** The locks held after [evs], starting from [held], or [None] when [evs]
    breaks the discipline: a lock taken that may not be taken, a lock
    released that is not the one taken last, or a tracked function called
    while the lock of a point is held. *)
Fixpoint lock_run (held : list lock) (evs : list event)
  : option (list lock) :=
  match evs with
  | [] => Some held
  | EvAcquire l :: rest =>
      if may_acquire l held then lock_run (l :: held) rest else None
  | EvRelease l :: rest =>
      match held with
      | l' :: held' =>
          if decide (l' = l) then lock_run held' rest else None
      | [] => None
      end
  | EvCall _ :: rest =>
      if forallb is_points_lock held then lock_run held rest else None
  | EvToPointValue _ :: rest => lock_run held rest
  end.

(** [m] adds to the trace events that keep the discipline and leave the
    locks as they were, from every set of held locks that [ok] allows. *)
Definition lock_neutral {A : Type} (ok : list lock -> Prop) (m : M A)
  : Prop :=
  forall s, exists evs,
    trace (m s).2 = trace s ++ evs /\
    forall held, ok held -> lock_run held evs = Some held.

(** [m] adds nothing to the trace. *)
Definition silent {A : Type} (m : M A) : Prop :=
  forall s, trace (m s).2 = trace s.

(** Only locks of maps are held; no lock is held. *)
Definition holds_maps_only (held : list lock) : Prop :=
  forallb is_points_lock held = true.

Definition holds_nothing (held : list lock) : Prop := held = [].

(** Reading the tracked function [f] into a point of class [c] fails with
    [e]: the target is alive, and the function raises [e], or it returns a
    value for which [set] raises [e]; [e] is not the [TypeError] that
    [get_value] catches. *)
Definition read_fails (env : func_env) (c : point_class) (f : fid) (e : exn)
  : Prop :=
  target_alive env f = true /\
  (func_result env f = Raise e \/
   exists val, func_result env f = Ok val /\ stored_value c val = Raise e) /\
  e <> TypeError.

(** ** What float(z) is for an integer

    The finite float [f] is the integer [z]. *)
Definition float_is_int (f : pyfloat) (z : Z) : Prop :=
  match f with
  | S754_zero _ => z = 0
  | S754_finite s m e => e <= 0 /\ cond_Zopp s (Z.pos m) = z * 2 ^ (- e)
  | _ => False
  end.

(** The float [f], with a mantissa of 53 bits, is within one unit in the
    last place of the integer [z]. *)
Definition float_near_int (f : pyfloat) (z : Z) : Prop :=
  match f with
  | S754_finite s m e =>
      0 < e /\ 2 ^ 52 <= Z.pos m < 2 ^ 53 /\
      Z.abs (cond_Zopp s (Z.pos m) * 2 ^ e - z) <= 2 ^ e
  | _ => False
  end.

(** What [float(z)] may give for the integer [z]: a float that is [z] when
    [z] has at most 53 bits and that is within one unit in the last place of
    [z] otherwise, or [OverflowError], and that only from [2 ^ 1023] on;
    from [2 ^ 1024] on no float is given. *)
Definition float_of_int_ok (z : Z) (r : outcome pyfloat) : Prop :=
  match r with
  | Ok f =>
      (Z.abs z < 2 ^ 53 -> float_is_int f z) /\
      (2 ^ 53 <= Z.abs z -> float_near_int f z) /\
      Z.abs z < 2 ^ 1024
  | Raise e => e = OverflowError /\ 2 ^ 1023 <= Z.abs z
  end.

(** ** The values given to points

    The values [add] and [set] are meant for: [None], a [bool], an [int] or
    a [float].  What Python does with them is fixed by the language; what it
    does with an object of another class is up to that class. *)
Definition plain_value (val : pyval) : bool :=
  match val with
  | VObject _ => false
  | _ => true
  end.

(** A call that gives a point a value gives it a plain one. *)
Definition plain_call (c : call) : bool :=
  match c with
  | Call_add _ val | Call_set _ val => plain_value val
  | _ => true
  end.

Definition plain_calls (cs : list (func_env * call)) : bool :=
  forallb (fun ec => plain_call ec.2) cs.

(** * Reasoning about methods *)

Lemma int_of_isinstance (val : pyval) :
  isinstance_integer val = true <-> exists z, int_of val = Some z.
Proof.
  destruct val; simpl; split; intros H; eauto; try discriminate;
    destruct H; discriminate.
Qed.

(** ** The conversion of an integer to a float *)

Lemma digits2_pos_bounds (p : positive) :
  2 ^ (Z.pos (digits2_pos p) - 1) <= Z.pos p < 2 ^ Z.pos (digits2_pos p).
Proof.
  induction p as [p IH|p IH|]; cbn [digits2_pos].
  - rewrite Pos2Z.inj_succ.
    replace (Z.succ (Z.pos (digits2_pos p)) - 1) with
      (Z.succ (Z.pos (digits2_pos p) - 1)) by lia.
    rewrite !Z.pow_succ_r by lia. lia.
  - rewrite Pos2Z.inj_succ.
    replace (Z.succ (Z.pos (digits2_pos p)) - 1) with
      (Z.succ (Z.pos (digits2_pos p) - 1)) by lia.
    rewrite !Z.pow_succ_r by lia. lia.
  - cbn. lia.
Qed.

Lemma digits2_pos_le (p : positive) (n : Z) :
  0 <= n -> Z.pos p < 2 ^ n -> Z.pos (digits2_pos p) <= n.
Proof.
  intros Hn Hp. pose proof (digits2_pos_bounds p) as [Hlo _].
  assert (H : 2 ^ (Z.pos (digits2_pos p) - 1) < 2 ^ n) by lia.
  apply Z.pow_lt_mono_r_iff in H; lia.
Qed.

Lemma digits2_pos_ge (p : positive) (n : Z) :
  2 ^ n <= Z.pos p -> n < Z.pos (digits2_pos p).
Proof.
  intros Hp. pose proof (digits2_pos_bounds p) as [_ Hhi].
  assert (H : 2 ^ n < 2 ^ Z.pos (digits2_pos p)) by lia.
  apply Z.pow_lt_mono_r_iff in H; lia.
Qed.

Lemma iter_xO_spec (k p : positive) :
  Z.pos (Pos.iter xO p k) = Z.pos p * 2 ^ Z.pos k /\
  digits2_pos (Pos.iter xO p k) = (digits2_pos p + k)%positive.
Proof.
  induction k as [|k IH] using Pos.peano_ind.
  - cbn [Pos.iter]. split; [change (2 ^ 1) with 2; lia|].
    cbn [digits2_pos]. lia.
  - rewrite Pos.iter_succ. destruct IH as [IH1 IH2]. split.
    + rewrite Pos2Z.inj_succ, Z.pow_succ_r by lia.
      rewrite (Pos2Z.inj_xO (Pos.iter xO p k)), IH1. lia.
    + cbn [digits2_pos]. rewrite IH2. lia.
Qed.

Lemma binary_round_aux_exact (sx : bool) (m : positive) (e : Z) :
  Z.pos (digits2_pos m) = 53 -> -1074 <= e <= 971 ->
  binary_round_aux 53 1024 sx (Z.pos m) e loc_Exact = S754_finite sx m e.
Proof.
  intros Hd He. unfold binary_round_aux, shr_fexp, fexp, emin.
  cbn [Zdigits2 shr_record_of_loc]. rewrite Hd.
  replace (Z.max (53 + e - 53) (3 - 1024 - 53) - e) with 0 by lia.
  cbn [shr shr_m loc_of_shr_record round_nearest_even Zdigits2
       shr_record_of_loc].
  rewrite Hd.
  replace (Z.max (53 + e - 53) (3 - 1024 - 53) - e) with 0 by lia.
  cbn [shr shr_m].
  replace (e <=? 1024 - 53) with true by (symmetry; apply Z.leb_le; lia).
  reflexivity.
Qed.

Lemma binary_round_small (sx : bool) (p : positive) :
  Z.pos p < 2 ^ 53 ->
  exists m e,
    binary_round 53 1024 sx p 0 = S754_finite sx m e /\
    e <= 0 /\ Z.pos m = Z.pos p * 2 ^ (- e).
Proof.
  intros Hp.
  pose proof (digits2_pos_le p 53 ltac:(lia) Hp) as Hd.
  unfold binary_round, fexp, emin.
  replace (Z.max (Z.pos (digits2_pos p) + 0 - 53) (3 - 1024 - 53))
    with (Z.pos (digits2_pos p) - 53) by lia.
  unfold shl_align.
  destruct (Z.pos (digits2_pos p) - 53 - 0) as [|k|k] eqn:Hk.
  - exists p, 0. split; [|split; [lia|change (2 ^ (- 0)) with 1; lia]].
    apply binary_round_aux_exact; lia.
  - lia.
  - destruct (iter_xO_spec k p) as [Hv Hdk].
    exists (Pos.iter xO p k), (Z.pos (digits2_pos p) - 53).
    split; [|split; [lia|]].
    + apply binary_round_aux_exact; [rewrite Hdk|]; lia.
    + rewrite Hv. f_equal. f_equal. lia.
Qed.

Lemma shr_1_m (mrs : shr_record) :
  0 <= shr_m mrs -> shr_m (shr_1 mrs) = shr_m mrs / 2.
Proof.
  destruct mrs as [m r s]. cbn [shr_m]. intros Hm.
  rewrite <- Z.div2_div.
  destruct m as [|[q|q|]|q]; try reflexivity. lia.
Qed.

Lemma iter_shr_1_m (k : positive) :
  forall mrs,
    0 <= shr_m mrs ->
    shr_m (SpecFloat.iter_pos shr_1 k mrs) = shr_m mrs / 2 ^ Z.pos k.
Proof.
  assert (Hpos : forall j, 0 < 2 ^ Z.pos j)
    by (intros j; apply Z.pow_pos_nonneg; lia).
  induction k as [k IH|k IH|]; intros mrs Hm; cbn [SpecFloat.iter_pos].
  - assert (H1 : 0 <= shr_m (shr_1 mrs))
      by (rewrite shr_1_m by exact Hm; apply Z.div_pos; lia).
    assert (H2 : 0 <= shr_m (SpecFloat.iter_pos shr_1 k (shr_1 mrs))).
    { rewrite IH by exact H1. apply Z.div_pos; [exact H1|apply Hpos]. }
    rewrite IH by exact H2. rewrite IH by exact H1.
    rewrite shr_1_m by exact Hm.
    pose proof (Hpos k).
    rewrite !Z.div_div by lia. f_equal.
    rewrite (Pos2Z.inj_xI k).
    replace (2 * Z.pos k + 1) with (1 + Z.pos k + Z.pos k) by lia.
    rewrite !Z.pow_add_r by lia. change (2 ^ 1) with 2. lia.
  - assert (H1 : 0 <= shr_m (SpecFloat.iter_pos shr_1 k mrs)).
    { rewrite IH by exact Hm. apply Z.div_pos; [exact Hm|apply Hpos]. }
    rewrite IH by exact H1. rewrite IH by exact Hm.
    pose proof (Hpos k).
    rewrite !Z.div_div by lia. f_equal.
    rewrite (Pos2Z.inj_xO k).
    replace (2 * Z.pos k) with (Z.pos k + Z.pos k) by lia.
    rewrite !Z.pow_add_r by lia. reflexivity.
  - rewrite shr_1_m by exact Hm. reflexivity.
Qed.

Lemma round_nearest_even_bounds (m : Z) (l : location) :
  m <= round_nearest_even m l <= m + 1.
Proof.
  destruct l as [|[| |]]; cbn [round_nearest_even];
    try destruct (Z.even m); lia.
Qed.

Lemma binary_round_big (sx : bool) (p : positive) :
  2 ^ 53 <= Z.pos p ->
  exists m e,
    binary_round 53 1024 sx p 0 =
      (if e <=? 971 then S754_finite sx m e else S754_infinity sx) /\
    Z.pos (digits2_pos p) - 53 <= e <= Z.pos (digits2_pos p) - 52 /\
    2 ^ 52 <= Z.pos m < 2 ^ 53 /\
    Z.abs (Z.pos m * 2 ^ e - Z.pos p) <= 2 ^ (Z.pos (digits2_pos p) - 53).
Proof.
  intros Hp.
  pose proof (digits2_pos_ge p 53 Hp) as Hd.
  pose proof (digits2_pos_bounds p) as [Hlo Hhi].
  set (d := Z.pos (digits2_pos p)) in *.
  unfold binary_round, fexp, emin. fold d.
  replace (Z.max (d + 0 - 53) (3 - 1024 - 53)) with (d - 53) by lia.
  unfold shl_align.
  destruct (d - 53 - 0) as [|k|k] eqn:Hk; try lia.
  unfold binary_round_aux, shr_fexp, fexp, emin.
  cbn [Zdigits2 shr_record_of_loc]. fold d.
  replace (Z.max (d + 0 - 53) (3 - 1024 - 53) - 0) with (Z.pos k) by lia.
  cbn [shr].
  set (mrs := SpecFloat.iter_pos shr_1 k
                {| shr_m := Z.pos p; shr_r := false; shr_s := false |}).
  assert (Hm1 : shr_m mrs = Z.pos p / 2 ^ Z.pos k)
    by (apply iter_shr_1_m; cbn [shr_m]; lia).
  assert (Hk0 : 0 < 2 ^ Z.pos k) by (apply Z.pow_pos_nonneg; lia).
  assert (Hlo' : 2 ^ Z.pos k * 2 ^ 52 <= Z.pos p).
  { rewrite <- Z.pow_add_r by lia.
    replace (Z.pos k + 52) with (d - 1) by lia. exact Hlo. }
  assert (Hhi' : Z.pos p < 2 ^ Z.pos k * 2 ^ 53).
  { rewrite <- Z.pow_add_r by lia.
    replace (Z.pos k + 53) with d by lia. exact Hhi. }
  assert (Hb1 : 2 ^ 52 <= shr_m mrs < 2 ^ 53).
  { rewrite Hm1. split.
    - apply Z.div_le_lower_bound; lia.
    - apply Z.div_lt_upper_bound; lia. }
  assert (Hdiv : shr_m mrs * 2 ^ Z.pos k <= Z.pos p <
                 (shr_m mrs + 1) * 2 ^ Z.pos k).
  { rewrite Hm1.
    pose proof (Z.div_mod (Z.pos p) (2 ^ Z.pos k) ltac:(lia)).
    pose proof (Z.mod_pos_bound (Z.pos p) (2 ^ Z.pos k) Hk0). lia. }
  pose proof (round_nearest_even_bounds (shr_m mrs) (loc_of_shr_record mrs))
    as Hr.
  set (m2 := round_nearest_even (shr_m mrs) (loc_of_shr_record mrs)) in *.
  destruct m2 as [|q|q] eqn:Hq; try lia.
  cbn [Zdigits2 shr_record_of_loc].
  pose proof (digits2_pos_bounds q) as [Hqlo Hqhi].
  assert (Hdq1 : 52 < Z.pos (digits2_pos q))
    by (apply digits2_pos_ge; lia).
  assert (Hdq2 : Z.pos (digits2_pos q) <= 54)
    by (apply digits2_pos_le; lia).
  set (dq := Z.pos (digits2_pos q)) in *.
  replace (Z.max (dq + (0 + Z.pos k) - 53) (3 - 1024 - 53) - (0 + Z.pos k))
    with (dq - 53) by lia.
  replace (d - 53) with (Z.pos k) by lia.
  destruct (dq - 53) as [|j|j] eqn:Hj; try lia.
  - cbn [shr shr_m]. exists q, (Z.pos k).
    split; [reflexivity|]. split; [lia|].
    split; [replace dq with 53 in Hqhi by lia; lia|].
    assert (Hcase : Z.pos q = shr_m mrs \/ Z.pos q = shr_m mrs + 1)
      by (clear - Hr; lia).
    clear - Hcase Hdiv. revert Hcase Hdiv.
    generalize (shr_m mrs) (2 ^ Z.pos k) (Z.pos q) (Z.pos p).
    intros a K x y [->| ->] H; lia.
  - assert (j = 1%positive) by lia. subst j.
    assert (Hq53 : Z.pos q = 2 ^ 53).
    { replace (dq - 1) with 53 in Hqlo by lia. lia. }
    cbn [shr SpecFloat.iter_pos shr_1 orb].
    destruct q as [q'|q'|]; try lia; cbn [shr_m].
    exists q', (Z.pos k + 1).
    split; [reflexivity|]. split; [lia|]. split; [lia|].
    rewrite Z.pow_add_r by lia. change (2 ^ 1) with 2.
    assert (Hcase : Z.pos q'~0 = shr_m mrs \/ Z.pos q'~0 = shr_m mrs + 1)
      by (clear - Hr; lia).
    rewrite (Pos2Z.inj_xO q') in Hcase.
    clear - Hcase Hdiv. revert Hcase Hdiv.
    generalize (shr_m mrs) (2 ^ Z.pos k) (Z.pos q') (Z.pos p).
    intros a K x y [H1|H1] H; rewrite <- H1 in H; lia.
Qed.

Lemma binary_round_ok (sx : bool) (p : positive) :
  float_of_int_ok (cond_Zopp sx (Z.pos p))
    match binary_round 53 1024 sx p 0 with
    | S754_infinity _ => Raise OverflowError
    | f => Ok f
    end.
Proof.
  assert (Habs : Z.abs (cond_Zopp sx (Z.pos p)) = Z.pos p)
    by (destruct sx; cbn [cond_Zopp]; lia).
  destruct (Z_lt_le_dec (Z.pos p) (2 ^ 53)) as [Hp|Hp].
  - destruct (binary_round_small sx p Hp) as (m & e & -> & He & Hm).
    cbn [float_of_int_ok]. rewrite Habs.
    split; [|split; [lia|]].
    + intros _. cbn [float_is_int]. split; [exact He|].
      destruct sx; cbn [cond_Zopp]; lia.
    + assert (2 ^ 53 < 2 ^ 1024) by (apply Z.pow_lt_mono_r; lia). lia.
  - destruct (binary_round_big sx p Hp) as (m & e & -> & He & Hm & Herr).
    pose proof (digits2_pos_ge p 53 Hp) as Hd.
    pose proof (digits2_pos_bounds p) as [Hlo Hhi].
    set (d := Z.pos (digits2_pos p)) in *.
    destruct (e <=? 971) eqn:Hle.
    + apply Z.leb_le in Hle. cbn [float_of_int_ok]. rewrite Habs.
      split; [lia|]. split.
      * intros _. cbn [float_near_int]. split; [lia|]. split; [exact Hm|].
        assert (Hpow : 2 ^ (d - 53) <= 2 ^ e)
          by (apply Z.pow_le_mono_r; lia).
        destruct sx; cbn [cond_Zopp]; lia.
      * assert (Hpow : 2 ^ d <= 2 ^ 1024)
          by (apply Z.pow_le_mono_r; lia).
        lia.
    + apply Z.leb_gt in Hle. cbn [float_of_int_ok]. rewrite Habs.
      split; [reflexivity|].
      assert (Hpow : 2 ^ 1023 <= 2 ^ (d - 1))
        by (apply Z.pow_le_mono_r; lia).
      lia.
Qed.

Lemma int_to_float_ok (z : Z) : float_of_int_ok z (int_to_float z).
Proof.
  unfold int_to_float, binary_normalize. destruct z as [|p|p].
  - cbn [float_of_int_ok float_is_int Z.abs].
    split; [reflexivity|]. split; [lia|]. apply Z.pow_pos_nonneg; lia.
  - apply (binary_round_ok false p).
  - apply (binary_round_ok true p).
Qed.

(** ** The monad *)

Lemma bind_Ok {A B : Type} (m : M A) (k : A -> M B) (s s' : state) (a : A) :
  m s = (Ok a, s') -> (m ≫= k) s = k a s'.
Proof. intros H. unfold mbind, M_bind. rewrite H. reflexivity. Qed.

Lemma bind_Raise {A B : Type} (m : M A) (k : A -> M B) (s s' : state)
  (e : exn) :
  m s = (Raise e, s') -> (m ≫= k) s = (Raise e, s').
Proof. intros H. unfold mbind, M_bind. rewrite H. reflexivity. Qed.

Ltac msimpl :=
  unfold mbind, mret, M_bind, M_ret, raise, lift, emit, store, alloc,
    with_lock, try_except, load in *; simpl in *.

(** ** The two direct points *)

Section Points.
Variables (s : state) (p : loc) (c : point_class) (v : pyval).
Hypothesis Hp : heap s !! p = Some (point_obj c v).

Lemma getattr_value_point : getattr_value p s = (Ok v, s).
Proof using Hp.
  unfold getattr_value. msimpl. rewrite Hp. destruct c; reflexivity.
Qed.

Lemma setattr_value_point (r : pyval) (evs : list event) :
  setattr_value p r (mkState (heap s) evs) =
    (Ok tt, mkState (<[p := point_obj c r]> (heap s)) evs).
Proof using Hp.
  unfold setattr_value. msimpl. rewrite Hp. destruct c; reflexivity.
Qed.

Lemma call_get_value_point : call_get_value p s = (Ok v, s).
Proof using Hp.
  unfold call_get_value, GaugePointLong_get_value,
    GaugePointDouble_get_value, getattr_value.
  msimpl. rewrite Hp. destruct c; simpl; rewrite Hp; reflexivity.
Qed.

Lemma call_to_point_value_point :
  call_to_point_value p s = (Ok (Some (snapshot c v)), s).
Proof using Hp.
  unfold call_to_point_value, GaugePointLong_to_point_value,
    GaugePointDouble_to_point_value, getattr_value.
  msimpl. rewrite Hp. destruct c; simpl; rewrite Hp; reflexivity.
Qed.

Lemma to_point_value_point (env : func_env) :
  to_point_value env p s = (Ok (Some (snapshot c v)), s).
Proof using Hp.
  unfold to_point_value, GaugePointLong_to_point_value,
    GaugePointDouble_to_point_value, getattr_value.
  msimpl. rewrite Hp. destruct c; simpl; rewrite Hp; reflexivity.
Qed.

Lemma get_value_point (env : func_env) : get_value env p s = (Ok v, s).
Proof using Hp.
  unfold get_value, GaugePointLong_get_value,
    GaugePointDouble_get_value, getattr_value.
  msimpl. rewrite Hp. destruct c; simpl; rewrite Hp; reflexivity.
Qed.

(** [set] through the class of the object: a long point checks the kind
    before it takes its lock, a double point converts under the lock. *)
Lemma call_set_point (val : pyval) :
  call_set p val s =
    match stored_value c val with
    | Ok r =>
        (Ok tt,
         mkState (<[p := point_obj c r]> (heap s))
           (trace s ++ [EvAcquire (ValueLock p); EvRelease (ValueLock p)]))
    | Raise e =>
        match c with
        | GaugePointLong => (Raise e, s)
        | GaugePointDouble =>
            (Raise e,
             mkState (heap s)
               (trace s ++
                  [EvAcquire (ValueLock p); EvRelease (ValueLock p)]))
        end
    end.
Proof using Hp.
  unfold call_set, GaugePointLong_set, GaugePointDouble_set, setattr_value.
  msimpl. rewrite Hp. destruct c; simpl in Hp |- *.
  - destruct (isinstance_integer val); simpl; [|destruct s; reflexivity].
    rewrite Hp. simpl. rewrite <- app_assoc. reflexivity.
  - destruct (py_float val); simpl; rewrite ?Hp; simpl;
      rewrite <- ?app_assoc; reflexivity.
Qed.

(** [add] through the class of the object. *)
Lemma call_add_point (val : pyval) :
  call_add p val s =
    match c, isinstance_integer val with
    | GaugePointLong, false => (Raise ValueError, s)
    | _, _ =>
        match py_add v val with
        | Ok r =>
            (Ok tt,
             mkState (<[p := point_obj c r]> (heap s))
               (trace s ++
                  [EvAcquire (ValueLock p); EvRelease (ValueLock p)]))
        | Raise e =>
            (Raise e,
             mkState (heap s)
               (trace s ++
                  [EvAcquire (ValueLock p); EvRelease (ValueLock p)]))
        end
    end.
Proof using Hp.
  unfold call_add, GaugePointLong_add, GaugePointDouble_add,
    getattr_value, setattr_value.
  msimpl. rewrite Hp. destruct c; simpl in Hp |- *.
  - destruct (isinstance_integer val); simpl; [|destruct s; reflexivity].
    rewrite Hp. simpl. destruct (py_add v val); simpl;
      rewrite ?Hp; simpl; rewrite <- ?app_assoc; reflexivity.
  - rewrite Hp. simpl. destruct (py_add v val); simpl;
      rewrite ?Hp; simpl; rewrite <- ?app_assoc; simpl;
      destruct (isinstance_integer val); reflexivity.
Qed.
End Points.

Lemma stored_value_ok (c : point_class) (val r : pyval) :
  stored_value c val = Ok r -> value_ok c r = true.
Proof.
  destruct c; simpl.
  - destruct (isinstance_integer val) eqn:E; congruence.
  - destruct val; simpl; try discriminate.
    + destruct (int_to_float (Z.b2z b)); inversion 1; reflexivity.
    + destruct (int_to_float z); inversion 1; reflexivity.
    + inversion 1; reflexivity.
Qed.

Lemma value_ok_not_None (c : point_class) : value_ok c VNone = false.
Proof. destruct c; reflexivity. Qed.

Lemma point_obj_inj (c c' : point_class) (v v' : pyval) :
  point_obj c v = point_obj c' v' -> c = c' /\ v = v'.
Proof. destruct c, c'; simpl; inversion 1; auto. Qed.

Lemma lookup_insert_point (h : list obj) (p : loc) (o o' : obj) :
  h !! p = Some o -> <[p := o']> h !! p = Some o'.
Proof.
  intros H. apply list_lookup_insert_eq. eapply lookup_lt_Some, H.
Qed.

(** ** The derived point *)

Section Derived.
Variables (env : func_env) (s : state) (self gp : loc) (f : fid).
Variables (c : point_class) (v : pyval).
Hypothesis Hself :
  heap s !! self = Some (ObjDerivedGaugePoint gp (WeakRef f)).
Hypothesis Hgp : heap s !! gp = Some (point_obj c v).

Lemma self_not_gp : self <> gp.
Proof using Hself Hgp.
  intros ->. rewrite Hself in Hgp. destruct c; discriminate.
Qed.

(** Every way a read of the tracked function can end. *)
Lemma DerivedGaugePoint_get_value_spec :
  DerivedGaugePoint_get_value env self s =
    if target_alive env f then
      let s1 := mkState (heap s) (trace s ++ [EvCall f]) in
      let s2 :=
        mkState (heap s)
          (trace s ++
             [EvCall f; EvAcquire (ValueLock gp); EvRelease (ValueLock gp)])
      in
      match func_result env f with
      | Raise e =>
          if decide (e = TypeError) then (Ok VNone, s1) else (Raise e, s1)
      | Ok val =>
          match stored_value c val with
          | Ok r =>
              (Ok r,
               mkState (<[gp := point_obj c r]> (heap s)) (trace s2))
          | Raise e =>
              let s3 :=
                match c with
                | GaugePointLong => s1
                | GaugePointDouble => s2
                end in
              if decide (e = TypeError) then (Ok VNone, s3)
              else (Raise e, s3)
          end
      end
    else (Ok VNone, s).
Proof using Hself Hgp.
  unfold DerivedGaugePoint_get_value.
  unfold mbind at 1. unfold M_bind at 1. unfold load at 1.
  rewrite Hself. cbn [weakref_call].
  destruct (target_alive env f).
  2:{ unfold try_except, py_call, raise, mbind, M_bind, mret, M_ret.
      simpl. reflexivity. }
  unfold try_except, py_call.
  unfold mbind at 1. unfold M_bind at 1.
  unfold mbind at 1. unfold M_bind at 1.
  unfold mbind at 1. unfold M_bind at 1.
  unfold emit at 1. unfold lift.
  destruct (func_result env f) as [val|e]; cbn beta iota zeta.
  2:{ destruct (decide (e = TypeError)); reflexivity. }
  unfold mbind at 1. unfold M_bind at 1.
  rewrite (call_set_point (mkState (heap s) (trace s ++ [EvCall f]))
             gp c v Hgp val).
  cbn [heap trace].
  destruct (stored_value c val) as [r|e] eqn:Hst.
  - cbn beta iota zeta. unfold mret, M_ret.
    rewrite <- app_assoc. cbn [app].
    erewrite (call_get_value_point _ gp c r); [reflexivity|].
    cbn [heap]. eapply lookup_insert_point, Hgp.
  - destruct c; cbn beta iota zeta; rewrite <- ?app_assoc; cbn [app];
      destruct (decide (e = TypeError)); reflexivity.
Qed.

Lemma DerivedGaugePoint_to_point_value_spec :
  DerivedGaugePoint_to_point_value env self s =
    match DerivedGaugePoint_get_value env self s with
    | (Ok VNone, s') => (Ok None, s')
    | (Ok r, s') => (Ok (Some (snapshot c r)), s')
    | (Raise e, s') => (Raise e, s')
    end.
Proof using Hself Hgp.
  unfold DerivedGaugePoint_to_point_value.
  unfold mbind at 1. unfold M_bind at 1.
  rewrite DerivedGaugePoint_get_value_spec.
  destruct (target_alive env f); [|reflexivity].
  cbn zeta.
  destruct (func_result env f) as [val|e].
  2:{ destruct (decide (e = TypeError)); reflexivity. }
  destruct (stored_value c val) as [r|e] eqn:Hst.
  2:{ destruct (decide (e = TypeError)); reflexivity. }
  assert (Hr : value_ok c r = true) by (eapply stored_value_ok, Hst).
  assert (Hload :
    call_to_point_value gp
      (mkState (<[gp := point_obj c r]> (heap s))
         (trace s ++
            [EvCall f; EvAcquire (ValueLock gp);
             EvRelease (ValueLock gp)])) =
    (Ok (Some (snapshot c r)),
     mkState (<[gp := point_obj c r]> (heap s))
       (trace s ++
          [EvCall f; EvAcquire (ValueLock gp); EvRelease (ValueLock gp)]))).
  { apply call_to_point_value_point. cbn [heap].
    eapply lookup_insert_point, Hgp. }
  assert (Hs :
    (<[gp := point_obj c r]> (heap s)) !! self =
      Some (ObjDerivedGaugePoint gp (WeakRef f))).
  { rewrite list_lookup_insert_ne; [exact Hself|].
    intros E. apply self_not_gp. auto. }
  destruct r; try (rewrite value_ok_not_None in Hr; discriminate);
    cbn beta iota zeta; cbn [trace];
    unfold mbind, M_bind, load; cbn [heap];
    rewrite Hs; apply Hload.
Qed.
End Derived.

(** ** What reading or writing a point can change *)

Lemma points_only_refl (s : state) : points_only s s.
Proof.
  split; [constructor|]. exists []. rewrite app_nil_r. auto.
Qed.

Lemma point_update_trans (h1 h2 h3 : list obj) :
  point_update h1 h2 -> point_update h2 h3 -> point_update h1 h3.
Proof.
  intros H12 H23. induction H23; [assumption|].
  econstructor; eauto.
Qed.

Lemma points_only_trans (s1 s2 s3 : state) :
  points_only s1 s2 -> points_only s2 s3 -> points_only s1 s3.
Proof.
  intros [Hh (e1 & He1 & Hf1)] [Hh' (e2 & He2 & Hf2)]. split.
  - eapply point_update_trans; eauto.
  - exists (e1 ++ e2). rewrite He2, He1, app_assoc. split; [reflexivity|].
    rewrite forallb_app, Hf1, Hf2. reflexivity.
Qed.

Lemma points_only_events (s : state) (evs : list event) :
  forallb value_event evs = true ->
  points_only s (mkState (heap s) (trace s ++ evs)).
Proof. intros H. split; [constructor|]. exists evs. auto. Qed.

Lemma points_only_store (s : state) (p : loc) (c : point_class)
  (v r : pyval) (evs : list event) :
  heap s !! p = Some (point_obj c v) ->
  value_ok c r = true ->
  forallb value_event evs = true ->
  points_only s (mkState (<[p := point_obj c r]> (heap s)) (trace s ++ evs)).
Proof.
  intros Hp Hr Hev. split.
  - simpl. econstructor; eauto. constructor.
  - exists evs. auto.
Qed.

Lemma py_add_ok (c : point_class) (v val r : pyval) :
  value_ok c v = true ->
  (c = GaugePointLong -> isinstance_integer val = true) ->
  py_add v val = Ok r -> value_ok c r = true.
Proof.
  intros Hv Hval. destruct c; simpl in *.
  - specialize (Hval eq_refl).
    destruct v, val; try discriminate; simpl; inversion 1; reflexivity.
  - destruct v; try discriminate.
    destruct val; simpl; try discriminate.
    + destruct (int_to_float (Z.b2z b)); inversion 1; reflexivity.
    + destruct (int_to_float z); inversion 1; reflexivity.
    + inversion 1; reflexivity.
Qed.

Lemma is_point_dec (h : list obj) (p : loc) :
  (exists c v, h !! p = Some (point_obj c v)) \/
  (forall c v, h !! p <> Some (point_obj c v)).
Proof.
  destruct (h !! p) as [[v|v| | |]|] eqn:E.
  - left. exists GaugePointLong, v. reflexivity.
  - left. exists GaugePointDouble, v. reflexivity.
  - right. intros [] ?; discriminate.
  - right. intros [] ?; discriminate.
  - right. intros [] ?; discriminate.
  - right. intros [] ?; discriminate.
Qed.

Lemma call_set_effect (s s' : state) (p : loc) (val : pyval) r :
  call_set p val s = (r, s') -> points_only s s'.
Proof.
  destruct (is_point_dec (heap s) p) as [(c & v & Hp)|Hn].
  - rewrite (call_set_point s p c v Hp).
    destruct (stored_value c val) as [x|e] eqn:Hst.
    + inversion 1; subst. apply points_only_store with (v := v); auto.
      eapply stored_value_ok, Hst.
    + destruct c; inversion 1; subst;
        [apply points_only_refl|apply points_only_events; reflexivity].
  - unfold call_set. msimpl.
    destruct (heap s !! p) as [[v|v| | |]|] eqn:E;
      try (inversion 1; subst; apply points_only_refl).
    + exfalso. apply (Hn GaugePointLong v). reflexivity.
    + exfalso. apply (Hn GaugePointDouble v). reflexivity.
Qed.

Lemma call_add_effect (s s' : state) (p : loc) (val : pyval) r :
  values_ok (heap s) -> call_add p val s = (r, s') -> points_only s s'.
Proof.
  intros Hok.
  destruct (is_point_dec (heap s) p) as [(c & v & Hp)|Hn].
  - rewrite (call_add_point s p c v Hp).
    assert (Hv : value_ok c v = true) by (eapply Hok, Hp).
    destruct c.
    + destruct (isinstance_integer val) eqn:Hi.
      * destruct (py_add v val) as [x|e] eqn:Ha; inversion 1; subst.
        -- apply (points_only_store s p GaugePointLong v); auto.
           apply (py_add_ok GaugePointLong v val); auto.
        -- apply points_only_events. reflexivity.
      * inversion 1; subst. apply points_only_refl.
    + assert (Hd :
        forall x, py_add v val = Ok x -> value_ok GaugePointDouble x = true).
      { intros x. apply py_add_ok; auto. discriminate. }
      destruct (py_add v val) as [x|e] eqn:Ha;
        destruct (isinstance_integer val); inversion 1; subst;
        try (apply points_only_events; reflexivity);
        apply (points_only_store s p GaugePointDouble v); auto.
  - unfold call_add. msimpl.
    destruct (heap s !! p) as [[v|v| | |]|] eqn:E;
      try (inversion 1; subst; apply points_only_refl).
    + exfalso. apply (Hn GaugePointLong v). reflexivity.
    + exfalso. apply (Hn GaugePointDouble v). reflexivity.
Qed.

Lemma call_set_not_point (s : state) (p : loc) (val : pyval) :
  (forall c v, heap s !! p <> Some (point_obj c v)) ->
  exists e, call_set p val s = (Raise e, s) /\ e <> TypeError.
Proof.
  intros Hn. unfold call_set. msimpl.
  destruct (heap s !! p) as [[v|v| | |]|] eqn:E.
  - exfalso. apply (Hn GaugePointLong v). reflexivity.
  - exfalso. apply (Hn GaugePointDouble v). reflexivity.
  - exists AttributeError. split; [reflexivity|discriminate].
  - exists AttributeError. split; [reflexivity|discriminate].
  - exists AttributeError. split; [reflexivity|discriminate].
  - exists DanglingReference. split; [reflexivity|discriminate].
Qed.

Lemma DerivedGaugePoint_get_value_effect (env : func_env) (s s' : state)
  (self : loc) r :
  DerivedGaugePoint_get_value env self s = (r, s') -> points_only s s'.
Proof.
  destruct (heap s !! self) as [o|] eqn:Hself.
  2:{ unfold DerivedGaugePoint_get_value. msimpl. rewrite Hself.
      inversion 1; subst. apply points_only_refl. }
  destruct o as [v|v|gp [f]|items|gf];
    try (unfold DerivedGaugePoint_get_value; msimpl; rewrite Hself;
         inversion 1; subst; apply points_only_refl).
  destruct (is_point_dec (heap s) gp) as [(c & v & Hgp)|Hn].
  - rewrite (DerivedGaugePoint_get_value_spec env s self gp f c v Hself Hgp).
    destruct (target_alive env f).
    2:{ inversion 1; subst. apply points_only_refl. }
    cbn zeta. destruct (func_result env f) as [val|e].
    2:{ destruct (decide (e = TypeError)); inversion 1; subst;
          apply points_only_events; reflexivity. }
    destruct (stored_value c val) as [x|e] eqn:Hst.
    + inversion 1; subst. apply points_only_store with (v := v); auto.
      eapply stored_value_ok, Hst.
    + destruct c, (decide (e = TypeError)); inversion 1; subst;
        apply points_only_events; reflexivity.
  - unfold DerivedGaugePoint_get_value.
    unfold mbind at 1. unfold M_bind at 1. unfold load at 1.
    rewrite Hself. cbn [weakref_call].
    destruct (target_alive env f).
    2:{ unfold try_except, py_call, raise, mbind, M_bind, mret, M_ret.
        simpl. inversion 1; subst. apply points_only_refl. }
    unfold try_except, py_call.
    unfold mbind at 1. unfold M_bind at 1.
    unfold mbind at 1. unfold M_bind at 1.
    unfold mbind at 1. unfold M_bind at 1.
    unfold emit at 1. unfold lift.
    destruct (func_result env f) as [val|e]; cbn beta iota zeta.
    2:{ destruct (decide (e = TypeError)); inversion 1; subst;
          apply points_only_events; reflexivity. }
    unfold mbind at 1. unfold M_bind at 1.
    destruct (call_set_not_point
                (mkState (heap s) (trace s ++ [EvCall f])) gp val Hn)
      as (e & -> & He).
    destruct (decide (e = TypeError)); [contradiction|].
    inversion 1; subst. apply points_only_events. reflexivity.
Qed.

Lemma DerivedGaugePoint_to_point_value_effect (env : func_env)
  (s s' : state) (self : loc) r :
  DerivedGaugePoint_to_point_value env self s = (r, s') -> points_only s s'.
Proof.
  unfold DerivedGaugePoint_to_point_value.
  unfold mbind at 1. unfold M_bind at 1.
  destruct (DerivedGaugePoint_get_value env self s) as [[x|e] s1] eqn:Hg.
  2:{ inversion 1; subst.
      eapply DerivedGaugePoint_get_value_effect, Hg. }
  pose proof (DerivedGaugePoint_get_value_effect _ _ _ _ _ Hg) as H1.
  assert (Hrest : forall r s',
    (o ← load self;
     match o with
     | ObjDerivedGaugePoint gauge_point _ => call_to_point_value gauge_point
     | _ => raise AttributeError
     end) s1 = (r, s') -> s' = s1).
  { clear. intros r s'. unfold call_to_point_value,
      GaugePointLong_to_point_value, GaugePointDouble_to_point_value,
      getattr_value. msimpl.
    destruct (heap s1 !! self) as [[| |gp ?| |]|]; simpl;
      try (intros H; inversion H; reflexivity).
    destruct (heap s1 !! gp) as [[| | | |]|] eqn:E; simpl; rewrite ?E;
      simpl; intros H; inversion H; reflexivity. }
  destruct x; intros H;
    try (apply Hrest in H; subst; exact H1).
  inversion H; subst. exact H1.
Qed.

Lemma to_point_value_effect (env : func_env) (s s' : state) (p : loc) r :
  to_point_value env p s = (r, s') -> points_only s s'.
Proof.
  destruct (is_point_dec (heap s) p) as [(c & v & Hp)|Hn].
  - rewrite (to_point_value_point s p c v Hp). inversion 1; subst.
    apply points_only_refl.
  - unfold to_point_value.
    unfold mbind at 1. unfold M_bind at 1. unfold load at 1.
    destruct (heap s !! p) as [[v|v|gp ?|items|gf]|] eqn:E;
      try (unfold raise; inversion 1; subst; apply points_only_refl).
    + exfalso. apply (Hn GaugePointLong v). reflexivity.
    + exfalso. apply (Hn GaugePointDouble v). reflexivity.
    + apply DerivedGaugePoint_to_point_value_effect.
Qed.

Lemma get_value_effect (env : func_env) (s s' : state) (p : loc) r :
  get_value env p s = (r, s') -> points_only s s'.
Proof.
  destruct (is_point_dec (heap s) p) as [(c & v & Hp)|Hn].
  - rewrite (get_value_point s p c v Hp). inversion 1; subst.
    apply points_only_refl.
  - unfold get_value.
    unfold mbind at 1. unfold M_bind at 1. unfold load at 1.
    destruct (heap s !! p) as [[v|v|gp ?|items|gf]|] eqn:E;
      try (unfold raise; inversion 1; subst; apply points_only_refl).
    + exfalso. apply (Hn GaugePointLong v). reflexivity.
    + exfalso. apply (Hn GaugePointDouble v). reflexivity.
    + apply DerivedGaugePoint_get_value_effect.
Qed.

(** ** The invariants under updates of points and under allocation *)

Lemma point_update_length (h h' : list obj) :
  point_update h h' -> length h' = length h.
Proof.
  induction 1; [reflexivity|]. rewrite length_insert. assumption.
Qed.

Lemma point_update_lookup_point (h h' : list obj) (l : loc)
  (c : point_class) (v : pyval) :
  point_update h h' -> h !! l = Some (point_obj c v) ->
  exists v', h' !! l = Some (point_obj c v').
Proof.
  induction 1 as [|h1 gp c' v' r Hu IH Hgp Hr]; intros Hl; [eauto|].
  destruct (IH Hl) as [v1 Hv1].
  destruct (decide (gp = l)) as [E|Hne].
  - subst gp.
    assert (Hc : point_obj c' v' = point_obj c v1)
      by (apply Some_inj; exact (eq_trans (eq_sym Hgp) Hv1)).
    apply point_obj_inj in Hc as [-> _].
    exists r. eapply lookup_insert_point, Hv1.
  - exists v1. rewrite list_lookup_insert_ne; auto.
Qed.

Lemma point_update_lookup_other (h h' : list obj) (l : loc) (o : obj) :
  point_update h h' -> h !! l = Some o ->
  (forall c v, o <> point_obj c v) -> h' !! l = Some o.
Proof.
  induction 1 as [|h1 gp c' v' r Hu IH Hgp Hr]; intros Hl Ho; [auto|].
  specialize (IH Hl Ho).
  rewrite list_lookup_insert_ne; [assumption|].
  intros E. subst gp.
  assert (Hc : o = point_obj c' v')
    by (apply Some_inj; exact (eq_trans (eq_sym IH) Hgp)).
  eapply Ho; eauto.
Qed.

Lemma point_update_values_ok (h h' : list obj) :
  point_update h h' -> values_ok h -> values_ok h'.
Proof.
  induction 1 as [|h1 gp c' v' r Hu IH Hgp Hr]; intros Hok; [auto|].
  specialize (IH Hok). intros l c v Hl.
  destruct (decide (gp = l)) as [E|Hne].
  - subst gp. erewrite lookup_insert_point in Hl by eauto.
    assert (Hc : point_obj c' r = point_obj c v)
      by (apply Some_inj; exact Hl).
    apply point_obj_inj in Hc as [-> ->]. assumption.
  - rewrite list_lookup_insert_ne in Hl by auto. eapply IH, Hl.
Qed.

Lemma not_point_derived gp w c v : ObjDerivedGaugePoint gp w <> point_obj c v.
Proof. destruct c; discriminate. Qed.

Lemma not_point_dict items c v : ObjOrderedDict items <> point_obj c v.
Proof. destruct c; discriminate. Qed.

Lemma not_point_gauge gf c v : ObjGauge gf <> point_obj c v.
Proof. destruct c; discriminate. Qed.

Lemma point_update_entry_ok (h h' : list obj) (cls : gauge_class) (p : loc) :
  point_update h h' -> entry_ok h cls p -> entry_ok h' cls p.
Proof.
  intros Hu. unfold entry_ok, direct_point.
  destruct (is_Gauge cls).
  - intros [v Hv]. eapply point_update_lookup_point; eauto.
  - intros (gp & f & Hp & v & Hv). exists gp, f. split.
    + eapply point_update_lookup_other; eauto.
      intros; apply not_point_derived.
    + eapply point_update_lookup_point; eauto.
Qed.

Lemma gauge_inv_point_update (h h' : list obj) (g : loc)
  (gf : gauge_fields) (items : list (label_values_t * loc)) :
  point_update h h' -> gauge_inv h g gf items -> gauge_inv h' g gf items.
Proof.
  intros Hu [Hg Hd Hk Hl He Hdef Hv]. split; auto.
  - eapply point_update_lookup_other; eauto. intros; apply not_point_gauge.
  - eapply point_update_lookup_other; eauto. intros; apply not_point_dict.
  - eapply Forall_impl; [exact He|]. intros p.
    apply point_update_entry_ok, Hu.
  - eapply point_update_values_ok; eauto.
Qed.

Lemma lookup_app_Some (h : list obj) (o o' : obj) (l : loc) :
  h !! l = Some o -> (h ++ [o']) !! l = Some o.
Proof. intros H. apply lookup_app_l_Some, H. Qed.

Lemma lookup_app_new (h : list obj) (o : obj) :
  (h ++ [o]) !! length h = Some o.
Proof. rewrite lookup_app_r by lia. rewrite Nat.sub_diag. reflexivity. Qed.

Lemma entry_ok_alloc (h : list obj) (o : obj) (cls : gauge_class) (p : loc) :
  entry_ok h cls p -> entry_ok (h ++ [o]) cls p.
Proof.
  unfold entry_ok, direct_point. destruct (is_Gauge cls).
  - intros [v Hv]. exists v. apply lookup_app_Some, Hv.
  - intros (gp & f & Hp & v & Hv). exists gp, f.
    split; [|exists v]; apply lookup_app_Some; assumption.
Qed.

Lemma values_ok_alloc (h : list obj) (o : obj) :
  values_ok h ->
  (forall c v, o = point_obj c v -> value_ok c v = true) ->
  values_ok (h ++ [o]).
Proof.
  intros Hok Ho l c v Hl.
  destruct (decide (l < length h)%nat) as [Hlt|Hge].
  - rewrite lookup_app_l in Hl by assumption. eapply Hok, Hl.
  - rewrite lookup_app_r in Hl by lia.
    destruct (l - length h)%nat as [|n] eqn:E; simpl in Hl; [|discriminate].
    apply Ho. congruence.
Qed.

Lemma gauge_inv_alloc (h : list obj) (o : obj) (g : loc)
  (gf : gauge_fields) (items : list (label_values_t * loc)) :
  (forall c v, o = point_obj c v -> value_ok c v = true) ->
  gauge_inv h g gf items -> gauge_inv (h ++ [o]) g gf items.
Proof.
  intros Ho [Hg Hd Hk Hl He Hdef Hv]. split; auto.
  - apply lookup_app_Some, Hg.
  - apply lookup_app_Some, Hd.
  - eapply Forall_impl; [exact He|]. intros p. apply entry_ok_alloc.
  - apply values_ok_alloc; assumption.
Qed.

(** ** The ordered map *)

Lemma dict_get_Some (k : label_values_t) (p : loc)
  (items : list (label_values_t * loc)) :
  dict_get k items = Some p -> (k, p) ∈ items.
Proof.
  induction items as [|[k' v] rest IH]; simpl; [discriminate|].
  destruct (decide (k' = k)) as [->|Hne].
  - inversion 1; subst. left.
  - intros H. right. auto.
Qed.

Lemma dict_get_None (k : label_values_t)
  (items : list (label_values_t * loc)) :
  dict_get k items = None <-> k ∉ items.*1.
Proof.
  induction items as [|[k' v] rest IH]; simpl.
  - split; [intros _ H; inversion H|reflexivity].
  - rewrite not_elem_of_cons. destruct (decide (k' = k)) as [->|Hne].
    + split; [discriminate|intros [H _]; contradiction].
    + rewrite IH. split; [intros H; split; auto|intros [_ H]; exact H].
Qed.

Lemma dict_get_is_Some (k : label_values_t)
  (items : list (label_values_t * loc)) :
  k ∈ items.*1 -> exists p, dict_get k items = Some p.
Proof.
  intros H. destruct (dict_get k items) as [p|] eqn:E; [eauto|].
  apply dict_get_None in E. contradiction.
Qed.

Lemma dict_get_app (k k' : label_values_t) (p : loc)
  (items : list (label_values_t * loc)) :
  dict_get k (items ++ [(k', p)]) =
    match dict_get k items with
    | Some q => Some q
    | None => if decide (k' = k) then Some p else None
    end.
Proof.
  induction items as [|[k1 v] rest IH]; simpl; [reflexivity|].
  destruct (decide (k1 = k)); [reflexivity|apply IH].
Qed.

Lemma dict_get_inj (k1 k2 : label_values_t) (p : loc)
  (items : list (label_values_t * loc)) :
  NoDup items.*2 ->
  dict_get k1 items = Some p -> dict_get k2 items = Some p -> k1 = k2.
Proof.
  induction items as [|[k v] rest IH]; simpl; [discriminate|].
  rewrite NoDup_cons. intros [Hv Hnd].
  destruct (decide (k = k1)) as [E1|H1], (decide (k = k2)) as [E2|H2];
    auto; try subst k.
  - congruence.
  - intros [= ->] H. apply dict_get_Some in H. exfalso. apply Hv.
    apply list_elem_of_fmap. exists (k2, p). auto.
  - intros H [= ->]. apply dict_get_Some in H. exfalso. apply Hv.
    apply list_elem_of_fmap. exists (k1, p). auto.
Qed.

Lemma dict_remove_absent (k : label_values_t)
  (items : list (label_values_t * loc)) :
  dict_get k items = None -> dict_remove k items = items.
Proof.
  induction items as [|[k' v] rest IH]; simpl; [reflexivity|].
  destruct (decide (k' = k)); [discriminate|]. intros H. f_equal. auto.
Qed.

Lemma dict_remove_sublist (k : label_values_t)
  (items : list (label_values_t * loc)) :
  sublist (dict_remove k items) items.
Proof.
  induction items as [|[k' v] rest IH]; simpl; [constructor|].
  destruct (decide (k' = k)).
  - apply sublist_cons. reflexivity.
  - apply sublist_skip. assumption.
Qed.

Lemma dict_get_remove (k k' : label_values_t)
  (items : list (label_values_t * loc)) :
  NoDup items.*1 ->
  dict_get k' (dict_remove k items) =
    if decide (k = k') then None else dict_get k' items.
Proof.
  induction items as [|[k1 v] rest IH]; simpl.
  - intros _. destruct (decide (k = k')); reflexivity.
  - rewrite NoDup_cons. intros [Hk Hnd].
    destruct (decide (k1 = k)) as [->|H1].
    + destruct (decide (k = k')) as [->|H2]; [|reflexivity].
      apply dict_get_None. assumption.
    + simpl. destruct (decide (k1 = k')) as [->|H3].
      * destruct (decide (k = k')); [congruence|reflexivity].
      * apply IH, Hnd.
Qed.

(** ** The methods of a gauge, as equations *)

Lemma getattr_gauge_ok (s : state) (g : loc) (gf : gauge_fields) :
  heap s !! g = Some (ObjGauge gf) -> getattr_gauge g s = (Ok gf, s).
Proof. intros H. unfold getattr_gauge. msimpl. rewrite H. reflexivity. Qed.

Lemma dict_items_ok (s : state) (d : loc)
  (items : list (label_values_t * loc)) :
  heap s !! d = Some (ObjOrderedDict items) -> dict_items d s = (Ok items, s).
Proof. intros H. unfold dict_items. msimpl. rewrite H. reflexivity. Qed.

Lemma new_point_spec (c : point_class) (s : state) :
  new_point c s =
    (Ok (length (heap s)),
     mkState (heap s ++ [point_obj c (zero_value c)]) (trace s)).
Proof. destruct c; reflexivity. Qed.

Section GaugeMethods.
Variables (s : state) (g : loc) (gf : gauge_fields).
Variable items : list (label_values_t * loc).
Hypothesis Hg : heap s !! g = Some (ObjGauge gf).
Hypothesis Hd : heap s !! points gf = Some (ObjOrderedDict items).

Let locked : list event :=
  [EvAcquire (PointsLock g); EvRelease (PointsLock g)].

Lemma g_not_dict : g <> points gf.
Proof using Hg Hd. intros E. rewrite <- E in Hd. congruence. Qed.

Lemma BaseGauge__remove_time_series_spec (lv : label_values_t) :
  BaseGauge__remove_time_series g lv s =
    (Ok tt,
     match dict_get lv items with
     | Some _ =>
         mkState
           (<[points gf := ObjOrderedDict (dict_remove lv items)]> (heap s))
           (trace s ++ locked)
     | None => after_events s locked
     end).
Proof using Hg Hd.
  unfold BaseGauge__remove_time_series, with_lock, try_except, emit.
  cbn [heap trace].
  unfold mbind at 1. unfold M_bind at 1.
  rewrite (getattr_gauge_ok (mkState (heap s) _) g gf Hg).
  unfold dict_delitem. unfold mbind at 1. unfold M_bind at 1.
  rewrite (dict_items_ok (mkState (heap s) _) _ items Hd).
  unfold after_events.
  destruct (dict_get lv items); unfold store, raise, mret, M_ret; cbn;
    [|destruct (decide (KeyError = KeyError)); [cbn|congruence]];
    rewrite <- app_assoc; reflexivity.
Qed.

Lemma BaseGauge_remove_time_series_invalid
  (label_values : option label_values_t) :
  match label_values with
  | None => True
  | Some lv =>
      any_is_None lv = true \/ length lv <> _len_label_keys gf
  end ->
  BaseGauge_remove_time_series g label_values s = (Raise ValueError, s).
Proof using Hg.
  unfold BaseGauge_remove_time_series.
  destruct label_values as [lv|]; [|reflexivity].
  destruct (any_is_None lv); [reflexivity|].
  intros [?|Hlen]; [discriminate|].
  unfold mbind, M_bind. rewrite (getattr_gauge_ok s g gf Hg).
  destruct (Nat.eqb_spec (length lv) (_len_label_keys gf));
    [contradiction|reflexivity].
Qed.

Lemma BaseGauge_remove_time_series_valid (lv : label_values_t) :
  valid_label_values gf lv ->
  BaseGauge_remove_time_series g (Some lv) s =
    BaseGauge__remove_time_series g lv s.
Proof using Hg.
  intros [Hn Hlen]. unfold BaseGauge_remove_time_series. rewrite Hn.
  unfold mbind, M_bind. rewrite (getattr_gauge_ok s g gf Hg).
  rewrite Hlen, Nat.eqb_refl. reflexivity.
Qed.

Lemma BaseGauge_clear_spec :
  BaseGauge_clear g s =
    (Ok tt,
     mkState
       (<[g := ObjGauge (with_points gf (length (heap s)))]>
          (heap s ++ [ObjOrderedDict []]))
       (trace s ++ locked)).
Proof using Hg.
  unfold BaseGauge_clear, with_lock, emit. cbn [heap trace].
  unfold mbind at 1. unfold M_bind at 1. unfold alloc at 1.
  cbn [heap trace].
  unfold mbind at 1. unfold M_bind at 1.
  rewrite (getattr_gauge_ok (mkState (heap s ++ _) _) g gf)
    by (apply lookup_app_Some, Hg).
  unfold store. cbn. rewrite <- app_assoc. reflexivity.
Qed.

Lemma Gauge__get_or_create_time_series_spec (lv : label_values_t) :
  let c := point_type (g_class gf) in
  let h1 := heap s ++ [point_obj c (zero_value c)] in
  Gauge__get_or_create_time_series g lv s =
    match dict_get lv items with
    | Some p => (Ok p, mkState h1 (trace s ++ locked))
    | None =>
        (Ok (length (heap s)),
         mkState
           (<[points gf :=
                ObjOrderedDict (items ++ [(lv, length (heap s))])]> h1)
           (trace s ++ locked))
    end.
Proof using Hg Hd.
  intros c h1.
  unfold Gauge__get_or_create_time_series, with_lock, emit.
  cbn [heap trace].
  unfold mbind at 1. unfold M_bind at 1.
  rewrite (getattr_gauge_ok (mkState (heap s) _) g gf Hg).
  unfold mbind at 1. unfold M_bind at 1.
  rewrite new_point_spec. cbn [heap trace]. fold c. fold h1.
  unfold dict_setdefault. unfold mbind at 1. unfold M_bind at 1.
  rewrite (dict_items_ok (mkState h1 _) _ items)
    by (apply lookup_app_Some, Hd).
  destruct (dict_get lv items); unfold store, mbind, M_bind, mret, M_ret;
    cbn; rewrite <- app_assoc; reflexivity.
Qed.

Lemma DerivedGauge__create_time_series_spec (lv : label_values_t)
  (f : fid) :
  let c := point_type (g_class gf) in
  let h1 :=
    heap s ++ [point_obj c (zero_value c)] ++
      [ObjDerivedGaugePoint (length (heap s)) (WeakRef f)] in
  DerivedGauge__create_time_series g lv f s =
    match dict_get lv items with
    | Some p => (Ok p, mkState h1 (trace s ++ locked))
    | None =>
        (Ok (S (length (heap s))),
         mkState
           (<[points gf :=
                ObjOrderedDict (items ++ [(lv, S (length (heap s)))])]> h1)
           (trace s ++ locked))
    end.
Proof using Hg Hd.
  intros c h1.
  unfold DerivedGauge__create_time_series, with_lock, emit.
  cbn [heap trace].
  unfold mbind at 1. unfold M_bind at 1.
  rewrite (getattr_gauge_ok (mkState (heap s) _) g gf Hg).
  unfold mbind at 1. unfold M_bind at 1.
  rewrite new_point_spec. cbn [heap trace]. fold c.
  unfold mbind at 1. unfold M_bind at 1.
  unfold DerivedGaugePoint_init, alloc, get_weakref. cbn [heap trace].
  rewrite length_app, <- app_assoc. cbn [length]. fold h1.
  replace (length (heap s) + 1)%nat with (S (length (heap s))) by lia.
  unfold dict_setdefault. unfold mbind at 1. unfold M_bind at 1.
  rewrite (dict_items_ok (mkState h1 _) _ items)
    by (apply lookup_app_l_Some, Hd).
  destruct (dict_get lv items); unfold store, mbind, M_bind, mret, M_ret;
    cbn; rewrite <- app_assoc; reflexivity.
Qed.
End GaugeMethods.

(** ** get_timeseries_list and get_metric *)

Lemma value_event_point_event (evs : list event) :
  forallb value_event evs = true -> forallb point_event evs = true.
Proof.
  induction evs as [|ev evs IH]; simpl; [reflexivity|].
  rewrite !andb_true_iff. intros [H1 H2]. split; [|auto].
  destruct ev as [[]|[]| |]; simpl in *; congruence.
Qed.

Lemma value_event_conversions (evs : list event) :
  forallb value_event evs = true -> conversions evs = [].
Proof.
  induction evs as [|ev evs IH]; simpl; [reflexivity|].
  rewrite andb_true_iff. intros [H1 H2].
  destruct ev as [[]|[]| |]; simpl in *; try discriminate; auto.
Qed.

Lemma conversions_app (a b : list event) :
  conversions (a ++ b) = conversions a ++ conversions b.
Proof. apply omap_app. Qed.

Lemma get_timeseries_list_loop_shape (env : func_env) (t : timestamp)
  (items : list (label_values_t * loc)) :
  forall acc s l s',
    get_timeseries_list_loop env items t acc s = (Ok l, s') ->
    exists vs, length vs = length items /\
               l = acc ++ series t (zip items.*1 vs).
Proof.
  induction items as [|[lv gp] rest IH]; intros acc s l s'; simpl.
  - inversion 1; subst. exists []. rewrite app_nil_r. auto.
  - unfold mbind at 1. unfold M_bind at 1. unfold emit at 1.
    unfold mbind at 1. unfold M_bind at 1.
    destruct (to_point_value env gp _) as [[v|e] s1]; [|discriminate].
    intros H. apply IH in H as (vs & Hlen & ->).
    exists (v :: vs). simpl. rewrite Hlen, <- app_assoc. auto.
Qed.

Lemma get_timeseries_list_loop_effect (env : func_env) (t : timestamp)
  (items : list (label_values_t * loc)) :
  forall acc s r s',
    get_timeseries_list_loop env items t acc s = (r, s') ->
    point_update (heap s) (heap s') /\
    exists evs,
      trace s' = trace s ++ evs /\
      forallb point_event evs = true /\
      (forall l, r = Ok l -> conversions evs = items.*2) /\
      match items with
      | [] => evs = []
      | (_, p) :: _ => exists evs', evs = EvToPointValue p :: evs'
      end.
Proof.
  induction items as [|[lv gp] rest IH]; intros acc s r s'; simpl.
  - inversion 1; subst. split; [constructor|]. exists [].
    rewrite app_nil_r. auto.
  - unfold mbind at 1. unfold M_bind at 1. unfold emit at 1.
    unfold mbind at 1. unfold M_bind at 1.
    destruct (to_point_value env gp _) as [[v|e] s1] eqn:Hv;
      apply to_point_value_effect in Hv as [Hu (e1 & He1 & Hf1)];
      cbn [heap trace] in *.
    + intros H. apply IH in H as [Hu' (e2 & He2 & Hf2 & Hc & _)]. split.
      * eapply point_update_trans; eauto.
      * exists (EvToPointValue gp :: e1 ++ e2).
        rewrite He2, He1, <- !app_assoc. split; [reflexivity|].
        split; [|split; [|eauto]].
        -- simpl. rewrite forallb_app, Hf2.
           rewrite (value_event_point_event _ Hf1). reflexivity.
        -- intros l ->. cbn. f_equal.
           change (conversions (e1 ++ e2) = rest.*2).
           rewrite conversions_app, (value_event_conversions _ Hf1).
           eauto.
    + inversion 1; subst. split; [assumption|].
      exists (EvToPointValue gp :: e1).
      rewrite He1, <- !app_assoc. split; [reflexivity|].
      split; [|split; [discriminate|eauto]].
      simpl. apply value_event_point_event, Hf1.
Qed.

Lemma get_timeseries_list_loop_direct (env : func_env) (t : timestamp)
  (items : list (label_values_t * loc)) :
  forall acc s,
    Forall (fun p => exists c v, heap s !! p = Some (point_obj c v))
      items.*2 ->
    get_timeseries_list_loop env items t acc s =
      (Ok (acc ++
             series t
               (map (fun kv => (kv.1, snapshot_at (heap s) kv.2)) items)),
       after_events s (EvToPointValue <$> items.*2)).
Proof.
  induction items as [|[lv gp] rest IH]; intros acc s; simpl.
  - intros _. unfold after_events. rewrite !app_nil_r.
    destruct s; reflexivity.
  - rewrite Forall_cons. intros [(c & v & Hp) Hrest].
    unfold mbind at 1. unfold M_bind at 1. unfold emit at 1.
    unfold mbind at 1. unfold M_bind at 1.
    rewrite (to_point_value_point (mkState (heap s) _) gp c v Hp).
    rewrite IH by exact Hrest.
    unfold after_events, snapshot_at. cbn [heap trace].
    rewrite Hp, <- !app_assoc. destruct c; reflexivity.
Qed.

Lemma BaseGauge_get_metric_spec (env : func_env) (s : state) (g : loc)
  (gf : gauge_fields) (items : list (label_values_t * loc))
  (t : timestamp) :
  heap s !! g = Some (ObjGauge gf) ->
  heap s !! points gf = Some (ObjOrderedDict items) ->
  BaseGauge_get_metric env g t s =
    match items with
    | [] => (Ok None, s)
    | _ :: _ =>
        let (r, s2) :=
          get_timeseries_list_loop env items t []
            (after_events s [EvAcquire (PointsLock g)]) in
        let s3 := after_events s2 [EvRelease (PointsLock g)] in
        match r with
        | Ok l => (Ok (Some (mkMetric (descriptor gf) l)), s3)
        | Raise e => (Raise e, s3)
        end
    end.
Proof.
  intros Hg Hd. unfold BaseGauge_get_metric.
  unfold mbind at 1. unfold M_bind at 1.
  rewrite (getattr_gauge_ok s g gf Hg).
  unfold mbind at 1. unfold M_bind at 1.
  rewrite (dict_items_ok s _ items Hd).
  destruct items as [|kv rest] eqn:Hitems; [reflexivity|].
  rewrite <- Hitems in *. clear Hitems.
  unfold mbind at 1. unfold M_bind at 1.
  unfold with_lock, emit. cbn [heap trace].
  unfold mbind at 1. unfold M_bind at 1.
  rewrite (getattr_gauge_ok (mkState (heap s) _) g gf Hg).
  unfold get_timeseries_list.
  unfold mbind at 1. unfold M_bind at 1.
  rewrite (dict_items_ok (mkState (heap s) _) _ items Hd).
  unfold after_events. cbn [heap trace].
  destruct (get_timeseries_list_loop env items t [] _) as [r s2] eqn:Hloop.
  pose proof (get_timeseries_list_loop_effect _ _ _ _ _ _ _ Hloop)
    as [Hu _]. cbn [heap] in Hu.
  destruct r as [l|e]; cbn [snd heap trace]; [|reflexivity].
  unfold mbind, M_bind.
  rewrite (getattr_gauge_ok (mkState (heap s2) _) g gf); [reflexivity|].
  cbn [heap]. eapply point_update_lookup_other; eauto.
  intros; apply not_point_gauge.
Qed.

(** ** The invariant of a gauge under its own methods *)

Lemma lookup_insert_other (h : list obj) (l l' : loc) (o o' x : obj) :
  h !! l = Some o -> h !! l' = Some o' -> o <> o' ->
  <[l := x]> h !! l' = Some o'.
Proof.
  intros Hl Hl' Hne. rewrite list_lookup_insert_ne; [assumption|].
  intros E. subst l'. apply Hne, Some_inj.
  exact (eq_trans (eq_sym Hl) Hl').
Qed.

Lemma entry_ok_insert (h : list obj) (l : loc) (o x : obj)
  (cls : gauge_class) (p : loc) :
  h !! l = Some o ->
  (forall c v, o <> point_obj c v) ->
  (forall gp w, o <> ObjDerivedGaugePoint gp w) ->
  entry_ok h cls p -> entry_ok (<[l := x]> h) cls p.
Proof.
  intros Hl Hp Hd. unfold entry_ok, direct_point. destruct (is_Gauge cls).
  - intros [v Hv]. exists v. eapply lookup_insert_other; eauto.
  - intros (gp & f & Hp' & v & Hv). exists gp, f. split.
    + eapply lookup_insert_other; eauto.
    + exists v. eapply lookup_insert_other; eauto.
Qed.

Lemma values_ok_insert (h : list obj) (l : loc) (x : obj) :
  (forall c v, x = point_obj c v -> value_ok c v = true) ->
  values_ok h -> values_ok (<[l := x]> h).
Proof.
  intros Hx Hok l' c v Hl'.
  destruct (decide (l = l')) as [E|Hne].
  - subst l'. destruct (decide (l < length h)%nat) as [Hlt|Hge].
    + rewrite list_lookup_insert_eq in Hl' by assumption.
      apply Hx. apply Some_inj. exact Hl'.
    + rewrite list_insert_ge in Hl' by lia. eapply Hok, Hl'.
  - rewrite list_lookup_insert_ne in Hl' by assumption. eapply Hok, Hl'.
Qed.

Lemma entry_ok_lt (h : list obj) (cls : gauge_class) (p : loc) :
  entry_ok h cls p -> (p < length h)%nat.
Proof.
  unfold entry_ok, direct_point. destruct (is_Gauge cls).
  - intros [v Hv]. eapply lookup_lt_Some, Hv.
  - intros (gp & f & Hp & _). eapply lookup_lt_Some, Hp.
Qed.

Section GaugeInvariant.
Variables (h : list obj) (g : loc) (gf : gauge_fields).
Variable items : list (label_values_t * loc).
Hypothesis Hinv : gauge_inv h g gf items.

Lemma inv_g_not_dict : g <> points gf.
Proof using Hinv.
  destruct Hinv as [Hg Hd _ _ _ _ _]. intros E. rewrite <- E in Hd.
  assert (ObjGauge gf = ObjOrderedDict items)
    by (apply Some_inj; exact (eq_trans (eq_sym Hg) Hd)).
  discriminate.
Qed.

Lemma gauge_inv_dict_update (items' : list (label_values_t * loc)) :
  NoDup items'.*1 -> NoDup items'.*2 ->
  Forall (entry_ok h (g_class gf)) items'.*2 ->
  gauge_inv (<[points gf := ObjOrderedDict items']> h) g gf items'.
Proof using Hinv.
  pose proof inv_g_not_dict as Hne.
  destruct Hinv as [Hg Hd Hk Hl He Hdef Hv]. intros Hk' Hl' He'.
  split; auto.
  - rewrite list_lookup_insert_ne by auto. assumption.
  - eapply lookup_insert_point, Hd.
  - eapply Forall_impl; [exact He'|]. intros p.
    eapply entry_ok_insert;
      [exact Hd|intros; apply not_point_dict|intros; discriminate].
  - apply values_ok_insert; [|assumption].
    intros c v E. destruct (not_point_dict _ _ _ E).
Qed.

Lemma gauge_inv_remove (lv : label_values_t) :
  gauge_inv (<[points gf := ObjOrderedDict (dict_remove lv items)]> h)
    g gf (dict_remove lv items).
Proof using Hinv.
  pose proof (dict_remove_sublist lv items) as Hsub.
  destruct Hinv as [Hg Hd Hk Hl He Hdef Hv].
  apply gauge_inv_dict_update.
  - eapply sublist_NoDup; [exact Hk|]. apply fmap_sublist, Hsub.
  - eapply sublist_NoDup; [exact Hl|]. apply fmap_sublist, Hsub.
  - rewrite Forall_forall in He |- *. intros p Hp. apply He.
    eapply elem_of_sublist; [exact Hp|]. apply fmap_sublist, Hsub.
Qed.

Lemma gauge_inv_clear :
  gauge_inv
    (<[g := ObjGauge (with_points gf (length h))]>
       (h ++ [ObjOrderedDict []]))
    g (with_points gf (length h)) [].
Proof using Hinv.
  destruct Hinv as [Hg Hd Hk Hl He Hdef Hv].
  assert (Hlt : (g < length h)%nat) by (eapply lookup_lt_Some, Hg).
  split; cbn [with_points points g_class default_label_values
              _len_label_keys fmap list_fmap]; auto.
  - apply list_lookup_insert_eq. rewrite length_app. lia.
  - rewrite list_lookup_insert_ne by lia. apply lookup_app_new.
  - constructor.
  - constructor.
  - apply values_ok_insert.
    + intros c v E. destruct (not_point_gauge _ _ _ E).
    + apply values_ok_alloc; [assumption|].
      intros c v E. destruct (not_point_dict _ _ _ E).
Qed.

Lemma zero_value_ok (c : point_class) : value_ok c (zero_value c) = true.
Proof. destruct c; reflexivity. Qed.

Lemma fresh_not_in_items (n : loc) :
  (length h <= n)%nat -> n ∉ items.*2.
Proof using Hinv.
  destruct Hinv as [_ _ _ _ He _ _]. intros Hn Hin.
  rewrite Forall_forall in He. apply He, entry_ok_lt in Hin. lia.
Qed.

(** The map gains the entry that [setdefault] adds for a new key. *)
Lemma gauge_inv_append (h1 : list obj) (lv : label_values_t) (n : loc) :
  gauge_inv h1 g gf items ->
  (length h <= n)%nat ->
  dict_get lv items = None ->
  entry_ok h1 (g_class gf) n ->
  gauge_inv (<[points gf := ObjOrderedDict (items ++ [(lv, n)])]> h1)
    g gf (items ++ [(lv, n)]).
Proof using Hinv.
  intros Hinv1 Hn Hnone Hnew.
  pose proof (fresh_not_in_items n Hn) as Hfresh.
  pose proof Hinv1 as [Hg Hd Hk Hl He Hdef Hv].
  assert (Hne : g <> points gf).
  { intros E. rewrite <- E in Hd.
    assert (ObjGauge gf = ObjOrderedDict items)
      by (apply Some_inj; exact (eq_trans (eq_sym Hg) Hd)).
    discriminate. }
  split; auto.
  - rewrite list_lookup_insert_ne by auto. assumption.
  - eapply lookup_insert_point, Hd.
  - rewrite fmap_app. apply NoDup_app. split; [assumption|].
    split; [|apply NoDup_singleton].
    intros k Hk1 Hk2. apply list_elem_of_singleton in Hk2. subst k.
    apply dict_get_None in Hnone. contradiction.
  - rewrite fmap_app. apply NoDup_app. split; [assumption|].
    split; [|apply NoDup_singleton].
    intros k Hk1 Hk2. apply list_elem_of_singleton in Hk2. subst k.
    contradiction.
  - rewrite fmap_app, Forall_app. split.
    + eapply Forall_impl; [exact He|]. intros p.
      eapply entry_ok_insert;
        [exact Hd|intros; apply not_point_dict|intros; discriminate].
    + constructor; [|constructor]. revert Hnew.
      eapply entry_ok_insert;
        [exact Hd|intros; apply not_point_dict|intros; discriminate].
  - apply values_ok_insert; [|assumption].
    intros c v E. destruct (not_point_dict _ _ _ E).
Qed.
End GaugeInvariant.

(** ** The public methods: the checks, then the locked part *)

Section PublicMethods.
Variables (s : state) (g : loc) (gf : gauge_fields).
Hypothesis Hg : heap s !! g = Some (ObjGauge gf).

Lemma BaseGauge_remove_time_series_eq
  (label_values : option label_values_t) :
  BaseGauge_remove_time_series g label_values s =
    match label_values with
    | None => (Raise ValueError, s)
    | Some lv =>
        if any_is_None lv then (Raise ValueError, s)
        else if (length lv =? _len_label_keys gf)%nat
             then BaseGauge__remove_time_series g lv s
             else (Raise ValueError, s)
    end.
Proof using Hg.
  unfold BaseGauge_remove_time_series.
  destruct label_values as [lv|]; [|reflexivity].
  destruct (any_is_None lv); [reflexivity|].
  unfold mbind, M_bind. rewrite (getattr_gauge_ok s g gf Hg).
  destruct (length lv =? _len_label_keys gf)%nat; reflexivity.
Qed.

Lemma BaseGauge_remove_default_time_series_eq :
  BaseGauge_remove_default_time_series g s =
    BaseGauge__remove_time_series g (default_label_values gf) s.
Proof using Hg.
  unfold BaseGauge_remove_default_time_series, mbind, M_bind.
  rewrite (getattr_gauge_ok s g gf Hg). reflexivity.
Qed.

Lemma Gauge_get_or_create_time_series_eq
  (label_values : option label_values_t) :
  Gauge_get_or_create_time_series g label_values s =
    if is_Gauge (g_class gf) then
      match label_values with
      | None => (Raise ValueError, s)
      | Some lv =>
          if any_is_None lv then (Raise ValueError, s)
          else if (length lv =? _len_label_keys gf)%nat
               then Gauge__get_or_create_time_series g lv s
               else (Raise ValueError, s)
      end
    else (Raise AttributeError, s).
Proof using Hg.
  unfold Gauge_get_or_create_time_series, Gauge_method.
  unfold mbind at 1. unfold M_bind at 1.
  unfold mbind at 1. unfold M_bind at 1.
  rewrite (getattr_gauge_ok s g gf Hg).
  destruct (is_Gauge (g_class gf)); [|reflexivity].
  unfold mret, M_ret.
  destruct label_values as [lv|]; [|reflexivity].
  destruct (any_is_None lv); [reflexivity|].
  unfold mbind, M_bind. rewrite (getattr_gauge_ok s g gf Hg).
  destruct (length lv =? _len_label_keys gf)%nat; reflexivity.
Qed.

Lemma Gauge_get_or_create_default_time_series_eq :
  Gauge_get_or_create_default_time_series g s =
    if is_Gauge (g_class gf)
    then Gauge__get_or_create_time_series g (default_label_values gf) s
    else (Raise AttributeError, s).
Proof using Hg.
  unfold Gauge_get_or_create_default_time_series, Gauge_method.
  unfold mbind at 1. unfold M_bind at 1.
  unfold mbind at 1. unfold M_bind at 1.
  rewrite (getattr_gauge_ok s g gf Hg).
  destruct (is_Gauge (g_class gf)); [|reflexivity].
  unfold mret, M_ret, mbind, M_bind.
  rewrite (getattr_gauge_ok s g gf Hg). reflexivity.
Qed.

Lemma DerivedGauge_create_time_series_eq
  (label_values : option label_values_t) (func : option fid) :
  DerivedGauge_create_time_series g label_values func s =
    if is_Gauge (g_class gf) then (Raise AttributeError, s)
    else
      match label_values with
      | None => (Raise ValueError, s)
      | Some lv =>
          if any_is_None lv then (Raise ValueError, s)
          else if (length lv =? _len_label_keys gf)%nat
               then
                 match func with
                 | None => (Raise ValueError, s)
                 | Some f => DerivedGauge__create_time_series g lv f s
                 end
               else (Raise ValueError, s)
      end.
Proof using Hg.
  unfold DerivedGauge_create_time_series, DerivedGauge_method,
    is_DerivedGauge.
  unfold mbind at 1. unfold M_bind at 1.
  unfold mbind at 1. unfold M_bind at 1.
  rewrite (getattr_gauge_ok s g gf Hg).
  destruct (is_Gauge (g_class gf)); [reflexivity|].
  cbn [negb]. unfold mret, M_ret.
  destruct label_values as [lv|]; [|reflexivity].
  destruct (any_is_None lv); [reflexivity|].
  unfold mbind, M_bind. rewrite (getattr_gauge_ok s g gf Hg).
  destruct (length lv =? _len_label_keys gf)%nat; [|reflexivity].
  destruct func; reflexivity.
Qed.

Lemma DerivedGauge_create_default_time_series_eq (func : option fid) :
  DerivedGauge_create_default_time_series g func s =
    if is_Gauge (g_class gf) then (Raise AttributeError, s)
    else
      match func with
      | None => (Raise ValueError, s)
      | Some f =>
          DerivedGauge__create_time_series g (default_label_values gf) f s
      end.
Proof using Hg.
  unfold DerivedGauge_create_default_time_series, DerivedGauge_method,
    is_DerivedGauge.
  unfold mbind at 1. unfold M_bind at 1.
  unfold mbind at 1. unfold M_bind at 1.
  rewrite (getattr_gauge_ok s g gf Hg).
  destruct (is_Gauge (g_class gf)); [reflexivity|].
  cbn [negb]. unfold mret, M_ret.
  destruct func; [|reflexivity].
  unfold mbind, M_bind. rewrite (getattr_gauge_ok s g gf Hg). reflexivity.
Qed.
End PublicMethods.

(** ** One call keeps the invariant *)

Lemma dict_get_after_setdefault (items : list (label_values_t * loc))
  (lv : label_values_t) (n : loc) :
  dict_get lv (items_after_setdefault items lv n) =
    Some (default n (dict_get lv items)).
Proof.
  unfold items_after_setdefault.
  destruct (dict_get lv items) as [p|] eqn:E; simpl; [exact E|].
  rewrite dict_get_app, E. destruct (decide (lv = lv)); congruence.
Qed.

Lemma dict_get_setdefault_mono (items : list (label_values_t * loc))
  (lv k : label_values_t) (n q : loc) :
  dict_get k items = Some q ->
  dict_get k (items_after_setdefault items lv n) = Some q.
Proof.
  unfold items_after_setdefault. intros H.
  destruct (dict_get lv items); [exact H|].
  rewrite dict_get_app, H. reflexivity.
Qed.

Lemma keys_after_setdefault (items : list (label_values_t * loc))
  (lv k : label_values_t) (n : loc) :
  k ∈ (items_after_setdefault items lv n).*1 -> k ∈ items.*1 \/ k = lv.
Proof.
  unfold items_after_setdefault.
  destruct (dict_get lv items); [auto|].
  rewrite fmap_app, elem_of_app. intros [H|H]; [auto|].
  apply list_elem_of_singleton in H. auto.
Qed.

Section LockedMethods.
Variables (s : state) (g : loc) (gf : gauge_fields).
Variable items : list (label_values_t * loc).
Hypothesis Hinv : gauge_inv (heap s) g gf items.

Let locked : list event :=
  [EvAcquire (PointsLock g); EvRelease (PointsLock g)].

Lemma BaseGauge__remove_time_series_inv (lv : label_values_t) :
  exists s',
    BaseGauge__remove_time_series g lv s = (Ok tt, s') /\
    gauge_inv (heap s') g gf (dict_remove lv items) /\
    trace s' = trace s ++ locked.
Proof using Hinv.
  pose proof Hinv as [Hg Hd _ _ _ _ _].
  rewrite (BaseGauge__remove_time_series_spec s g gf items Hg Hd).
  eexists. split; [reflexivity|].
  destruct (dict_get lv items) eqn:E; cbn [heap trace after_events].
  - split; [|reflexivity]. apply (gauge_inv_remove _ _ _ _ Hinv).
  - rewrite dict_remove_absent by exact E. auto.
Qed.

Lemma BaseGauge_clear_inv :
  exists s',
    BaseGauge_clear g s = (Ok tt, s') /\
    gauge_inv (heap s') g (with_points gf (length (heap s))) [] /\
    heap s' !! points gf = Some (ObjOrderedDict items) /\
    trace s' = trace s ++ locked.
Proof using Hinv.
  pose proof Hinv as [Hg Hd _ _ _ _ _].
  rewrite (BaseGauge_clear_spec s g gf Hg).
  eexists. split; [reflexivity|]. cbn [heap trace].
  split; [apply (gauge_inv_clear _ _ _ items Hinv)|].
  split; [|reflexivity].
  rewrite list_lookup_insert_ne by (apply (inv_g_not_dict _ _ _ _ Hinv)).
  apply lookup_app_Some, Hd.
Qed.

Lemma Gauge__get_or_create_time_series_inv (lv : label_values_t) :
  is_Gauge (g_class gf) = true ->
  let c := point_type (g_class gf) in
  let n := length (heap s) in
  exists s',
    Gauge__get_or_create_time_series g lv s =
      (Ok (default n (dict_get lv items)), s') /\
    gauge_inv (heap s') g gf (items_after_setdefault items lv n) /\
    heap s' !! n = Some (point_obj c (zero_value c)) /\
    length (heap s') = S n /\
    trace s' = trace s ++ locked.
Proof using Hinv.
  intros Hcls c n.
  pose proof Hinv as [Hg Hd _ _ _ _ _].
  rewrite (Gauge__get_or_create_time_series_spec s g gf items Hg Hd).
  cbn zeta. fold c. fold n.
  assert (Hinv1 :
    gauge_inv (heap s ++ [point_obj c (zero_value c)]) g gf items).
  { apply gauge_inv_alloc; [|exact Hinv].
    intros c' v' E. apply point_obj_inj in E as [<- <-].
    apply zero_value_ok. }
  unfold items_after_setdefault.
  destruct (dict_get lv items) as [p|] eqn:E; eexists;
    (split; [reflexivity|]); cbn [heap trace].
  - split; [exact Hinv1|]. split; [apply lookup_app_new|].
    split; [|reflexivity]. rewrite length_app. cbn. lia.
  - split.
    + apply (gauge_inv_append _ _ _ _ Hinv); auto.
      unfold entry_ok, direct_point. rewrite Hcls.
      eexists. apply lookup_app_new.
    + split.
      * eapply lookup_insert_other;
          [apply lookup_app_Some, Hd|apply lookup_app_new|].
        apply not_point_dict.
      * split; [|reflexivity].
        rewrite length_insert, length_app. cbn. lia.
Qed.

Lemma DerivedGauge__create_time_series_inv (lv : label_values_t)
  (f : fid) :
  is_Gauge (g_class gf) = false ->
  let c := point_type (g_class gf) in
  let n := length (heap s) in
  exists s',
    DerivedGauge__create_time_series g lv f s =
      (Ok (default (S n) (dict_get lv items)), s') /\
    gauge_inv (heap s') g gf (items_after_setdefault items lv (S n)) /\
    heap s' !! n = Some (point_obj c (zero_value c)) /\
    heap s' !! S n = Some (ObjDerivedGaugePoint n (WeakRef f)) /\
    length (heap s') = S (S n) /\
    trace s' = trace s ++ locked.
Proof using Hinv.
  intros Hcls c n.
  pose proof Hinv as [Hg Hd _ _ _ _ _].
  rewrite (DerivedGauge__create_time_series_spec s g gf items Hg Hd).
  cbn zeta. fold c. fold n.
  set (h1 := heap s ++ [point_obj c (zero_value c)] ++
               [ObjDerivedGaugePoint n (WeakRef f)]).
  assert (Hh1 : h1 = (heap s ++ [point_obj c (zero_value c)]) ++
                       [ObjDerivedGaugePoint n (WeakRef f)])
    by (unfold h1; rewrite <- app_assoc; reflexivity).
  assert (Hn : h1 !! n = Some (point_obj c (zero_value c))).
  { rewrite Hh1. apply lookup_app_Some, lookup_app_new. }
  assert (HSn : h1 !! S n = Some (ObjDerivedGaugePoint n (WeakRef f))).
  { rewrite Hh1.
    replace (S n) with (length (heap s ++ [point_obj c (zero_value c)]))
      by (rewrite length_app; cbn; lia).
    apply lookup_app_new. }
  assert (Hlen : length h1 = S (S n)).
  { unfold h1. rewrite !length_app. cbn. lia. }
  assert (Hinv1 : gauge_inv h1 g gf items).
  { rewrite Hh1. apply gauge_inv_alloc.
    - intros c' v' E. destruct (not_point_derived _ _ _ _ E).
    - apply gauge_inv_alloc; [|exact Hinv].
      intros c' v' E. apply point_obj_inj in E as [<- <-].
      apply zero_value_ok. }
  pose proof Hinv1 as [_ Hd1 _ _ _ _ _].
  unfold items_after_setdefault.
  destruct (dict_get lv items) as [p|] eqn:E; eexists;
    (split; [reflexivity|]); cbn [heap trace].
  - auto.
  - split.
    + apply (gauge_inv_append _ _ _ _ Hinv); auto.
      unfold entry_ok, direct_point. rewrite Hcls.
      exists n, f. split; [exact HSn|]. eexists. exact Hn.
    + split; [|split; [|split; [|reflexivity]]].
      * eapply lookup_insert_other; [exact Hd1|exact Hn|].
        apply not_point_dict.
      * eapply lookup_insert_other; [exact Hd1|exact HSn|]. discriminate.
      * rewrite length_insert. exact Hlen.
Qed.
End LockedMethods.

Lemma same_config_refl (gf : gauge_fields) : same_config gf gf.
Proof. repeat split. Qed.

Lemma same_config_with_points (gf : gauge_fields) (d : loc) :
  same_config gf (with_points gf d).
Proof. repeat split. Qed.

Lemma same_config_trans (gf1 gf2 gf3 : gauge_fields) :
  same_config gf1 gf2 -> same_config gf2 gf3 -> same_config gf1 gf3.
Proof.
  intros (A1 & A2 & A3 & A4) (B1 & B2 & B3 & B4).
  repeat split; congruence.
Qed.

(** What one call leaves of the invariant: the gauge is still well formed,
    and its map has no key that it did not have before, except the one the
    call creates. *)
Lemma run_call_inv (env : func_env) (g : loc) (gf : gauge_fields)
  (items : list (label_values_t * loc)) (c : call) (s : state) :
  gauge_inv (heap s) g gf items ->
  exists gf' items',
    gauge_inv (heap (run_call env g c s).2) g gf' items' /\
    same_config gf gf' /\
    forall k, k ∈ items'.*1 -> k ∈ items.*1 \/ created_key gf c = Some k.
Proof.
  intros Hinv. pose proof Hinv as [Hg Hd _ _ _ _ Hvals].
  assert (Hstay :
    exists gf' items',
      gauge_inv (heap s) g gf' items' /\ same_config gf gf' /\
      forall k, k ∈ items'.*1 -> k ∈ items.*1 \/ created_key gf c = Some k).
  { exists gf, items. split; [exact Hinv|]. split; [apply same_config_refl|].
    auto. }
  assert (Hpts : forall s',
    points_only s s' ->
    exists gf' items',
      gauge_inv (heap s') g gf' items' /\ same_config gf gf' /\
      forall k, k ∈ items'.*1 -> k ∈ items.*1 \/ created_key gf c = Some k).
  { intros s' [Hu _]. exists gf, items.
    split; [eapply gauge_inv_point_update; eauto|].
    split; [apply same_config_refl|]. auto. }
  destruct c as [lvs| |lvs func|func|lvs| | |t|p val|p val|p|p];
    cbn [run_call created_key].
  - (* get_or_create_time_series *)
    unfold mbind, M_bind.
    rewrite (Gauge_get_or_create_time_series_eq s g gf Hg).
    destruct (is_Gauge (g_class gf)) eqn:Hcls; [|exact Hstay].
    destruct lvs as [lv|]; [|exact Hstay].
    destruct (any_is_None lv); [exact Hstay|].
    destruct (length lv =? _len_label_keys gf)%nat; [|exact Hstay].
    destruct (Gauge__get_or_create_time_series_inv s g gf items Hinv lv Hcls)
      as (s' & -> & Hinv' & _).
    exists gf. eexists. split; [exact Hinv'|].
    split; [apply same_config_refl|].
    intros k Hk. apply keys_after_setdefault in Hk as [?| ->]; auto.
  - (* get_or_create_default_time_series *)
    unfold mbind, M_bind.
    rewrite (Gauge_get_or_create_default_time_series_eq s g gf Hg).
    destruct (is_Gauge (g_class gf)) eqn:Hcls; [|exact Hstay].
    destruct (Gauge__get_or_create_time_series_inv s g gf items Hinv
                (default_label_values gf) Hcls) as (s' & -> & Hinv' & _).
    exists gf. eexists. split; [exact Hinv'|].
    split; [apply same_config_refl|].
    intros k Hk. apply keys_after_setdefault in Hk as [?| ->]; auto.
  - (* create_time_series *)
    unfold mbind, M_bind.
    rewrite (DerivedGauge_create_time_series_eq s g gf Hg).
    destruct (is_Gauge (g_class gf)) eqn:Hcls; [exact Hstay|].
    destruct lvs as [lv|]; [|exact Hstay].
    destruct (any_is_None lv); [exact Hstay|].
    destruct (length lv =? _len_label_keys gf)%nat; [|exact Hstay].
    destruct func as [f|]; [|exact Hstay].
    destruct (DerivedGauge__create_time_series_inv s g gf items Hinv lv f
                Hcls) as (s' & -> & Hinv' & _).
    exists gf. eexists. split; [exact Hinv'|].
    split; [apply same_config_refl|].
    intros k Hk. apply keys_after_setdefault in Hk as [?| ->]; auto.
  - (* create_default_time_series *)
    unfold mbind, M_bind.
    rewrite (DerivedGauge_create_default_time_series_eq s g gf Hg).
    destruct (is_Gauge (g_class gf)) eqn:Hcls; [exact Hstay|].
    destruct func as [f|]; [|exact Hstay].
    destruct (DerivedGauge__create_time_series_inv s g gf items Hinv
                (default_label_values gf) f Hcls) as (s' & -> & Hinv' & _).
    exists gf. eexists. split; [exact Hinv'|].
    split; [apply same_config_refl|].
    intros k Hk. apply keys_after_setdefault in Hk as [?| ->]; auto.
  - (* remove_time_series *)
    rewrite (BaseGauge_remove_time_series_eq s g gf Hg).
    destruct lvs as [lv|]; [|exact Hstay].
    destruct (any_is_None lv); [exact Hstay|].
    destruct (length lv =? _len_label_keys gf)%nat; [|exact Hstay].
    destruct (BaseGauge__remove_time_series_inv s g gf items Hinv lv)
      as (s' & -> & Hinv' & _).
    exists gf. eexists. split; [exact Hinv'|].
    split; [apply same_config_refl|].
    intros k Hk. left. eapply elem_of_sublist; [exact Hk|].
    apply fmap_sublist, dict_remove_sublist.
  - (* remove_default_time_series *)
    rewrite (BaseGauge_remove_default_time_series_eq s g gf Hg).
    destruct (BaseGauge__remove_time_series_inv s g gf items Hinv
                (default_label_values gf)) as (s' & -> & Hinv' & _).
    exists gf. eexists. split; [exact Hinv'|].
    split; [apply same_config_refl|].
    intros k Hk. left. eapply elem_of_sublist; [exact Hk|].
    apply fmap_sublist, dict_remove_sublist.
  - (* clear *)
    destruct (BaseGauge_clear_inv s g gf items Hinv) as (s' & -> & Hinv' & _).
    eexists. exists []. split; [exact Hinv'|].
    split; [apply same_config_with_points|].
    intros k Hk. inversion Hk.
  - (* get_metric *)
    unfold mbind, M_bind.
    rewrite (BaseGauge_get_metric_spec env s g gf items t Hg Hd).
    destruct items as [|kv rest] eqn:Hitems; [exact Hstay|].
    rewrite <- Hitems in *.
    destruct (get_timeseries_list_loop env items t [] _) as [r s2] eqn:Hloop.
    apply get_timeseries_list_loop_effect in Hloop as [Hu _].
    cbn [heap after_events] in Hu.
    assert (Hinv2 : gauge_inv (heap s2) g gf items)
      by (eapply gauge_inv_point_update; eauto).
    exists gf, items.
    split; [destruct r; exact Hinv2|].
    split; [apply same_config_refl|]. auto.
  - (* add *)
    destruct (call_add p val s) as [r s'] eqn:E.
    apply Hpts. eapply call_add_effect; eauto.
  - (* set *)
    destruct (call_set p val s) as [r s'] eqn:E.
    apply Hpts. eapply call_set_effect; eauto.
  - (* get_value *)
    unfold mbind, M_bind.
    destruct (get_value env p s) as [r s'] eqn:E.
    apply get_value_effect in E. destruct r; apply Hpts, E.
  - (* to_point_value *)
    unfold mbind, M_bind.
    destruct (to_point_value env p s) as [r s'] eqn:E.
    apply to_point_value_effect in E. destruct r; apply Hpts, E.
Qed.

Lemma run_calls_inv (g : loc) (cs : list (func_env * call)) :
  forall (gf : gauge_fields) (items : list (label_values_t * loc))
         (s : state),
    gauge_inv (heap s) g gf items ->
    exists gf' items',
      gauge_inv (heap (run_calls g cs s)) g gf' items' /\
      same_config gf gf' /\
      forall k, k ∈ items'.*1 ->
        k ∈ items.*1 \/
        exists env c, (env, c) ∈ cs /\ created_key gf c = Some k.
Proof.
  induction cs as [|[env c] rest IH]; intros gf items s Hinv;
    cbn [run_calls].
  - exists gf, items. split; [exact Hinv|].
    split; [apply same_config_refl|]. auto.
  - destruct (run_call_inv env g gf items c s Hinv)
      as (gf1 & items1 & Hinv1 & Hcfg1 & Hk1).
    destruct (IH gf1 items1 _ Hinv1) as (gf2 & items2 & Hinv2 & Hcfg2 & Hk2).
    exists gf2, items2. split; [exact Hinv2|].
    split; [eapply same_config_trans; eauto|].
    intros k Hk. apply Hk2 in Hk as [Hk|(env' & c' & Hin & Hc)].
    + apply Hk1 in Hk as [?|Hc]; [auto|].
      right. exists env, c. split; [left|exact Hc].
    + right. exists env', c'. split; [right; exact Hin|].
      destruct Hcfg1 as (_ & _ & Hdef & _).
      destruct c'; cbn [created_key] in *; congruence.
Qed.

(** ** The example stores are well formed *)

Ltac concrete_values_ok :=
  let l := fresh "l" in
  let c := fresh "c" in
  let v := fresh "v" in
  let H := fresh "H" in
  intros l c v H;
  do 4 (destruct l as [|l];
        [destruct c; simpl in H; inversion H; reflexivity|]);
  simpl in H; discriminate.

Lemma example_long_inv :
  gauge_inv (heap example_long.2) 1%nat example_long_fields
    [([Some "GET"], 2%nat)].
Proof.
  split; try reflexivity.
  - apply NoDup_singleton.
  - apply NoDup_singleton.
  - repeat constructor. exists (VInt 0). reflexivity.
  - concrete_values_ok.
Qed.

Lemma example_derived_inv :
  gauge_inv (heap example_derived.2) 1%nat example_derived_fields
    [([], 3%nat)].
Proof.
  split; try reflexivity.
  - apply NoDup_singleton.
  - apply NoDup_singleton.
  - repeat constructor. exists 2%nat, 7%nat. split; [reflexivity|].
    exists (VInt 0). reflexivity.
  - concrete_values_ok.
Qed.

Lemma example_derived_double_inv :
  gauge_inv (heap example_derived_double.2) 1%nat
    example_derived_double_fields [([], 3%nat)].
Proof.
  split; try reflexivity.
  - apply NoDup_singleton.
  - apply NoDup_singleton.
  - repeat constructor. exists 2%nat, 7%nat. split; [reflexivity|].
    exists (VFloat (S754_zero false)). reflexivity.
  - concrete_values_ok.
Qed.

Lemma example_derived_empty_inv :
  gauge_inv (heap example_derived_empty.2) 1%nat
    example_derived_empty_fields [].
Proof.
  split; try reflexivity.
  - constructor.
  - constructor.
  - constructor.
  - concrete_values_ok.
Qed.

(** * The claims *)

(** ** Integer points reject values that are not integers *)

Lemma GaugePointLong_add_spec (s : state) (self : loc) (v val : pyval) :
  heap s !! self = Some (ObjGaugePointLong v) ->
  GaugePointLong_add self val s =
    if isinstance_integer val then
      match py_add v val with
      | Ok r =>
          (Ok tt,
           mkState (<[self := ObjGaugePointLong r]> (heap s))
             (trace s ++
                [EvAcquire (ValueLock self); EvRelease (ValueLock self)]))
      | Raise e =>
          (Raise e,
           after_events s
             [EvAcquire (ValueLock self); EvRelease (ValueLock self)])
      end
    else (Raise ValueError, s).
Proof.
  intros Hs.
  pose proof (call_add_point s self GaugePointLong v Hs val) as H.
  unfold call_add in H. unfold mbind at 1 in H. unfold M_bind at 1 in H.
  unfold load in H. rewrite Hs in H. rewrite H.
  destruct (isinstance_integer val); reflexivity.
Qed.

Lemma GaugePointLong_set_spec (s : state) (self : loc) (v val : pyval) :
  heap s !! self = Some (ObjGaugePointLong v) ->
  GaugePointLong_set self val s =
    if isinstance_integer val then
      (Ok tt,
       mkState (<[self := ObjGaugePointLong val]> (heap s))
         (trace s ++
            [EvAcquire (ValueLock self); EvRelease (ValueLock self)]))
    else (Raise ValueError, s).
Proof.
  intros Hs.
  pose proof (call_set_point s self GaugePointLong v Hs val) as H.
  unfold call_set in H. unfold mbind at 1 in H. unfold M_bind at 1 in H.
  unfold load in H. rewrite Hs in H. rewrite H. cbn [stored_value].
  destruct (isinstance_integer val); reflexivity.
Qed.

(** C3. On an integer gauge point, [add] and [set] given a value that is not
    an integer raise [ValueError] and leave the whole state as it was: the
    held value is unchanged and the lock of the point was not even taken.
    Given an integer, both succeed: [add] stores the sum of the held value
    and the argument, [set] stores the argument, and [get_value] then reads
    the stored value back. *)
Theorem C3_integer_point_rejects_non_integers
  (s : state) (self : loc) (v val : pyval) :
  heap s !! self = Some (ObjGaugePointLong v) ->
  isinstance_integer v = true ->
  if isinstance_integer val then
    exists z dz s_add s_set,
      int_of v = Some z /\ int_of val = Some dz /\
      GaugePointLong_add self val s = (Ok tt, s_add) /\
      heap s_add = <[self := ObjGaugePointLong (VInt (z + dz))]> (heap s) /\
      GaugePointLong_get_value self s_add = (Ok (VInt (z + dz)), s_add) /\
      GaugePointLong_set self val s = (Ok tt, s_set) /\
      heap s_set = <[self := ObjGaugePointLong val]> (heap s) /\
      GaugePointLong_get_value self s_set = (Ok val, s_set)
  else
    GaugePointLong_add self val s = (Raise ValueError, s) /\
    GaugePointLong_set self val s = (Raise ValueError, s) /\
    GaugePointLong_get_value self s = (Ok v, s).
Proof.
  intros Hs Hv.
  rewrite (GaugePointLong_add_spec s self v val Hs).
  rewrite (GaugePointLong_set_spec s self v val Hs).
  destruct (isinstance_integer val) eqn:Hval.
  - apply int_of_isinstance in Hv as [z Hz].
    apply int_of_isinstance in Hval as [dz Hdz].
    assert (Hadd : py_add v val = Ok (VInt (z + dz))).
    { destruct v, val; try discriminate; simpl in *; congruence. }
    rewrite Hadd. exists z, dz. do 2 eexists.
    split; [exact Hz|]. split; [exact Hdz|].
    split; [reflexivity|]. split; [reflexivity|].
    split.
    { apply (getattr_value_point _ self GaugePointLong).
      eapply lookup_insert_point, Hs. }
    split; [reflexivity|]. split; [reflexivity|].
    apply (getattr_value_point _ self GaugePointLong).
    eapply lookup_insert_point, Hs.
  - split; [reflexivity|]. split; [reflexivity|].
    apply (getattr_value_point s self GaugePointLong v Hs).
Qed.

(** The point of the example gauge, given the float [0.0] and the integer
    [5]. *)
Lemma C3_witness :
  (GaugePointLong_add 2%nat (VFloat (S754_zero false)) example_long.2 =
     (Raise ValueError, example_long.2) /\
   GaugePointLong_set 2%nat (VFloat (S754_zero false)) example_long.2 =
     (Raise ValueError, example_long.2) /\
   GaugePointLong_get_value 2%nat example_long.2 =
     (Ok (VInt 0), example_long.2)) /\
  (exists z dz s_add s_set,
     int_of (VInt 0) = Some z /\ int_of (VInt 5) = Some dz /\
     GaugePointLong_add 2%nat (VInt 5) example_long.2 = (Ok tt, s_add) /\
     heap s_add =
       <[2%nat := ObjGaugePointLong (VInt (z + dz))]> (heap example_long.2) /\
     GaugePointLong_get_value 2%nat s_add = (Ok (VInt (z + dz)), s_add) /\
     GaugePointLong_set 2%nat (VInt 5) example_long.2 = (Ok tt, s_set) /\
     heap s_set =
       <[2%nat := ObjGaugePointLong (VInt 5)]> (heap example_long.2) /\
     GaugePointLong_get_value 2%nat s_set = (Ok (VInt 5), s_set)).
Proof.
  split.
  - exact (C3_integer_point_rejects_non_integers example_long.2 2%nat
             (VInt 0) (VFloat (S754_zero false)) eq_refl eq_refl).
  - exact (C3_integer_point_rejects_non_integers example_long.2 2%nat
             (VInt 0) (VInt 5) eq_refl eq_refl).
Defined.

(** ** Removing a time series *)

(** C4. [remove_time_series] raises [ValueError] when its argument is [None],
    contains [None], or has a length other than the number of label keys,
    and then the state is exactly what it was (no entry touched, lock not
    taken).  With a valid tuple it returns normally: the map of the gauge
    no longer has the tuple, every other tuple keeps its point and its place
    in the order, and when the tuple was not in the map nothing in the store
    changes. *)
Theorem C4_remove_time_series (s : state) (g : loc) (gf : gauge_fields)
  (items : list (label_values_t * loc)) :
  gauge_inv (heap s) g gf items ->
  BaseGauge_remove_time_series g None s = (Raise ValueError, s) /\
  (forall lv,
     any_is_None lv = true \/ length lv <> _len_label_keys gf ->
     BaseGauge_remove_time_series g (Some lv) s = (Raise ValueError, s)) /\
  (forall lv,
     valid_label_values gf lv ->
     exists s',
       BaseGauge_remove_time_series g (Some lv) s = (Ok tt, s') /\
       gauge_inv (heap s') g gf (dict_remove lv items) /\
       dict_get lv (dict_remove lv items) = None /\
       (forall k, k <> lv ->
          dict_get k (dict_remove lv items) = dict_get k items) /\
       sublist (dict_remove lv items) items /\
       (forall l, l <> points gf -> heap s' !! l = heap s !! l) /\
       (dict_get lv items = None -> heap s' = heap s)).
Proof.
  intros Hinv. pose proof Hinv as [Hg Hd Hk _ _ _ _].
  split; [|split].
  - apply (BaseGauge_remove_time_series_invalid s g gf Hg None). exact I.
  - intros lv Hbad.
    apply (BaseGauge_remove_time_series_invalid s g gf Hg (Some lv)).
    exact Hbad.
  - intros lv Hvalid.
    rewrite (BaseGauge_remove_time_series_valid s g gf Hg lv Hvalid).
    destruct (BaseGauge__remove_time_series_inv s g gf items Hinv lv)
      as (s' & Hrun & Hinv' & _).
    exists s'. split; [exact Hrun|]. split; [exact Hinv'|].
    rewrite (BaseGauge__remove_time_series_spec s g gf items Hg Hd) in Hrun.
    split.
    { rewrite dict_get_remove by exact Hk.
      destruct (decide (lv = lv)); congruence. }
    split.
    { intros k Hne. rewrite dict_get_remove by exact Hk.
      destruct (decide (lv = k)); congruence. }
    split; [apply dict_remove_sublist|].
    inversion Hrun as [Hs']. clear Hrun.
    destruct (dict_get lv items) eqn:E; cbn [heap after_events].
    + split; [|discriminate]. intros l' Hl'.
      apply list_lookup_insert_ne. auto.
    + auto.
Qed.

(** The example gauge has one label key: a tuple of two values is rejected,
    the tuple [("GET",)] is removed. *)
Lemma C4_witness :
  BaseGauge_remove_time_series 1%nat (Some [Some "GET"; Some "x"])
    example_long.2 = (Raise ValueError, example_long.2) /\
  exists s',
    BaseGauge_remove_time_series 1%nat (Some [Some "GET"]) example_long.2 =
      (Ok tt, s') /\
    dict_get [Some "GET"] (dict_remove [Some "GET"] [([Some "GET"], 2%nat)])
      = None.
Proof.
  pose proof (C4_remove_time_series example_long.2 1%nat example_long_fields
                [([Some "GET"], 2%nat)] example_long_inv)
    as (_ & Hbad & Hok).
  split.
  - apply Hbad. right. simpl. lia.
  - destruct (Hok [Some "GET"]) as (s' & Hrun & _ & Hget & _).
    + split; reflexivity.
    + exists s'. split; [exact Hrun|exact Hget].
Defined.

(** ** One point per label-value tuple *)

Lemma valid_label_values_eqb (gf : gauge_fields) (lv : label_values_t) :
  valid_label_values gf lv ->
  any_is_None lv = false /\ (length lv =? _len_label_keys gf)%nat = true.
Proof. intros [H1 H2]. split; [exact H1|]. apply Nat.eqb_eq, H2. Qed.

Lemma Gauge_get_or_create_time_series_inv (s : state) (g : loc)
  (gf : gauge_fields) (items : list (label_values_t * loc))
  (lv : label_values_t) :
  gauge_inv (heap s) g gf items ->
  is_Gauge (g_class gf) = true ->
  valid_label_values gf lv ->
  let n := length (heap s) in
  exists s',
    Gauge_get_or_create_time_series g (Some lv) s =
      (Ok (default n (dict_get lv items)), s') /\
    gauge_inv (heap s') g gf (items_after_setdefault items lv n) /\
    heap s' !! n =
      Some (point_obj (point_type (g_class gf))
              (zero_value (point_type (g_class gf)))) /\
    length (heap s') = S n.
Proof.
  intros Hinv Hcls Hvalid n. pose proof Hinv as [Hg _ _ _ _ _ _].
  rewrite (Gauge_get_or_create_time_series_eq s g gf Hg), Hcls.
  apply valid_label_values_eqb in Hvalid as [-> ->].
  destruct (Gauge__get_or_create_time_series_inv s g gf items Hinv lv Hcls)
    as (s' & Hrun & Hinv' & Hnew & Hlen & _).
  exists s'. auto.
Qed.

(** C5. On a [LongGauge] or [DoubleGauge], [get_or_create_time_series] with
    two valid, different tuples returns two different points, and a further
    call with the first tuple returns the point of the first call again. A
    point that the first call had to create holds the zero of the kind of
    the gauge: the integer [0] in a [LongGauge], the float [0.0] in a
    [DoubleGauge]. *)
Theorem C5_get_or_create_time_series (s : state) (g : loc)
  (gf : gauge_fields) (items : list (label_values_t * loc))
  (t1 t2 : label_values_t) :
  gauge_inv (heap s) g gf items ->
  is_Gauge (g_class gf) = true ->
  valid_label_values gf t1 ->
  valid_label_values gf t2 ->
  t1 <> t2 ->
  exists p1 p2 s1 s2 s3,
    Gauge_get_or_create_time_series g (Some t1) s = (Ok p1, s1) /\
    Gauge_get_or_create_time_series g (Some t2) s1 = (Ok p2, s2) /\
    Gauge_get_or_create_time_series g (Some t1) s2 = (Ok p1, s3) /\
    (Gauge_get_or_create_time_series g (Some t2) s3).1 = Ok p2 /\
    p1 <> p2 /\
    (dict_get t1 items = None ->
     heap s1 !! p1 =
       Some match g_class gf with
            | LongGauge | DerivedLongGauge => ObjGaugePointLong (VInt 0)
            | DoubleGauge | DerivedDoubleGauge =>
                ObjGaugePointDouble (VFloat (S754_zero false))
            end).
Proof.
  intros Hinv Hcls Hv1 Hv2 Hne.
  destruct (Gauge_get_or_create_time_series_inv s g gf items t1
              Hinv Hcls Hv1) as (s1 & Hrun1 & Hinv1 & Hnew1 & _).
  set (items1 := items_after_setdefault items t1 (length (heap s))) in *.
  set (p1 := default (length (heap s)) (dict_get t1 items)) in *.
  assert (Hp1 : dict_get t1 items1 = Some p1)
    by apply dict_get_after_setdefault.
  destruct (Gauge_get_or_create_time_series_inv s1 g gf items1 t2
              Hinv1 Hcls Hv2) as (s2 & Hrun2 & Hinv2 & _).
  set (items2 := items_after_setdefault items1 t2 (length (heap s1))) in *.
  set (p2 := default (length (heap s1)) (dict_get t2 items1)) in *.
  assert (Hp2 : dict_get t2 items2 = Some p2)
    by apply dict_get_after_setdefault.
  assert (Hp1' : dict_get t1 items2 = Some p1)
    by (apply dict_get_setdefault_mono, Hp1).
  destruct (Gauge_get_or_create_time_series_inv s2 g gf items2 t1
              Hinv2 Hcls Hv1) as (s3 & Hrun3 & Hinv3 & _).
  rewrite Hp1' in Hrun3. cbn [default] in Hrun3.
  assert (Hitems3 :
    items_after_setdefault items2 t1 (length (heap s2)) = items2)
    by (unfold items_after_setdefault; rewrite Hp1'; reflexivity).
  rewrite Hitems3 in Hinv3.
  destruct (Gauge_get_or_create_time_series_inv s3 g gf items2 t2
              Hinv3 Hcls Hv2) as (s4 & Hrun4 & _).
  rewrite Hp2 in Hrun4. cbn [default] in Hrun4.
  exists p1, p2, s1, s2, s3.
  split; [exact Hrun1|]. split; [exact Hrun2|]. split; [exact Hrun3|].
  split; [rewrite Hrun4; reflexivity|].
  split.
  - intros E. apply Hne.
    destruct Hinv2 as [_ _ _ Hlocs _ _ _].
    eapply dict_get_inj; [exact Hlocs|exact Hp1'|]. rewrite E. exact Hp2.
  - intros Hnone. unfold p1. rewrite Hnone. cbn [default].
    clear -Hnew1. revert Hnew1.
    destruct (g_class gf); intros Hnew1; exact Hnew1.
Qed.

(** The example gauge: the tuples [("GET",)], already in the map, and
    [("PUT",)], created by the call. *)
Lemma C5_witness :
  exists p1 p2 s1 s2 s3,
    Gauge_get_or_create_time_series 1%nat (Some [Some "GET"]) example_long.2
      = (Ok p1, s1) /\
    Gauge_get_or_create_time_series 1%nat (Some [Some "PUT"]) s1
      = (Ok p2, s2) /\
    Gauge_get_or_create_time_series 1%nat (Some [Some "GET"]) s2
      = (Ok p1, s3) /\
    p1 <> p2.
Proof.
  destruct (C5_get_or_create_time_series example_long.2 1%nat
              example_long_fields [([Some "GET"], 2%nat)]
              [Some "GET"] [Some "PUT"] example_long_inv eq_refl)
    as (p1 & p2 & s1 & s2 & s3 & H1 & H2 & H3 & _ & Hne & _).
  - split; reflexivity.
  - split; reflexivity.
  - discriminate.
  - exists p1, p2, s1, s2, s3. auto.
Defined.

(** ** The metric of a gauge *)

Lemma BaseGauge_init_spec (cls : gauge_class)
  (name description unit : string) (label_keys : list string) (s : state) :
  BaseGauge_init cls name description unit label_keys s =
    (Ok (S (length (heap s))),
     mkState
       (heap s ++
          [ObjOrderedDict [];
           ObjGauge
             {| g_class := cls;
                _len_label_keys := length label_keys;
                default_label_values := replicate (length label_keys) None;
                descriptor :=
                  mkMetricDescriptor name description unit
                    (descriptor_type cls) label_keys;
                points := length (heap s) |}])
       (trace s)).
Proof.
  unfold BaseGauge_init, mbind, M_bind, alloc. cbn [heap trace].
  rewrite length_app, <- app_assoc. cbn [length app].
  replace (length (heap s) + 1)%nat with (S (length (heap s))) by lia.
  reflexivity.
Qed.

(** A new gauge is well formed and its map is empty. *)
Lemma BaseGauge_init_inv (cls : gauge_class)
  (name description unit : string) (label_keys : list string) (s : state) :
  values_ok (heap s) ->
  exists gf s',
    BaseGauge_init cls name description unit label_keys s =
      (Ok (S (length (heap s))), s') /\
    gauge_inv (heap s') (S (length (heap s))) gf [] /\
    g_class gf = cls /\
    _len_label_keys gf = length label_keys /\
    descriptor gf =
      mkMetricDescriptor name description unit (descriptor_type cls)
        label_keys.
Proof.
  intros Hok. rewrite BaseGauge_init_spec. do 2 eexists.
  split; [reflexivity|]. cbn [heap].
  change (heap s ++ [ObjOrderedDict []; ?o]) with
    (heap s ++ [ObjOrderedDict []] ++ [o]).
  rewrite app_assoc.
  split.
  { split; cbn [points g_class default_label_values _len_label_keys fmap
                list_fmap].
    - replace (S (length (heap s)))
        with (length (heap s ++ [ObjOrderedDict []]))
        by (rewrite length_app; cbn; lia).
      apply lookup_app_new.
    - apply lookup_app_Some, lookup_app_new.
    - constructor.
    - constructor.
    - constructor.
    - reflexivity.
    - apply values_ok_alloc; [apply values_ok_alloc; [exact Hok|]|].
      + intros c v E. destruct (not_point_dict _ _ _ E).
      + intros c v E. destruct (not_point_gauge _ _ _ E). }
  split; [reflexivity|split; reflexivity].
Qed.

Lemma values_ok_empty : values_ok (heap empty_state).
Proof. intros l c v H. destruct l; discriminate. Qed.

Lemma BaseGauge_get_metric_shape (env : func_env) (s s' : state) (g : loc)
  (gf : gauge_fields) (items : list (label_values_t * loc))
  (t : timestamp) (m : Metric) :
  gauge_inv (heap s) g gf items ->
  BaseGauge_get_metric env g t s = (Ok (Some m), s') ->
  items <> [] /\
  exists vs, length vs = length items /\
             m = mkMetric (descriptor gf) (series t (zip items.*1 vs)).
Proof.
  intros [Hg Hd _ _ _ _ _].
  rewrite (BaseGauge_get_metric_spec env s g gf items t Hg Hd).
  destruct items as [|kv rest] eqn:Hitems; [discriminate|].
  rewrite <- Hitems.
  destruct (get_timeseries_list_loop env items t [] _) as [r s2] eqn:Hloop.
  destruct r as [l|e]; [|discriminate].
  apply get_timeseries_list_loop_shape in Hloop as (vs & Hlen & ->).
  inversion 1; subst m. split; [rewrite Hitems; discriminate|].
  exists vs. auto.
Qed.

Lemma BaseGauge_get_metric_shape_fst (env : func_env) (s : state) (g : loc)
  (gf : gauge_fields) (items : list (label_values_t * loc))
  (t : timestamp) (m : Metric) :
  gauge_inv (heap s) g gf items ->
  (BaseGauge_get_metric env g t s).1 = Ok (Some m) ->
  exists vs, length vs = length items /\
             m = mkMetric (descriptor gf) (series t (zip items.*1 vs)).
Proof.
  intros Hinv Hm.
  destruct (BaseGauge_get_metric env g t s) as [r s'] eqn:Hrun.
  cbn [fst] in Hm. subst r.
  apply (BaseGauge_get_metric_shape env s s' g gf items t m Hinv Hrun).
Qed.

Lemma entries_direct (h : list obj) (cls : gauge_class) (ps : list loc) :
  is_Gauge cls = true ->
  Forall (entry_ok h cls) ps ->
  Forall (fun p => exists c v, h !! p = Some (point_obj c v)) ps.
Proof.
  intros Hcls H. eapply Forall_impl; [exact H|].
  intros p. unfold entry_ok, direct_point.
  rewrite Hcls. intros [v Hv]. eauto.
Qed.

Lemma BaseGauge_get_metric_direct (env : func_env) (s : state) (g : loc)
  (gf : gauge_fields) (items : list (label_values_t * loc))
  (t : timestamp) :
  gauge_inv (heap s) g gf items ->
  is_Gauge (g_class gf) = true ->
  items <> [] ->
  BaseGauge_get_metric env g t s =
    (Ok (Some (mkMetric (descriptor gf)
                 (series t
                    (map (fun kv => (kv.1, snapshot_at (heap s) kv.2))
                       items)))),
     after_events s
       ([EvAcquire (PointsLock g)] ++ (EvToPointValue <$> items.*2) ++
        [EvRelease (PointsLock g)])).
Proof.
  intros [Hg Hd _ _ He _ _] Hcls Hne.
  rewrite (BaseGauge_get_metric_spec env s g gf items t Hg Hd).
  destruct items as [|kv rest] eqn:Hitems; [contradiction|].
  rewrite <- Hitems in *.
  rewrite get_timeseries_list_loop_direct
    by (cbn [heap after_events]; eapply entries_direct; eauto).
  unfold after_events. cbn [heap trace app].
  rewrite <- !app_assoc. reflexivity.
Qed.

(** C1. A [LongGauge] with one label key, created in any store, after
    [get_or_create_time_series(["GET"])], [add(5)] and [add(3)] on the point
    returned: [get_metric(t)] returns a metric with the descriptor of the
    gauge and exactly one time series, for the tuple [("GET",)], whose only
    point has the integer value 8 and the timestamp [t].  In general, a
    metric that [get_metric(t)] returns has one time series per entry of the
    map, in the order of the map, each with the label values of its entry
    and exactly one point, stamped [t]; and a [LongGauge] or [DoubleGauge]
    with a non-empty map always returns that metric, each point carrying the
    value its gauge point holds. *)
Theorem C1_get_metric_time_series :
  (forall (env : func_env) (name description unit key : string)
          (t : timestamp) (s : state),
     values_ok (heap s) ->
     ((g ← BaseGauge_init LongGauge name description unit [key];
       p ← Gauge_get_or_create_time_series g (Some [Some "GET"]);
       GaugePointLong_add p (VInt 5);;
       GaugePointLong_add p (VInt 3);;
       BaseGauge_get_metric env g t) s).1 =
     Ok (Some
           (mkMetric
              (mkMetricDescriptor name description unit GAUGE_INT64 [key])
              [mkTimeSeries [Some "GET"]
                 [mkPoint (Some (ValueLong (VInt 8))) t] t]))) /\
  (forall (env : func_env) (s s' : state) (g : loc) (gf : gauge_fields)
          (items : list (label_values_t * loc)) (t : timestamp)
          (m : Metric),
     gauge_inv (heap s) g gf items ->
     BaseGauge_get_metric env g t s = (Ok (Some m), s') ->
     exists vs,
       length vs = length items /\
       metric_descriptor m = descriptor gf /\
       metric_time_series m =
         zip_with (fun lv v => mkTimeSeries lv [mkPoint v t] t)
           items.*1 vs) /\
  (forall (env : func_env) (s : state) (g : loc) (gf : gauge_fields)
          (items : list (label_values_t * loc)) (t : timestamp),
     gauge_inv (heap s) g gf items ->
     is_Gauge (g_class gf) = true ->
     items <> [] ->
     (BaseGauge_get_metric env g t s).1 =
       Ok (Some
             (mkMetric (descriptor gf)
                (map (fun kv =>
                        mkTimeSeries kv.1
                          [mkPoint (snapshot_at (heap s) kv.2) t] t)
                   items)))).
Proof.
  split; [|split].
  - intros env name description unit key t s Hok.
    destruct (BaseGauge_init_inv LongGauge name description unit [key] s Hok)
      as (gf & s0 & Hinit & Hinv0 & Hcls & Hlen & Hdesc).
    set (g := S (length (heap s))) in *.
    rewrite (bind_Ok _ _ _ _ _ Hinit).
    destruct (Gauge_get_or_create_time_series_inv s0 g gf [] [Some "GET"]
                Hinv0) as (s1 & Hcreate & Hinv1 & Hnew & _).
    { rewrite Hcls. reflexivity. }
    { split; [reflexivity|]. rewrite Hlen. reflexivity. }
    cbn [dict_get default items_after_setdefault app] in Hcreate, Hinv1.
    set (p := length (heap s0)) in *.
    rewrite Hcls in Hnew. cbn [point_type point_obj zero_value] in Hnew.
    rewrite (bind_Ok _ _ _ _ _ Hcreate).
    pose proof (GaugePointLong_add_spec s1 p (VInt 0) (VInt 5) Hnew)
      as Hadd1.
    cbn [isinstance_integer] in Hadd1.
    change (py_add (VInt 0) (VInt 5)) with (Ok (A:=pyval) (VInt 5)) in Hadd1.
    cbn beta iota in Hadd1.
    rewrite (bind_Ok _ _ _ _ _ Hadd1).
    pose proof (GaugePointLong_add_spec
                  (mkState (<[p := ObjGaugePointLong (VInt 5)]> (heap s1))
                     (trace s1 ++
                        [EvAcquire (ValueLock p); EvRelease (ValueLock p)]))
                  p (VInt 5) (VInt 3)
                  (lookup_insert_point _ _ _ _ Hnew)) as Hadd2.
    cbn [isinstance_integer heap trace] in Hadd2.
    change (py_add (VInt 5) (VInt 3)) with (Ok (A:=pyval) (VInt 8)) in Hadd2.
    cbn beta iota in Hadd2.
    rewrite list_insert_insert_eq in Hadd2.
    rewrite (bind_Ok _ _ _ _ _ Hadd2).
    match goal with
    | |- (BaseGauge_get_metric env g t ?x).1 = _ => set (s3 := x)
    end.
    assert (Hinv3 : gauge_inv (heap s3) g gf [([Some "GET"], p)]).
    { eapply gauge_inv_point_update; [|exact Hinv1].
      apply (pu_step _ _ p GaugePointLong (VInt 0) (VInt 8));
        [constructor|exact Hnew|reflexivity]. }
    rewrite (BaseGauge_get_metric_direct env s3 g gf _ t Hinv3)
      by (rewrite ?Hcls; reflexivity || discriminate).
    cbn [fst snd map series]. rewrite Hdesc.
    unfold snapshot_at. cbn [heap s3].
    erewrite lookup_insert_point by exact Hnew. reflexivity.
  - intros env s s' g gf items t m Hinv Hrun.
    destruct (BaseGauge_get_metric_shape env s s' g gf items t m Hinv Hrun)
      as (_ & vs & Hlen & ->).
    exists vs. split; [exact Hlen|]. split; [reflexivity|].
    cbn [metric_time_series]. unfold series.
    clear. generalize (items.*1). intros ks. revert vs.
    induction ks as [|k ks IH]; intros [|v vs]; cbn; try reflexivity.
    f_equal. apply IH.
  - intros env s g gf items t Hinv Hcls Hne.
    rewrite (BaseGauge_get_metric_direct env s g gf items t Hinv Hcls Hne).
    cbn [fst]. unfold series. rewrite map_map. reflexivity.
Qed.

(** The scenario in the empty store, and the metric of the example gauge,
    whose point still holds 0. *)
Lemma C1_witness :
  ((g ← BaseGauge_init LongGauge "requests" "served requests" "1"
          ["method"];
    p ← Gauge_get_or_create_time_series g (Some [Some "GET"]);
    GaugePointLong_add p (VInt 5);;
    GaugePointLong_add p (VInt 3);;
    BaseGauge_get_metric env_collected g 42) empty_state).1 =
  Ok (Some
        (mkMetric
           (mkMetricDescriptor "requests" "served requests" "1" GAUGE_INT64
              ["method"])
           [mkTimeSeries [Some "GET"]
              [mkPoint (Some (ValueLong (VInt 8))) 42] 42])) /\
  (BaseGauge_get_metric env_collected 1%nat 42 example_long.2).1 =
  Ok (Some
        (mkMetric (descriptor example_long_fields)
           [mkTimeSeries [Some "GET"]
              [mkPoint (Some (ValueLong (VInt 0))) 42] 42])).
Proof.
  split.
  - exact (proj1 C1_get_metric_time_series env_collected "requests"
             "served requests" "1" "method" 42 empty_state values_ok_empty).
  - exact (proj2 (proj2 C1_get_metric_time_series) env_collected
             example_long.2 1%nat example_long_fields
             [([Some "GET"], 2%nat)] 42 example_long_inv eq_refl
             ltac:(discriminate)).
Defined.

(** ** When get_metric returns a metric *)

Lemma point_update_lookup_None (h h' : list obj) (l : loc) :
  point_update h h' -> h !! l = None -> h' !! l = None.
Proof.
  intros Hu Hl. apply lookup_ge_None. apply lookup_ge_None in Hl.
  rewrite (point_update_length _ _ Hu). exact Hl.
Qed.

Lemma point_update_entry_func (h h' : list obj) (p : loc) :
  point_update h h' -> entry_func h' p = entry_func h p.
Proof.
  intros Hu. unfold entry_func.
  destruct (h !! p) as [o|] eqn:E.
  - destruct o as [v|v|gp w|items|gf].
    + destruct (point_update_lookup_point h h' p GaugePointLong v Hu E)
        as [v' ->]. reflexivity.
    + destruct (point_update_lookup_point h h' p GaugePointDouble v Hu E)
        as [v' ->]. reflexivity.
    + rewrite (point_update_lookup_other h h' p _ Hu E); [reflexivity|].
      intros; apply not_point_derived.
    + rewrite (point_update_lookup_other h h' p _ Hu E); [reflexivity|].
      intros; apply not_point_dict.
    + rewrite (point_update_lookup_other h h' p _ Hu E); [reflexivity|].
      intros; apply not_point_gauge.
  - rewrite (point_update_lookup_None h h' p Hu E). reflexivity.
Qed.

Lemma point_update_all_readable (env : func_env) (c : point_class)
  (h h' : list obj) (ps : list loc) :
  point_update h h' -> all_readable env c h' ps = all_readable env c h ps.
Proof.
  intros Hu. unfold all_readable. induction ps as [|p ps IH]; cbn.
  - reflexivity.
  - rewrite (point_update_entry_func h h' p Hu), IH. reflexivity.
Qed.

Lemma all_readable_cons (env : func_env) (c : point_class) (h : list obj)
  (p : loc) (ps : list loc) :
  all_readable env c h (p :: ps) =
    match entry_func h p with
    | Some f => readable env c f
    | None => true
    end && all_readable env c h ps.
Proof. reflexivity. Qed.

(** A derived entry converts without an error exactly when its function is
    readable; an error that comes out is never a [TypeError]. *)
Lemma to_point_value_derived (env : func_env) (s : state) (p gp : loc)
  (f : fid) (c : point_class) (v : pyval) :
  heap s !! p = Some (ObjDerivedGaugePoint gp (WeakRef f)) ->
  heap s !! gp = Some (point_obj c v) ->
  match (to_point_value env p s).1 with
  | Ok _ => readable env c f = true
  | Raise e => readable env c f = false /\ e <> TypeError
  end.
Proof.
  intros Hp Hgp.
  assert (Hdisp :
    to_point_value env p s = DerivedGaugePoint_to_point_value env p s).
  { unfold to_point_value. unfold mbind at 1. unfold M_bind at 1.
    unfold load. rewrite Hp. reflexivity. }
  rewrite Hdisp.
  rewrite (DerivedGaugePoint_to_point_value_spec env s p gp f c v Hp Hgp).
  rewrite (DerivedGaugePoint_get_value_spec env s p gp f c v Hp Hgp).
  unfold readable.
  destruct (target_alive env f); [|reflexivity].
  cbn zeta. destruct (func_result env f) as [val|e].
  - destruct (stored_value c val) as [r|e] eqn:Hst.
    + destruct r; reflexivity.
    + destruct (decide (e = TypeError)) as [->|Hne]; cbn.
      * reflexivity.
      * split; [|exact Hne]. apply bool_decide_eq_false. exact Hne.
  - destruct (decide (e = TypeError)) as [->|Hne]; cbn.
    + reflexivity.
    + split; [|exact Hne]. apply bool_decide_eq_false. exact Hne.
Qed.

Lemma get_timeseries_list_loop_derived (env : func_env) (t : timestamp)
  (cls : gauge_class) (items : list (label_values_t * loc)) :
  is_Gauge cls = false ->
  forall acc s,
    Forall (entry_ok (heap s) cls) items.*2 ->
    match (get_timeseries_list_loop env items t acc s).1 with
    | Ok _ => all_readable env (point_type cls) (heap s) items.*2 = true
    | Raise e =>
        all_readable env (point_type cls) (heap s) items.*2 = false /\
        e <> TypeError
    end.
Proof.
  intros Hcls.
  induction items as [|[lv p] rest IH]; intros acc s.
  - reflexivity.
  - change (((lv, p) :: rest).*2) with (p :: rest.*2).
    rewrite Forall_cons, all_readable_cons. intros [Hp Hrest].
    unfold entry_ok in Hp. rewrite Hcls in Hp.
    destruct Hp as (gp & f & Hp & v & Hgp).
    cbn [get_timeseries_list_loop].
    unfold mbind at 1. unfold M_bind at 1. unfold emit at 1.
    unfold mbind at 1. unfold M_bind at 1.
    set (s1 := mkState (heap s) (trace s ++ [EvToPointValue p])).
    pose proof (to_point_value_derived env s1 p gp f (point_type cls) v
                  Hp Hgp) as Hone.
    unfold entry_func. rewrite Hp.
    destruct (to_point_value env p s1) as [[x|e] s2] eqn:Hrun;
      cbn [fst] in Hone.
    + rewrite Hone. cbn [andb].
      apply to_point_value_effect in Hrun as [Hu _]. cbn [heap s1] in Hu.
      rewrite <- (point_update_all_readable env _ _ _ rest.*2 Hu).
      apply IH. eapply Forall_impl; [exact Hrest|].
      intros q. apply point_update_entry_ok, Hu.
    + destruct Hone as [-> Hne]. cbn. auto.
Qed.

Lemma readable_false_fails (env : func_env) (c : point_class) (f : fid) :
  readable env c f = false -> exists e, read_fails env c f e.
Proof.
  unfold readable, read_fails.
  destruct (target_alive env f); [|discriminate].
  destruct (func_result env f) as [val|e].
  - destruct (stored_value c val) as [r|e] eqn:Hst; [discriminate|].
    intros H. apply bool_decide_eq_false in H. exists e.
    split; [reflexivity|]. split; [|exact H]. right. exists val. auto.
  - intros H. apply bool_decide_eq_false in H. exists e.
    split; [reflexivity|]. split; [|exact H]. left. reflexivity.
Qed.

(** The conversion of an entry whose read fails with [e] raises [e]. *)
Lemma entry_read_fails (env : func_env) (s : state) (cls : gauge_class)
  (p : loc) (f : fid) (e : exn) :
  is_Gauge cls = false ->
  entry_ok (heap s) cls p ->
  entry_func (heap s) p = Some f ->
  read_fails env (point_type cls) f e ->
  exists s', to_point_value env p s = (Raise e, s').
Proof.
  intros Hcls Hp Hf (Halive & Hres & Hne).
  unfold entry_ok in Hp. rewrite Hcls in Hp.
  destruct Hp as (gp & f' & Hp & v & Hgp).
  unfold entry_func in Hf. rewrite Hp in Hf. injection Hf as ->.
  assert (Hdisp :
    to_point_value env p s = DerivedGaugePoint_to_point_value env p s).
  { unfold to_point_value. unfold mbind at 1. unfold M_bind at 1.
    unfold load. rewrite Hp. reflexivity. }
  rewrite Hdisp.
  rewrite (DerivedGaugePoint_to_point_value_spec env s p gp f _ v Hp Hgp).
  rewrite (DerivedGaugePoint_get_value_spec env s p gp f _ v Hp Hgp).
  rewrite Halive. cbn zeta.
  destruct Hres as [Hres|(val & Hres & Hst)]; rewrite Hres.
  - destruct (decide (e = TypeError)); [contradiction|]. eauto.
  - rewrite Hst. destruct (decide (e = TypeError)); [contradiction|]. eauto.
Qed.

(** When some entry is not readable, the loop stops at the first one, in
    the order of the map, and raises the error of its read. *)
Lemma get_timeseries_list_loop_first_error (env : func_env) (t : timestamp)
  (cls : gauge_class) (items : list (label_values_t * loc)) :
  is_Gauge cls = false ->
  forall acc s,
    Forall (entry_ok (heap s) cls) items.*2 ->
    all_readable env (point_type cls) (heap s) items.*2 = false ->
    exists pre lv p post f e,
      items = pre ++ (lv, p) :: post /\
      all_readable env (point_type cls) (heap s) pre.*2 = true /\
      entry_func (heap s) p = Some f /\
      read_fails env (point_type cls) f e /\
      (get_timeseries_list_loop env items t acc s).1 = Raise e.
Proof.
  intros Hcls.
  induction items as [|[lv p] rest IH]; intros acc s.
  - intros _ H. discriminate.
  - change (((lv, p) :: rest).*2) with (p :: rest.*2).
    rewrite Forall_cons, all_readable_cons. intros [Hp Hrest] Hall.
    pose proof Hp as Hp'. unfold entry_ok in Hp'. rewrite Hcls in Hp'.
    destruct Hp' as (gp & f & Hlp & v & Hgp).
    assert (Hf : entry_func (heap s) p = Some f).
    { unfold entry_func. rewrite Hlp. reflexivity. }
    rewrite Hf in Hall.
    cbn [get_timeseries_list_loop].
    unfold mbind at 1. unfold M_bind at 1. unfold emit at 1.
    unfold mbind at 1. unfold M_bind at 1.
    set (s1 := mkState (heap s) (trace s ++ [EvToPointValue p])).
    destruct (readable env (point_type cls) f) eqn:Hread.
    + cbn [andb] in Hall.
      pose proof (to_point_value_derived env s1 p gp f (point_type cls) v
                    Hlp Hgp) as Hone.
      destruct (to_point_value env p s1) as [[x|e] s2] eqn:Hrun;
        cbn [fst] in Hone.
      2:{ destruct Hone as [Hone _]. congruence. }
      apply to_point_value_effect in Hrun as [Hu _]. cbn [heap s1] in Hu.
      destruct (IH (acc ++ [mkTimeSeries lv [mkPoint x t] t]) s2)
        as (pre & lv' & p' & post & f' & e & -> & Hpre & Hf' & Hfail & Hrun).
      * eapply Forall_impl; [exact Hrest|].
        intros q. apply point_update_entry_ok, Hu.
      * rewrite (point_update_all_readable env _ _ _ rest.*2 Hu).
        exact Hall.
      * exists ((lv, p) :: pre), lv', p', post, f', e.
        split; [reflexivity|].
        split.
        { change (((lv, p) :: pre).*2) with (p :: pre.*2).
          rewrite all_readable_cons, Hf, Hread. cbn [andb].
          rewrite <- (point_update_all_readable env _ _ _ pre.*2 Hu).
          exact Hpre. }
        split.
        { rewrite <- (point_update_entry_func _ _ p' Hu). exact Hf'. }
        split; [exact Hfail|exact Hrun].
    + destruct (readable_false_fails env _ f Hread) as [e Hfail].
      destruct (entry_read_fails env s1 cls p f e Hcls Hp Hf Hfail)
        as [s2 Hrun].
      rewrite Hrun.
      exists [], lv, p, rest, f, e.
      split; [reflexivity|]. split; [reflexivity|].
      split; [exact Hf|]. split; [exact Hfail|reflexivity].
Qed.

Lemma BaseGauge_get_metric_derived (env : func_env) (s : state) (g : loc)
  (gf : gauge_fields) (items : list (label_values_t * loc))
  (t : timestamp) :
  gauge_inv (heap s) g gf items ->
  is_Gauge (g_class gf) = false ->
  items <> [] ->
  if all_readable env (point_type (g_class gf)) (heap s) items.*2
  then exists m, (BaseGauge_get_metric env g t s).1 = Ok (Some m)
  else exists pre lv p post f e,
      items = pre ++ (lv, p) :: post /\
      all_readable env (point_type (g_class gf)) (heap s) pre.*2 = true /\
      entry_func (heap s) p = Some f /\
      read_fails env (point_type (g_class gf)) f e /\
      (to_point_value env p s).1 = Raise e /\
      (BaseGauge_get_metric env g t s).1 = Raise e.
Proof.
  intros [Hg Hd _ _ He _ _] Hcls Hne.
  rewrite (BaseGauge_get_metric_spec env s g gf items t Hg Hd).
  destruct (all_readable env _ (heap s) items.*2) eqn:Hall.
  - destruct items as [|kv rest] eqn:Hitems; [contradiction|].
    rewrite <- Hitems in *.
    pose proof (get_timeseries_list_loop_derived env t (g_class gf) items
                  Hcls [] (after_events s [EvAcquire (PointsLock g)]) He)
      as Hloop.
    cbn [heap after_events] in Hloop.
    destruct (get_timeseries_list_loop env items t [] _) as [[l|e] s2];
      cbn [fst] in Hloop.
    + eexists. reflexivity.
    + destruct Hloop as [Hloop _]. congruence.
  - destruct (get_timeseries_list_loop_first_error env t (g_class gf) items
                Hcls [] (after_events s [EvAcquire (PointsLock g)]) He Hall)
      as (pre & lv & p & post & f & e & Hitems & Hpre & Hf & Hfail & Hrun).
    cbn [heap after_events] in Hpre, Hf.
    exists pre, lv, p, post, f, e.
    split; [exact Hitems|]. split; [exact Hpre|]. split; [exact Hf|].
    split; [exact Hfail|].
    split.
    + assert (Hp : entry_ok (heap s) (g_class gf) p).
      { rewrite Forall_forall in He. apply He. rewrite Hitems.
        rewrite fmap_app. apply elem_of_app. right. left. }
      destruct (entry_read_fails env s (g_class gf) p f e Hcls Hp Hf Hfail)
        as [s' ->]. reflexivity.
    + destruct items as [|kv rest] eqn:Hi; [contradiction|].
      rewrite <- Hi in *.
      destruct (get_timeseries_list_loop env items t [] _) as [[l|e'] s2];
        cbn [fst] in Hrun; [discriminate|].
      cbn [fst]. congruence.
Qed.

(** C2, as stated, fails: the map of the example derived gauge has one
    entry, and when its tracked function raises, [get_metric] raises the
    same error instead of returning a metric. *)
Lemma C2_counterexample :
  ~ (forall (env : func_env) (s : state) (g : loc) (gf : gauge_fields)
            (items : list (label_values_t * loc)) (t : timestamp),
       gauge_inv (heap s) g gf items ->
       (items = [] -> (BaseGauge_get_metric env g t s).1 = Ok None) /\
       (items <> [] ->
        exists m, (BaseGauge_get_metric env g t s).1 = Ok (Some m))).
Proof.
  intros H.
  destruct (H (env_raising (OtherError "RuntimeError")) example_derived.2
              1%nat example_derived_fields [([], 3%nat)] 0
              example_derived_inv) as [_ Hm].
  destruct Hm as [m Hm]; [discriminate|].
  vm_compute in Hm. discriminate.
Qed.

(** C2, amended. With an empty map [get_metric] returns [None] and changes
    nothing. With at least one entry it never returns [None]: a [LongGauge]
    or [DoubleGauge] returns a metric; a derived gauge returns a metric when
    every tracked function is readable (its target was collected, or the
    read ends in a value or in a [TypeError]).  Otherwise the error of the
    first failing read propagates: the entries before the first one that is
    not readable, in the order of the map, are read; the read of that one
    fails with an error [e] that is not a [TypeError] (its live function
    raises [e], or returns a value for which [set] raises [e]), its
    conversion raises [e], and [get_metric] raises that same [e]. *)
Theorem C2_get_metric_absent_only_when_empty (env : func_env) (s : state)
  (g : loc) (gf : gauge_fields) (items : list (label_values_t * loc))
  (t : timestamp) :
  gauge_inv (heap s) g gf items ->
  (items = [] -> BaseGauge_get_metric env g t s = (Ok None, s)) /\
  (items <> [] ->
   (BaseGauge_get_metric env g t s).1 <> Ok None /\
   (is_Gauge (g_class gf) = true ->
    exists m, (BaseGauge_get_metric env g t s).1 = Ok (Some m)) /\
   (is_Gauge (g_class gf) = false ->
    if all_readable env (point_type (g_class gf)) (heap s) items.*2
    then exists m, (BaseGauge_get_metric env g t s).1 = Ok (Some m)
    else exists pre lv p post f e,
        items = pre ++ (lv, p) :: post /\
        all_readable env (point_type (g_class gf)) (heap s) pre.*2 = true /\
        entry_func (heap s) p = Some f /\
        read_fails env (point_type (g_class gf)) f e /\
        (to_point_value env p s).1 = Raise e /\
        (BaseGauge_get_metric env g t s).1 = Raise e)).
Proof.
  intros Hinv. pose proof Hinv as [Hg Hd _ _ _ _ _]. split.
  - intros ->.
    rewrite (BaseGauge_get_metric_spec env s g gf [] t Hg Hd). reflexivity.
  - intros Hne. split; [|split].
    + rewrite (BaseGauge_get_metric_spec env s g gf items t Hg Hd).
      destruct items as [|kv rest]; [contradiction|].
      destruct (get_timeseries_list_loop env _ t [] _) as [[l|e] s2];
        discriminate.
    + intros Hcls.
      rewrite (BaseGauge_get_metric_direct env s g gf items t Hinv Hcls Hne).
      eexists. reflexivity.
    + intros Hcls.
      apply (BaseGauge_get_metric_derived env s g gf items t Hinv Hcls Hne).
Qed.

(** The example derived gauge when its function returns 5, the example
    direct gauge, and the example derived gauge when its function raises a
    [RuntimeError]. *)
Lemma C2_witness :
  (exists m,
     (BaseGauge_get_metric (env_returning (VInt 5)) 1%nat 0
        example_derived.2).1 = Ok (Some m)) /\
  (exists m,
     (BaseGauge_get_metric env_collected 1%nat 0 example_long.2).1 =
       Ok (Some m)) /\
  (BaseGauge_get_metric (env_raising (OtherError "RuntimeError")) 1%nat 0
     example_derived.2).1 = Raise (OtherError "RuntimeError").
Proof.
  split; [|split].
  - destruct (C2_get_metric_absent_only_when_empty (env_returning (VInt 5))
                example_derived.2 1%nat example_derived_fields
                [([], 3%nat)] 0 example_derived_inv) as [_ H].
    destruct H as (_ & _ & H); [discriminate|].
    exact (H eq_refl).
  - destruct (C2_get_metric_absent_only_when_empty env_collected
                example_long.2 1%nat example_long_fields
                [([Some "GET"], 2%nat)] 0 example_long_inv) as [_ H].
    destruct H as (_ & H & _); [discriminate|].
    exact (H eq_refl).
  - destruct (C2_get_metric_absent_only_when_empty
                (env_raising (OtherError "RuntimeError"))
                example_derived.2 1%nat example_derived_fields
                [([], 3%nat)] 0 example_derived_inv) as [_ H].
    destruct H as (_ & _ & H); [discriminate|].
    destruct (H eq_refl)
      as (pre & lv & p & post & f & e & _ & _ & _ & Hfail & _ & Hrun).
    destruct Hfail as (_ & [Hres|(val & Hres & _)] & _).
    + injection Hres as <-. exact Hrun.
    + discriminate Hres.
Defined.

(** ** Reading a derived point *)

Lemma value_ok_stored (c : point_class) (val : pyval) :
  value_ok c val = true -> stored_value c val = Ok val.
Proof.
  destruct c; simpl.
  - intros ->. reflexivity.
  - destruct val; try discriminate. reflexivity.
Qed.

Lemma DerivedGaugePoint_read_live (env : func_env) (s : state)
  (self gp : loc) (f : fid) (c : point_class) (v val : pyval) :
  heap s !! self = Some (ObjDerivedGaugePoint gp (WeakRef f)) ->
  heap s !! gp = Some (point_obj c v) ->
  target_alive env f = true ->
  func_result env f = Ok val ->
  value_ok c val = true ->
  let s' :=
    mkState (<[gp := point_obj c val]> (heap s))
      (trace s ++
         [EvCall f; EvAcquire (ValueLock gp); EvRelease (ValueLock gp)]) in
  DerivedGaugePoint_get_value env self s = (Ok val, s') /\
  DerivedGaugePoint_to_point_value env self s =
    (Ok (Some (snapshot c val)), s').
Proof.
  intros Hself Hgp Halive Hres Hval s'.
  pose proof (DerivedGaugePoint_get_value_spec env s self gp f c v Hself Hgp)
    as Hget.
  pose proof (DerivedGaugePoint_to_point_value_spec env s self gp f c v
                Hself Hgp) as Hto.
  rewrite Halive, Hres in Hget. cbn zeta in Hget.
  rewrite (value_ok_stored c val Hval) in Hget. cbn [trace] in Hget.
  rewrite Hto, Hget. split; [reflexivity|].
  destruct val; try reflexivity.
  rewrite value_ok_not_None in Hval. discriminate.
Qed.

(** C7. A derived point whose tracked function's target was collected:
    [get_value] and [to_point_value] both return [None], raise nothing and
    leave the state as it was.  When the target is alive and the function
    returns a value of the kind of the wrapped point (an [int] for a long
    point, a [float] for a double point), [get_value] calls the function,
    stores the value in the wrapped point through [set] (under the lock of
    that point) and returns the value the wrapped point then holds, and
    [to_point_value] returns that value as [ValueLong] or [ValueDouble]. *)
Theorem C7_derived_point_reads (env : func_env) (s : state)
  (self gp : loc) (f : fid) (c : point_class) (v : pyval) :
  heap s !! self = Some (ObjDerivedGaugePoint gp (WeakRef f)) ->
  heap s !! gp = Some (point_obj c v) ->
  (target_alive env f = false ->
   DerivedGaugePoint_get_value env self s = (Ok VNone, s) /\
   DerivedGaugePoint_to_point_value env self s = (Ok None, s)) /\
  (forall val,
     target_alive env f = true ->
     func_result env f = Ok val ->
     value_ok c val = true ->
     exists s',
       DerivedGaugePoint_get_value env self s = (Ok val, s') /\
       DerivedGaugePoint_to_point_value env self s =
         (Ok (Some (snapshot c val)), s') /\
       heap s' = <[gp := point_obj c val]> (heap s) /\
       trace s' =
         trace s ++
           [EvCall f; EvAcquire (ValueLock gp); EvRelease (ValueLock gp)] /\
       call_get_value gp s' = (Ok val, s')).
Proof.
  intros Hself Hgp.
  pose proof (DerivedGaugePoint_get_value_spec env s self gp f c v Hself Hgp)
    as Hget.
  pose proof (DerivedGaugePoint_to_point_value_spec env s self gp f c v
                Hself Hgp) as Hto.
  split.
  - intros Hdead. rewrite Hdead in Hget. rewrite Hto, Hget. auto.
  - intros val Halive Hres Hval.
    destruct (DerivedGaugePoint_read_live env s self gp f c v val
                Hself Hgp Halive Hres Hval) as [-> ->].
    eexists. split; [reflexivity|]. split; [reflexivity|].
    split; [reflexivity|]. split; [reflexivity|].
    apply (call_get_value_point _ gp c val). cbn [heap].
    eapply lookup_insert_point, Hgp.
Qed.

(** The derived point of the example gauge, read after the target of its
    function was collected, and read while the function returns 5. *)
Lemma C7_witness :
  (DerivedGaugePoint_get_value env_collected 3%nat example_derived.2 =
     (Ok VNone, example_derived.2) /\
   DerivedGaugePoint_to_point_value env_collected 3%nat example_derived.2 =
     (Ok None, example_derived.2)) /\
  (exists s',
     DerivedGaugePoint_get_value (env_returning (VInt 5)) 3%nat
       example_derived.2 = (Ok (VInt 5), s') /\
     DerivedGaugePoint_to_point_value (env_returning (VInt 5)) 3%nat
       example_derived.2 = (Ok (Some (ValueLong (VInt 5))), s') /\
     call_get_value 2%nat s' = (Ok (VInt 5), s')).
Proof.
  split.
  - exact (proj1 (C7_derived_point_reads env_collected example_derived.2
                    3%nat 2%nat 7%nat GaugePointLong (VInt 0)
                    eq_refl eq_refl) eq_refl).
  - destruct (proj2 (C7_derived_point_reads (env_returning (VInt 5))
                       example_derived.2 3%nat 2%nat 7%nat GaugePointLong
                       (VInt 0) eq_refl eq_refl)
                (VInt 5) eq_refl eq_refl eq_refl)
      as (s' & H1 & H2 & _ & _ & H3).
    exists s'. auto.
Defined.

(** C10, as stated, fails for a value that cannot be converted to a float
    for another reason than its type: the tracked function of the example
    double derived point returns [2 ^ 1400], the conversion by [set] raises
    [OverflowError], and [get_value] raises it instead of returning
    [None]. *)
Lemma C10_counterexample :
  ~ (forall (env : func_env) (s : state) (self gp : loc) (f : fid)
            (v val : pyval),
       heap s !! self = Some (ObjDerivedGaugePoint gp (WeakRef f)) ->
       heap s !! gp = Some (ObjGaugePointDouble v) ->
       target_alive env f = true ->
       func_result env f = Ok val ->
       (forall r, py_float val <> Ok r) ->
       (DerivedGaugePoint_get_value env self s).1 = Ok VNone).
Proof.
  intros H.
  specialize (H (env_returning (VInt (2 ^ 1400))) example_derived_double.2
                3%nat 2%nat 7%nat (VFloat (S754_zero false))
                (VInt (2 ^ 1400)) eq_refl eq_refl eq_refl eq_refl).
  assert (Hno : forall r, py_float (VInt (2 ^ 1400)) <> Ok r)
    by (intros r Hr; vm_compute in Hr; discriminate).
  specialize (H Hno). vm_compute in H. discriminate.
Qed.

(** C10, amended. [DerivedGaugePoint.get_value] returns [None] whenever
    calling the tracked function and storing its result raises a
    [TypeError]: when the target was collected (calling [None]), when the
    live function itself raises [TypeError], and when the function returns a
    value whose conversion by [set] raises [TypeError], which only the
    [float(val)] of a double point does.  In each case nothing propagates to
    the caller, the wrapped point keeps its value, and [to_point_value]
    returns [None] too.  A returned value whose storing fails with another
    error is not mapped to [None]: that error reaches the caller of
    [get_value] and of [to_point_value], and the wrapped point keeps its
    value; so does the [OverflowError] of a double point for every [int] of
    magnitude [2 ^ 1024] or more. *)
Theorem C10_type_error_becomes_absent (env : func_env) (s : state)
  (self gp : loc) (f : fid) (c : point_class) (v : pyval) :
  heap s !! self = Some (ObjDerivedGaugePoint gp (WeakRef f)) ->
  heap s !! gp = Some (point_obj c v) ->
  (target_alive env f = false ->
   DerivedGaugePoint_get_value env self s = (Ok VNone, s)) /\
  (target_alive env f = true ->
   func_result env f = Raise TypeError ->
   DerivedGaugePoint_get_value env self s =
     (Ok VNone, after_events s [EvCall f])) /\
  (forall val,
     target_alive env f = true ->
     func_result env f = Ok val ->
     stored_value c val = Raise TypeError ->
     c = GaugePointDouble /\
     py_float val = Raise TypeError /\
     DerivedGaugePoint_get_value env self s =
       (Ok VNone,
        after_events s
          [EvCall f; EvAcquire (ValueLock gp); EvRelease (ValueLock gp)])) /\
  (forall val e,
     target_alive env f = true ->
     func_result env f = Ok val ->
     stored_value c val = Raise e ->
     e <> TypeError ->
     (DerivedGaugePoint_get_value env self s).1 = Raise e /\
     (DerivedGaugePoint_to_point_value env self s).1 = Raise e /\
     heap (DerivedGaugePoint_get_value env self s).2 = heap s) /\
  (forall z,
     c = GaugePointDouble ->
     target_alive env f = true ->
     func_result env f = Ok (VInt z) ->
     2 ^ 1024 <= Z.abs z ->
     (DerivedGaugePoint_get_value env self s).1 = Raise OverflowError) /\
  ((DerivedGaugePoint_get_value env self s).1 = Ok VNone ->
   (DerivedGaugePoint_to_point_value env self s).1 = Ok None /\
   heap (DerivedGaugePoint_get_value env self s).2 = heap s).
Proof.
  intros Hself Hgp.
  pose proof (DerivedGaugePoint_get_value_spec env s self gp f c v Hself Hgp)
    as Hget.
  pose proof (DerivedGaugePoint_to_point_value_spec env s self gp f c v
                Hself Hgp) as Hto.
  assert (Hother : forall val e,
    target_alive env f = true ->
    func_result env f = Ok val ->
    stored_value c val = Raise e ->
    e <> TypeError ->
    (DerivedGaugePoint_get_value env self s).1 = Raise e /\
    (DerivedGaugePoint_to_point_value env self s).1 = Raise e /\
    heap (DerivedGaugePoint_get_value env self s).2 = heap s).
  { intros val e Halive Hres Hst Hne.
    rewrite Halive, Hres in Hget. cbn zeta in Hget. rewrite Hst in Hget.
    destruct (decide (e = TypeError)); [contradiction|].
    rewrite Hto, Hget. destruct c; auto. }
  split; [|split; [|split; [|split; [|split]]]].
  - intros Hdead. rewrite Hdead in Hget. exact Hget.
  - intros Halive Hres. rewrite Halive, Hres in Hget. exact Hget.
  - intros val Halive Hres Hst.
    rewrite Halive, Hres in Hget. cbn zeta in Hget. rewrite Hst in Hget.
    destruct c.
    + exfalso. cbn in Hst. destruct (isinstance_integer val); discriminate.
    + split; [reflexivity|]. split; [exact Hst|exact Hget].
  - exact Hother.
  - intros z -> Halive Hres Hbig.
    apply (Hother (VInt z) OverflowError Halive Hres); [|discriminate].
    cbn [stored_value py_float].
    pose proof (int_to_float_ok z) as Hok.
    destruct (int_to_float z) as [x|e]; cbn [float_of_int_ok] in Hok.
    + lia.
    + destruct Hok as [-> _]. reflexivity.
  - rewrite Hto. clear Hto Hother.
    destruct (target_alive env f); [|rewrite Hget; auto].
    cbn zeta in Hget. rewrite Hget. clear Hget.
    destruct (func_result env f) as [val|e].
    + destruct (stored_value c val) as [r|e] eqn:Hst.
      * cbn [fst snd heap]. intros [= ->].
        apply stored_value_ok in Hst. rewrite value_ok_not_None in Hst.
        discriminate.
      * destruct (decide (e = TypeError)); [|discriminate].
        destruct c; auto.
    + destruct (decide (e = TypeError)); [auto|discriminate].
Qed.

(** The example derived gauges: a collected target, a function that raises
    [TypeError], a function that returns [None] to a double point, and a
    function that returns [2 ^ 1400] to a double point. *)
Lemma C10_witness :
  DerivedGaugePoint_get_value env_collected 3%nat example_derived.2 =
    (Ok VNone, example_derived.2) /\
  DerivedGaugePoint_get_value (env_raising TypeError) 3%nat
    example_derived.2 =
    (Ok VNone, after_events example_derived.2 [EvCall 7%nat]) /\
  DerivedGaugePoint_get_value (env_returning VNone) 3%nat
    example_derived_double.2 =
    (Ok VNone,
     after_events example_derived_double.2
       [EvCall 7%nat; EvAcquire (ValueLock 2%nat);
        EvRelease (ValueLock 2%nat)]) /\
  (DerivedGaugePoint_get_value (env_returning (VInt (2 ^ 1400))) 3%nat
     example_derived_double.2).1 = Raise OverflowError.
Proof.
  split; [|split; [|split]].
  - exact (proj1 (C10_type_error_becomes_absent env_collected
                    example_derived.2 3%nat 2%nat 7%nat GaugePointLong
                    (VInt 0) eq_refl eq_refl) eq_refl).
  - exact (proj1 (proj2 (C10_type_error_becomes_absent
                           (env_raising TypeError) example_derived.2 3%nat
                           2%nat 7%nat GaugePointLong (VInt 0)
                           eq_refl eq_refl)) eq_refl eq_refl).
  - exact (proj2 (proj2 (proj1 (proj2 (proj2 (C10_type_error_becomes_absent
                           (env_returning VNone) example_derived_double.2
                           3%nat 2%nat 7%nat GaugePointDouble
                           (VFloat (S754_zero false)) eq_refl eq_refl)))
                           VNone eq_refl eq_refl eq_refl))).
  - destruct (C10_type_error_becomes_absent
                (env_returning (VInt (2 ^ 1400))) example_derived_double.2
                3%nat 2%nat 7%nat GaugePointDouble
                (VFloat (S754_zero false)) eq_refl eq_refl)
      as (_ & _ & _ & _ & H & _).
    apply (H (2 ^ 1400) eq_refl eq_refl eq_refl).
    apply Z.leb_le. vm_compute. reflexivity.
Defined.

(** ** Registering a tracked function *)

Lemma get_value_derived (env : func_env) (s : state) (p gp : loc)
  (w : weakref) :
  heap s !! p = Some (ObjDerivedGaugePoint gp w) ->
  get_value env p s = DerivedGaugePoint_get_value env p s /\
  to_point_value env p s = DerivedGaugePoint_to_point_value env p s.
Proof.
  intros Hp. unfold get_value, to_point_value.
  split; unfold mbind at 1; unfold M_bind at 1; unfold load;
    rewrite Hp; reflexivity.
Qed.

Lemma DerivedGauge_create_time_series_inv (s : state) (g : loc)
  (gf : gauge_fields) (items : list (label_values_t * loc))
  (lv : label_values_t) (f : fid) :
  gauge_inv (heap s) g gf items ->
  is_Gauge (g_class gf) = false ->
  valid_label_values gf lv ->
  let c := point_type (g_class gf) in
  let n := length (heap s) in
  exists s',
    DerivedGauge_create_time_series g (Some lv) (Some f) s =
      (Ok (default (S n) (dict_get lv items)), s') /\
    gauge_inv (heap s') g gf (items_after_setdefault items lv (S n)) /\
    heap s' !! n = Some (point_obj c (zero_value c)) /\
    heap s' !! S n = Some (ObjDerivedGaugePoint n (WeakRef f)) /\
    (forall l o, heap s !! l = Some o -> l <> points gf ->
                 heap s' !! l = Some o).
Proof.
  intros Hinv Hcls Hvalid c n. pose proof Hinv as [Hg Hd _ _ _ _ _].
  rewrite (DerivedGauge_create_time_series_eq s g gf Hg), Hcls.
  apply valid_label_values_eqb in Hvalid as [-> ->].
  destruct (DerivedGauge__create_time_series_inv s g gf items Hinv lv f Hcls)
    as (s' & Hrun & Hinv' & Hn & HSn & _).
  exists s'. split; [exact Hrun|]. split; [exact Hinv'|].
  split; [exact Hn|]. split; [exact HSn|].
  rewrite (DerivedGauge__create_time_series_spec s g gf items Hg Hd) in Hrun.
  cbn zeta in Hrun. intros l o Hl Hne.
  assert (Hl1 :
    (heap s ++ [point_obj c (zero_value c)] ++
       [ObjDerivedGaugePoint n (WeakRef f)]) !! l = Some o)
    by (apply lookup_app_l_Some, Hl).
  destruct (dict_get lv items); inversion Hrun; subst s'; cbn [heap].
  - exact Hl1.
  - rewrite list_lookup_insert_ne by auto. exact Hl1.
Qed.

(** C6. On a derived gauge, [create_time_series] without a function raises
    [ValueError], whatever the label values, and leaves the state as it was.
    Registered twice for the same new tuple, first with [f1] and then with
    [f2], it returns the same point both times, and that point tracks [f1]:
    a read by [get_value] or [to_point_value] is the read of [f1] and does
    not depend on what [f2] is or does. *)
Theorem C6_create_time_series_first_wins (s : state) (g : loc)
  (gf : gauge_fields) (items : list (label_values_t * loc)) :
  gauge_inv (heap s) g gf items ->
  is_Gauge (g_class gf) = false ->
  (forall label_values,
     DerivedGauge_create_time_series g label_values None s =
       (Raise ValueError, s)) /\
  (forall lv f1 f2,
     valid_label_values gf lv ->
     dict_get lv items = None ->
     exists p gp s1 s2,
       DerivedGauge_create_time_series g (Some lv) (Some f1) s =
         (Ok p, s1) /\
       DerivedGauge_create_time_series g (Some lv) (Some f2) s1 =
         (Ok p, s2) /\
       heap s2 !! p = Some (ObjDerivedGaugePoint gp (WeakRef f1)) /\
       (forall env val,
          target_alive env f1 = true ->
          func_result env f1 = Ok val ->
          value_ok (point_type (g_class gf)) val = true ->
          (get_value env p s2).1 = Ok val /\
          (to_point_value env p s2).1 =
            Ok (Some (snapshot (point_type (g_class gf)) val))) /\
       (forall env env',
          target_alive env f1 = target_alive env' f1 ->
          func_result env f1 = func_result env' f1 ->
          get_value env p s2 = get_value env' p s2 /\
          to_point_value env p s2 = to_point_value env' p s2)).
Proof.
  intros Hinv Hcls. pose proof Hinv as [Hg _ _ _ _ _ _]. split.
  - intros label_values.
    rewrite (DerivedGauge_create_time_series_eq s g gf Hg), Hcls.
    destruct label_values as [lv|]; [|reflexivity].
    destruct (any_is_None lv); [reflexivity|].
    destruct (length lv =? _len_label_keys gf)%nat; reflexivity.
  - intros lv f1 f2 Hvalid Hnone.
    set (c := point_type (g_class gf)).
    destruct (DerivedGauge_create_time_series_inv s g gf items lv f1
                Hinv Hcls Hvalid)
      as (s1 & Hrun1 & Hinv1 & Hgp1 & Hp1 & _).
    rewrite Hnone in Hrun1. cbn [default] in Hrun1.
    set (gp := length (heap s)) in *. set (p := S gp) in *.
    set (items1 := items_after_setdefault items lv p) in *.
    assert (Hget1 : dict_get lv items1 = Some p).
    { unfold items1. rewrite dict_get_after_setdefault, Hnone.
      reflexivity. }
    destruct (DerivedGauge_create_time_series_inv s1 g gf items1 lv f2
                Hinv1 Hcls Hvalid)
      as (s2 & Hrun2 & Hinv2 & _ & _ & Hkeep).
    rewrite Hget1 in Hrun2. cbn [default] in Hrun2.
    pose proof Hinv1 as [Hg1 Hd1 _ _ _ _ _].
    assert (Hp2 : heap s2 !! p = Some (ObjDerivedGaugePoint gp (WeakRef f1))).
    { apply Hkeep; [exact Hp1|]. intros E.
      assert (ObjDerivedGaugePoint gp (WeakRef f1) = ObjOrderedDict items1)
        by (apply Some_inj; rewrite <- E in Hd1;
            exact (eq_trans (eq_sym Hp1) Hd1)).
      discriminate. }
    assert (Hgp2 : heap s2 !! gp = Some (point_obj c (zero_value c))).
    { apply Hkeep; [exact Hgp1|]. intros E.
      assert (point_obj c (zero_value c) = ObjOrderedDict items1)
        by (apply Some_inj; rewrite <- E in Hd1;
            exact (eq_trans (eq_sym Hgp1) Hd1)).
      symmetry in H. destruct (not_point_dict _ _ _ H). }
    exists p, gp, s1, s2.
    split; [exact Hrun1|]. split; [exact Hrun2|]. split; [exact Hp2|].
    split.
    + intros env val Halive Hres Hval.
      destruct (get_value_derived env s2 p gp _ Hp2) as [-> ->].
      destruct (DerivedGaugePoint_read_live env s2 p gp f1 c
                  (zero_value c) val Hp2 Hgp2 Halive Hres Hval)
        as [-> ->]. auto.
    + intros env env' Halive Hres.
      destruct (get_value_derived env s2 p gp _ Hp2) as [-> ->].
      destruct (get_value_derived env' s2 p gp _ Hp2) as [-> ->].
      rewrite !(DerivedGaugePoint_to_point_value_spec _ s2 p gp f1 c
                  (zero_value c) Hp2 Hgp2).
      rewrite !(DerivedGaugePoint_get_value_spec _ s2 p gp f1 c
                  (zero_value c) Hp2 Hgp2).
      rewrite Halive, Hres. auto.
Qed.

(** The example derived gauge without entries: the tuple [("jobs",)]
    registered for the function 7 and then for the function 8. *)
Lemma C6_witness :
  DerivedGauge_create_time_series 1%nat (Some [Some "jobs"]) None
    example_derived_empty.2 = (Raise ValueError, example_derived_empty.2) /\
  exists p gp s1 s2,
    DerivedGauge_create_time_series 1%nat (Some [Some "jobs"]) (Some 7%nat)
      example_derived_empty.2 = (Ok p, s1) /\
    DerivedGauge_create_time_series 1%nat (Some [Some "jobs"]) (Some 8%nat)
      s1 = (Ok p, s2) /\
    heap s2 !! p = Some (ObjDerivedGaugePoint gp (WeakRef 7%nat)).
Proof.
  pose proof (C6_create_time_series_first_wins example_derived_empty.2
                1%nat example_derived_empty_fields []
                example_derived_empty_inv eq_refl) as [Hnone Htwice].
  split.
  - apply Hnone.
  - destruct (Htwice [Some "jobs"] 7%nat 8%nat)
      as (p & gp & s1 & s2 & H1 & H2 & H3 & _).
    + split; reflexivity.
    + reflexivity.
    + exists p, gp, s1, s2. auto.
Defined.

(** ** Clearing a gauge and removing a time series *)

Lemma series_label_values (t : timestamp)
  (vs : list (label_values_t * option Value)) :
  ts_label_values <$> series t vs = vs.*1.
Proof.
  unfold series. induction vs as [|v vs IH]; cbn; [reflexivity|].
  f_equal. exact IH.
Qed.

(** C8. [clear] assigns a new, empty map to the gauge in one step: the new
    map is an object that did not exist before, the old map object keeps its
    entries, and [get_metric] after [clear] returns [None].  After
    [remove_time_series(lv)] with a valid tuple, whatever calls follow on
    the gauge and on its points, as long as none of them creates [lv]
    again, no metric that [get_metric] returns has a time series for
    [lv]. *)
Theorem C8_clear_and_remove (s : state) (g : loc) (gf : gauge_fields)
  (items : list (label_values_t * loc)) :
  gauge_inv (heap s) g gf items ->
  (exists s1 d,
     BaseGauge_clear g s = (Ok tt, s1) /\
     heap s !! d = None /\
     heap s1 !! d = Some (ObjOrderedDict []) /\
     heap s1 !! g = Some (ObjGauge (with_points gf d)) /\
     heap s1 !! points gf = Some (ObjOrderedDict items) /\
     forall env t, BaseGauge_get_metric env g t s1 = (Ok None, s1)) /\
  (forall lv,
     valid_label_values gf lv ->
     exists s1,
       BaseGauge_remove_time_series g (Some lv) s = (Ok tt, s1) /\
       forall cs env t m,
         (forall e c, (e, c) ∈ cs -> created_key gf c <> Some lv) ->
         (BaseGauge_get_metric env g t (run_calls g cs s1)).1 =
           Ok (Some m) ->
         lv ∉ ts_label_values <$> metric_time_series m).
Proof.
  intros Hinv. pose proof Hinv as [Hg Hd Hk _ _ _ _]. split.
  - destruct (BaseGauge_clear_inv s g gf items Hinv)
      as (s1 & Hrun & Hinv1 & Hold & _).
    exists s1, (length (heap s)). split; [exact Hrun|].
    split; [apply lookup_ge_None; lia|].
    pose proof Hinv1 as [Hg1 Hd1 _ _ _ _ _]. cbn [with_points points] in Hd1.
    split; [exact Hd1|]. split; [exact Hg1|]. split; [exact Hold|].
    intros env t.
    apply (BaseGauge_get_metric_spec env s1 g _ [] t Hg1 Hd1).
  - intros lv Hvalid.
    rewrite (BaseGauge_remove_time_series_valid s g gf Hg lv Hvalid).
    destruct (BaseGauge__remove_time_series_inv s g gf items Hinv lv)
      as (s1 & Hrun & Hinv1 & _).
    exists s1. split; [exact Hrun|].
    intros cs env t m Hcs Hmetric.
    destruct (run_calls_inv g cs gf (dict_remove lv items) s1 Hinv1)
      as (gf2 & items2 & Hinv2 & _ & Hkeys).
    destruct (BaseGauge_get_metric_shape_fst env _ g gf2 items2 t m Hinv2
                Hmetric)
      as (vs & Hlen & ->).
    cbn [metric_time_series]. rewrite series_label_values.
    rewrite fst_zip by (rewrite length_fmap; lia).
    intros Hin. apply Hkeys in Hin as [Hin|(e & c & Hc & Hcreated)].
    + apply dict_get_is_Some in Hin as [q Hq].
      rewrite dict_get_remove in Hq by exact Hk.
      destruct (decide (lv = lv)); congruence.
    + exact (Hcs e c Hc Hcreated).
Qed.

(** The example gauge: cleared; and with [("GET",)] removed and then
    [("PUT",)] created. *)
Lemma C8_witness :
  (exists s1,
     BaseGauge_clear 1%nat example_long.2 = (Ok tt, s1) /\
     BaseGauge_get_metric env_collected 1%nat 0 s1 = (Ok None, s1)) /\
  (exists s1,
     BaseGauge_remove_time_series 1%nat (Some [Some "GET"]) example_long.2 =
       (Ok tt, s1) /\
     forall m,
       (BaseGauge_get_metric env_collected 1%nat 0
          (run_calls 1%nat
             [(env_collected,
               Call_get_or_create_time_series (Some [Some "PUT"]))]
             s1)).1 = Ok (Some m) ->
       [Some "GET"] ∉ ts_label_values <$> metric_time_series m).
Proof.
  pose proof (C8_clear_and_remove example_long.2 1%nat example_long_fields
                [([Some "GET"], 2%nat)] example_long_inv)
    as [Hclear Hremove].
  split.
  - destruct Hclear as (s1 & d & Hrun & _ & _ & _ & _ & Hmetric).
    exists s1. split; [exact Hrun|apply Hmetric].
  - destruct (Hremove [Some "GET"]) as (s1 & Hrun & Hafter).
    + split; reflexivity.
    + exists s1. split; [exact Hrun|].
      intros m. apply Hafter.
      intros e c Hin. apply list_elem_of_singleton in Hin.
      inversion Hin; subst. discriminate.
Defined.

(** ** The lock of the map during get_metric *)

Lemma outside_lock_held (l : lock) (p : loc) (evs : list event) :
  outside_lock l false (EvAcquire l :: EvToPointValue p :: evs) = false.
Proof.
  cbn [outside_lock]. destruct (decide (l = l)); [reflexivity|congruence].
Qed.

Lemma under_lock_held (g : loc) (evs : list event) :
  forallb point_event evs = true ->
  under_lock (PointsLock g) true (evs ++ [EvRelease (PointsLock g)]) = true.
Proof.
  induction evs as [|ev evs IH]; intros H.
  - reflexivity.
  - cbn [forallb] in H. apply andb_true_iff in H as [Hev Hevs].
    destruct ev as [[o|o]|[o|o]|f|p]; cbn [app under_lock];
      try discriminate Hev;
      try (destruct (decide (ValueLock o = PointsLock g));
           [discriminate|]);
      rewrite ?IH by exact Hevs; reflexivity.
Qed.

(** C9, as stated, fails: in the example derived gauge the conversion of
    the point and the call of its tracked function happen between the
    acquire and the release of the lock of the map. *)
Lemma C9_counterexample :
  ~ (forall (env : func_env) (s : state) (g : loc) (gf : gauge_fields)
            (items : list (label_values_t * loc)) (t : timestamp)
            (evs : list event),
       gauge_inv (heap s) g gf items ->
       trace (BaseGauge_get_metric env g t s).2 = trace s ++ evs ->
       outside_lock (PointsLock g) false evs = true).
Proof.
  intros H.
  specialize (H (env_returning (VInt 5)) example_derived.2 1%nat
                example_derived_fields [([], 3%nat)] 0
                [EvAcquire (PointsLock 1%nat); EvToPointValue 3%nat;
                 EvCall 7%nat; EvAcquire (ValueLock 2%nat);
                 EvRelease (ValueLock 2%nat); EvRelease (PointsLock 1%nat)]
                example_derived_inv eq_refl).
  vm_compute in H. discriminate.
Qed.

(** C9, amended. [get_metric] tests whether the map is empty without the
    lock, and for an empty map never takes it.  For a map with entries it
    takes the lock of the map once and holds it for the whole of
    [get_timeseries_list]: between the acquire and the release lie the
    conversions of the points, one per entry and in the order of the map
    when a metric is returned, together with the calls of the tracked
    functions and the locks of the wrapped points that the conversions
    make; the release is the last event, also when a conversion raises.
    Every conversion and every call of a tracked function happens while
    the lock is held, none outside it. *)
Theorem C9_conversions_under_the_lock (env : func_env) (s : state) (g : loc)
  (gf : gauge_fields) (items : list (label_values_t * loc))
  (t : timestamp) :
  gauge_inv (heap s) g gf items ->
  (items = [] -> trace (BaseGauge_get_metric env g t s).2 = trace s) /\
  (items <> [] ->
   exists evs,
     trace (BaseGauge_get_metric env g t s).2 =
       trace s ++
         [EvAcquire (PointsLock g)] ++ evs ++ [EvRelease (PointsLock g)] /\
     forallb point_event evs = true /\
     (exists p evs', head items.*2 = Some p /\
                     evs = EvToPointValue p :: evs') /\
     (forall m, (BaseGauge_get_metric env g t s).1 = Ok (Some m) ->
                conversions evs = items.*2) /\
     under_lock (PointsLock g) false
       ([EvAcquire (PointsLock g)] ++ evs ++ [EvRelease (PointsLock g)]) =
       true /\
     outside_lock (PointsLock g) false
       ([EvAcquire (PointsLock g)] ++ evs ++ [EvRelease (PointsLock g)]) =
       false).
Proof.
  intros [Hg Hd _ _ _ _ _].
  rewrite (BaseGauge_get_metric_spec env s g gf items t Hg Hd). split.
  - intros ->. reflexivity.
  - intros Hne. destruct items as [|[lv p] rest] eqn:Hitems;
      [contradiction|].
    rewrite <- Hitems in *.
    destruct (get_timeseries_list_loop env items t [] _) as [r s2] eqn:Hloop.
    apply get_timeseries_list_loop_effect in Hloop
      as (_ & evs & Htrace & Hev & Hconv & Hhead).
    cbn [trace after_events] in Htrace.
    rewrite Hitems in Hhead. destruct Hhead as [evs' ->].
    exists (EvToPointValue p :: evs').
    split.
    { destruct r; cbn [snd trace after_events]; rewrite Htrace;
        rewrite <- !app_assoc; reflexivity. }
    split; [exact Hev|].
    split; [exists p, evs'; rewrite Hitems; auto|].
    split.
    { intros m Hm. destruct r as [l|e]; [|discriminate]. eauto. }
    split; [|apply outside_lock_held].
    cbn [app under_lock].
    destruct (decide (PointsLock g = PointsLock g)); [|congruence].
    apply (under_lock_held g (EvToPointValue p :: evs') Hev).
Qed.

(** The example derived gauge while its function returns 5. *)
Lemma C9_witness :
  exists evs,
    trace (BaseGauge_get_metric (env_returning (VInt 5)) 1%nat 0
             example_derived.2).2 =
      trace example_derived.2 ++
        [EvAcquire (PointsLock 1%nat)] ++ evs ++
        [EvRelease (PointsLock 1%nat)] /\
    forallb point_event evs = true.
Proof.
  destruct (proj2 (C9_conversions_under_the_lock (env_returning (VInt 5))
                     example_derived.2 1%nat example_derived_fields
                     [([], 3%nat)] 0 example_derived_inv))
    as (evs & Htrace & Hev & _).
  - discriminate.
  - exists evs. auto.
Defined.

(** * Further properties of the module *)

(** ** The floating-point point *)

Lemma GaugePointDouble_set_spec (s : state) (self : loc) (v val : pyval) :
  heap s !! self = Some (ObjGaugePointDouble v) ->
  GaugePointDouble_set self val s =
    match py_float val with
    | Ok r =>
        (Ok tt,
         mkState (<[self := ObjGaugePointDouble r]> (heap s))
           (trace s ++
              [EvAcquire (ValueLock self); EvRelease (ValueLock self)]))
    | Raise e =>
        (Raise e,
         after_events s
           [EvAcquire (ValueLock self); EvRelease (ValueLock self)])
    end.
Proof.
  intros Hs.
  pose proof (call_set_point s self GaugePointDouble v Hs val) as H.
  unfold call_set in H. unfold mbind at 1 in H. unfold M_bind at 1 in H.
  unfold load in H. rewrite Hs in H. rewrite H. cbn [stored_value].
  destruct (py_float val); reflexivity.
Qed.


(** X1. [GaugePointDouble.set] takes the lock of the point, converts with
    [float(val)] and releases the lock however the conversion ends; a [set]
    that raises leaves the value of the point unchanged.  A float is stored
    as it is.  An [int] or [bool] [z] is stored as a float: the float equal
    to [z] when [|z| < 2 ^ 53], a float within one unit in the last place
    of [z] otherwise; [OverflowError] is raised instead only when
    [|z| >= 2 ^ 1023], and always when [|z| >= 2 ^ 1024].  [None] raises
    [TypeError]. *)
Theorem X1_double_point_set (s : state) (self : loc) (v val : pyval) :
  heap s !! self = Some (ObjGaugePointDouble v) ->
  exists s',
    (GaugePointDouble_set self val s).2 = s' /\
    trace s' =
      trace s ++ [EvAcquire (ValueLock self); EvRelease (ValueLock self)] /\
    (forall e,
       (GaugePointDouble_set self val s).1 = Raise e -> heap s' = heap s) /\
    (forall x,
       val = VFloat x ->
       (GaugePointDouble_set self val s).1 = Ok tt /\
       heap s' = <[self := ObjGaugePointDouble (VFloat x)]> (heap s) /\
       GaugePointDouble_get_value self s' = (Ok (VFloat x), s')) /\
    (forall z,
       int_of val = Some z ->
       match (GaugePointDouble_set self val s).1 with
       | Ok _ =>
           exists f,
             heap s' = <[self := ObjGaugePointDouble (VFloat f)]> (heap s) /\
             GaugePointDouble_get_value self s' = (Ok (VFloat f), s') /\
             float_of_int_ok z (Ok f)
       | Raise e => float_of_int_ok z (Raise e)
       end) /\
    (val = VNone ->
     (GaugePointDouble_set self val s).1 = Raise TypeError).
Proof.
  intros Hs. rewrite (GaugePointDouble_set_spec s self v val Hs).
  assert (Hread : forall r evs,
    GaugePointDouble_get_value self
      (mkState (<[self := ObjGaugePointDouble r]> (heap s)) evs) =
    (Ok r, mkState (<[self := ObjGaugePointDouble r]> (heap s)) evs)).
  { intros r evs. apply (getattr_value_point _ self GaugePointDouble).
    cbn [heap]. eapply lookup_insert_point, Hs. }
  assert (Hint : forall z,
    int_of val = Some z ->
    py_float val =
      match int_to_float z with
      | Ok f => Ok (VFloat f)
      | Raise e => Raise e
      end).
  { intros z. destruct val; cbn [int_of py_float]; intros [= <-];
      reflexivity. }
  destruct (py_float val) as [r|e] eqn:Hconv;
    eexists; (split; [reflexivity|]);
    cbn [trace heap after_events fst snd]; (split; [reflexivity|]).
  - split; [discriminate|]. split; [|split].
    + intros x ->. cbn [py_float] in Hconv. injection Hconv as <-. auto.
    + intros z Hz. specialize (Hint z Hz).
      pose proof (int_to_float_ok z) as Hok.
      destruct (int_to_float z) as [f|e]; [|discriminate].
      injection Hint as ->. exists f. auto.
    + intros ->. discriminate.
  - split; [reflexivity|]. split; [|split].
    + intros x ->. discriminate.
    + intros z Hz. specialize (Hint z Hz).
      pose proof (int_to_float_ok z) as Hok.
      destruct (int_to_float z) as [f|e']; [discriminate|].
      injection Hint as ->. exact Hok.
    + intros ->. cbn [py_float] in Hconv. congruence.
Qed.

(** The double point of the example derived gauge, set to the float [-0.0],
    to the integer 3 and to [None]. *)
Lemma X1_witness :
  (GaugePointDouble_set 2%nat (VFloat (S754_zero true))
     example_derived_double.2).1 = Ok tt /\
  (exists f,
     GaugePointDouble_get_value 2%nat
       (GaugePointDouble_set 2%nat (VInt 3) example_derived_double.2).2 =
       (Ok (VFloat f),
        (GaugePointDouble_set 2%nat (VInt 3) example_derived_double.2).2) /\
     float_is_int f 3) /\
  (GaugePointDouble_set 2%nat VNone example_derived_double.2).1 =
    Raise TypeError /\
  heap (GaugePointDouble_set 2%nat VNone example_derived_double.2).2 =
    heap example_derived_double.2.
Proof.
  destruct (X1_double_point_set example_derived_double.2 2%nat
              (VFloat (S754_zero false)) (VFloat (S754_zero true)) eq_refl)
    as (s1 & _ & _ & _ & H1 & _).
  destruct (X1_double_point_set example_derived_double.2 2%nat
              (VFloat (S754_zero false)) (VInt 3) eq_refl)
    as (s3 & Hs3 & _ & _ & _ & H3 & _).
  destruct (X1_double_point_set example_derived_double.2 2%nat
              (VFloat (S754_zero false)) VNone eq_refl)
    as (s2 & Hs2 & _ & Hfail & _ & _ & H2).
  split; [exact (proj1 (H1 _ eq_refl))|].
  split.
  - specialize (H3 3 eq_refl).
    destruct (GaugePointDouble_set 2%nat (VInt 3) example_derived_double.2).1
      as [u|e].
    + destruct H3 as (f & _ & Hget & Hexact & _).
      exists f. rewrite Hs3. split; [exact Hget|].
      apply Hexact. reflexivity.
    + destruct H3 as [_ Hbig]. exfalso. revert Hbig.
      apply Z.lt_nge. reflexivity.
  - split; [exact (H2 eq_refl)|]. rewrite Hs2.
    exact (Hfail TypeError (H2 eq_refl)).
Defined.



(** ** Sequences of writes to an integer point *)

(** X3. Successive [add] calls on an integer point accumulate: after
    [add(d1)], ..., [add(dn)] the point holds the value it held before plus
    [d1 + ... + dn], no update is lost, and no other object of the store is
    touched. *)
Theorem X3_adds_accumulate (env : func_env) (g p : loc) (zs : list Z) :
  forall (s : state) (v : pyval) (z : Z),
    heap s !! p = Some (ObjGaugePointLong v) ->
    int_of v = Some z ->
    let s' :=
      run_calls g ((fun d => (env, Call_add p (VInt d))) <$> zs) s in
    (exists v',
       heap s' !! p = Some (ObjGaugePointLong v') /\
       int_of v' = Some (z + foldr Z.add 0 zs)) /\
    (forall l, l <> p -> heap s' !! l = heap s !! l).
Proof.
  induction zs as [|d zs IH]; intros s v z Hp Hv; cbn [fmap list_fmap
    run_calls foldr].
  - split; [|reflexivity]. exists v. rewrite Z.add_0_r. auto.
  - cbn [run_call].
    rewrite (call_add_point s p GaugePointLong v Hp (VInt d)).
    cbn [isinstance_integer].
    assert (Hadd : py_add v (VInt d) = Ok (VInt (z + d))).
    { destruct v; try discriminate; simpl in *; congruence. }
    rewrite Hadd. cbn [snd point_obj].
    match goal with
    | |- context [run_calls g _ ?x] => set (s1 := x)
    end.
    assert (Hp1 : heap s1 !! p = Some (ObjGaugePointLong (VInt (z + d))))
      by (cbn [heap s1]; eapply lookup_insert_point, Hp).
    destruct (IH s1 (VInt (z + d)) (z + d) Hp1 eq_refl) as [Hval Hother].
    split.
    + destruct Hval as (v' & Hv' & Hint). exists v'. split; [exact Hv'|].
      rewrite Hint. f_equal. lia.
    + intros l Hl. rewrite (Hother l Hl). cbn [heap s1].
      apply list_lookup_insert_ne. auto.
Qed.

(** The point of the example gauge after [add(5)], [add(3)], [add(-2)]. *)
Lemma X3_witness :
  exists v',
    heap (run_calls 1%nat
            [(env_collected, Call_add 2%nat (VInt 5));
             (env_collected, Call_add 2%nat (VInt 3));
             (env_collected, Call_add 2%nat (VInt (-2)))]
            example_long.2) !! 2%nat = Some (ObjGaugePointLong v') /\
    int_of v' = Some 6.
Proof.
  exact (proj1 (X3_adds_accumulate env_collected 1%nat 2%nat [5; 3; -2]
                  example_long.2 (VInt 0) 0 eq_refl eq_refl)).
Defined.

(** ** What every reachable gauge satisfies *)

(** X4. A gauge made by the constructor in a well-formed store stays well
    formed under every sequence of public calls, on the gauge and on any
    point, whether they return or raise, in which [add] and [set] are given
    [None], a [bool], an [int] or a [float] ([GaugePointDouble.add] stores
    whatever [+] returns, so an object with an addition of its own could
    leave a value that is not a float): its map never holds two entries
    with the same label-value tuple, no point is shared by two tuples, every
    entry is a point of the point type of the gauge (wrapped in a
    [DerivedGaugePoint] for the derived classes), integer points hold
    integers and double points hold floats; and the class, the number of
    label keys, the default label values and the descriptor are those given
    at construction. *)
Theorem X4_invariant_kept (cls : gauge_class)
  (name description unit : string) (label_keys : list string)
  (cs : list (func_env * call)) (s : state) :
  values_ok (heap s) ->
  plain_calls cs = true ->
  exists g s0 gf items,
    BaseGauge_init cls name description unit label_keys s = (Ok g, s0) /\
    gauge_inv (heap (run_calls g cs s0)) g gf items /\
    g_class gf = cls /\
    _len_label_keys gf = length label_keys /\
    default_label_values gf = replicate (length label_keys) None /\
    descriptor gf =
      mkMetricDescriptor name description unit (descriptor_type cls)
        label_keys.
Proof.
  intros Hok _.
  destruct (BaseGauge_init_inv cls name description unit label_keys s Hok)
    as (gf0 & s0 & Hinit & Hinv0 & Hcls & Hlen & Hdesc).
  destruct (run_calls_inv _ cs gf0 [] s0 Hinv0)
    as (gf & items & Hinv & (Hc1 & Hc2 & Hc3 & Hc4) & _).
  exists (S (length (heap s))), s0, gf, items.
  split; [exact Hinit|]. split; [exact Hinv|].
  split; [congruence|]. split; [congruence|].
  split; [|congruence].
  destruct Hinv as [_ _ _ _ _ Hdef _]. rewrite Hdef. congruence.
Qed.

(** A derived gauge made in the empty store, after a registration, a read,
    a registration without a function (which raises), and [clear]. *)
Lemma X4_witness :
  exists g s0 gf items,
    BaseGauge_init DerivedDoubleGauge "load" "load average" "1" ["host"]
      empty_state = (Ok g, s0) /\
    gauge_inv
      (heap (run_calls g
               [(env_returning (VInt 3),
                 Call_create_time_series (Some [Some "a"]) (Some 7%nat));
                (env_returning (VInt 3), Call_get_metric 0);
                (env_collected,
                 Call_create_time_series (Some [Some "b"]) None);
                (env_collected, Call_clear)]
               s0)) g gf items /\
    g_class gf = DerivedDoubleGauge.
Proof.
  destruct (X4_invariant_kept DerivedDoubleGauge "load" "load average" "1"
              ["host"]
              [(env_returning (VInt 3),
                Call_create_time_series (Some [Some "a"]) (Some 7%nat));
               (env_returning (VInt 3), Call_get_metric 0);
               (env_collected,
                Call_create_time_series (Some [Some "b"]) None);
               (env_collected, Call_clear)]
              empty_state values_ok_empty eq_refl)
    as (g & s0 & gf & items & H1 & H2 & H3 & _).
  exists g, s0, gf, items. auto.
Defined.

Lemma well_typed_snapshot (c : point_class) (v : pyval) :
  value_ok c v = true -> well_typed c (Some (snapshot c v)) = true.
Proof. destruct c, v; simpl; congruence. Qed.

Lemma to_point_value_typed (env : func_env) (s s' : state)
  (cls : gauge_class) (p : loc) (x : option Value) :
  values_ok (heap s) ->
  entry_ok (heap s) cls p ->
  to_point_value env p s = (Ok x, s') ->
  well_typed (point_type cls) x = true /\
  (is_Gauge cls = true -> x <> None).
Proof.
  intros Hok He. unfold entry_ok, direct_point in He.
  destruct (is_Gauge cls) eqn:Hcls.
  - destruct He as [v Hv].
    rewrite (to_point_value_point s p _ v Hv). intros [= <- <-].
    split; [|discriminate]. apply well_typed_snapshot. eapply Hok, Hv.
  - destruct He as (gp & f & Hp & v & Hgp).
    destruct (get_value_derived env s p gp _ Hp) as [_ ->].
    rewrite (DerivedGaugePoint_to_point_value_spec env s p gp f _ v Hp Hgp).
    rewrite (DerivedGaugePoint_get_value_spec env s p gp f _ v Hp Hgp).
    intros Hrun. split; [|discriminate].
    destruct (target_alive env f);
      [|inversion Hrun; subst; reflexivity].
    cbn zeta in Hrun. destruct (func_result env f) as [val|e].
    + destruct (stored_value (point_type cls) val) as [r|e] eqn:Hst.
      * apply stored_value_ok in Hst.
        destruct r; inversion Hrun; subst; try reflexivity;
          apply (well_typed_snapshot _ _ Hst).
      * destruct (decide (e = TypeError)); inversion Hrun; subst;
          reflexivity.
    + destruct (decide (e = TypeError)); inversion Hrun; subst; reflexivity.
Qed.

Lemma get_timeseries_list_loop_typed (env : func_env) (t : timestamp)
  (cls : gauge_class) (items : list (label_values_t * loc)) :
  forall acc s l s',
    values_ok (heap s) ->
    Forall (entry_ok (heap s) cls) items.*2 ->
    Forall (series_ok cls t) acc ->
    get_timeseries_list_loop env items t acc s = (Ok l, s') ->
    Forall (series_ok cls t) l.
Proof.
  induction items as [|[lv p] rest IH]; intros acc s l s' Hok He Hacc.
  - cbn. intros [= <- <-]. exact Hacc.
  - change (((lv, p) :: rest).*2) with (p :: rest.*2) in He.
    apply Forall_cons in He as [Hp Hrest].
    cbn [get_timeseries_list_loop].
    unfold mbind at 1. unfold M_bind at 1. unfold emit at 1.
    unfold mbind at 1. unfold M_bind at 1.
    destruct (to_point_value env p _) as [[x|e] s1] eqn:Hrun;
      [|discriminate].
    pose proof (to_point_value_typed env
                  (mkState (heap s) (trace s ++ [EvToPointValue p]))
                  s1 cls p x Hok Hp Hrun) as [Hx Hsome].
    apply to_point_value_effect in Hrun as [Hu _]. cbn [heap] in Hu.
    apply IH.
    + eapply point_update_values_ok; eauto.
    + eapply Forall_impl; [exact Hrest|]. intros q.
      apply point_update_entry_ok, Hu.
    + apply Forall_app. split; [exact Hacc|].
      constructor; [|constructor]. split; [reflexivity|].
      exists x. auto.
Qed.

(** X5. Every metric that [get_metric(t)] returns for a gauge made by the
    constructor, after any sequence of public calls in which [add] and [set]
    are given [None], a [bool], an [int] or a [float], carries the descriptor
    built at construction (name, description, unit, label keys, and the
    type [GAUGE_INT64] for the long classes, [GAUGE_DOUBLE] for the double
    classes), and each of its time series has one point stamped [t] whose
    value has the kind of the gauge: a [ValueLong] of an integer or a
    [ValueDouble] of a float, never absent in a direct gauge, and possibly
    [None] in a derived gauge. *)
Theorem X5_metric_descriptor_and_kinds (env : func_env) (cls : gauge_class)
  (name description unit : string) (label_keys : list string)
  (cs : list (func_env * call)) (s : state) (t : timestamp) :
  values_ok (heap s) ->
  plain_calls cs = true ->
  exists g s0,
    BaseGauge_init cls name description unit label_keys s = (Ok g, s0) /\
    forall m,
      (BaseGauge_get_metric env g t (run_calls g cs s0)).1 = Ok (Some m) ->
      metric_descriptor m =
        mkMetricDescriptor name description unit (descriptor_type cls)
          label_keys /\
      Forall (series_ok cls t) (metric_time_series m).
Proof.
  intros Hok _.
  destruct (BaseGauge_init_inv cls name description unit label_keys s Hok)
    as (gf0 & s0 & Hinit & Hinv0 & Hcls0 & _ & Hdesc0).
  destruct (run_calls_inv _ cs gf0 [] s0 Hinv0)
    as (gf & items & Hinv & (Hc1 & _ & _ & Hc4) & _).
  assert (Hcls : g_class gf = cls) by congruence.
  assert (Hdesc :
    descriptor gf =
      mkMetricDescriptor name description unit (descriptor_type cls)
        label_keys) by congruence.
  exists (S (length (heap s))), s0. split; [exact Hinit|]. intros m Hm.
  pose proof Hinv as [Hg Hd _ _ He _ Hvals].
  rewrite (BaseGauge_get_metric_spec env _ _ gf items t Hg Hd) in Hm.
  destruct items as [|kv rest] eqn:Hitems; [discriminate|].
  rewrite <- Hitems in *.
  destruct (get_timeseries_list_loop env items t [] _) as [[l|e] s2]
    eqn:Hloop; [|discriminate].
  cbn [fst] in Hm. inversion Hm; subst m. cbn [metric_descriptor
    metric_time_series].
  split; [exact Hdesc|]. rewrite <- Hcls.
  eapply get_timeseries_list_loop_typed; [| |constructor|exact Hloop];
    assumption.
Qed.

(** A long gauge made in the empty store, after one time series was created
    and its point was given 5. *)
Lemma X5_witness :
  exists g s0,
    BaseGauge_init LongGauge "requests" "served requests" "1" ["method"]
      empty_state = (Ok g, s0) /\
    forall m,
      (BaseGauge_get_metric env_collected g 42
         (run_calls g
            [(env_collected,
              Call_get_or_create_time_series (Some [Some "GET"]));
             (env_collected, Call_add 2%nat (VInt 5))]
            s0)).1 = Ok (Some m) ->
      metric_descriptor m =
        mkMetricDescriptor "requests" "served requests" "1" GAUGE_INT64
          ["method"] /\
      Forall (series_ok LongGauge 42) (metric_time_series m).
Proof.
  exact (X5_metric_descriptor_and_kinds env_collected LongGauge "requests"
           "served requests" "1" ["method"]
           [(env_collected,
             Call_get_or_create_time_series (Some [Some "GET"]));
            (env_collected, Call_add 2%nat (VInt 5))]
           empty_state 42 values_ok_empty eq_refl).
Defined.

(** ** Errors of a tracked function *)

(** X6. [DerivedGaugePoint.get_value] catches [TypeError] only.  When the
    live function raises another error, that error reaches the caller of
    [get_value] and of [to_point_value]; when it returns a value that is
    not an integer to a long point, [GaugePointLong.set] raises
    [ValueError], which reaches the caller too; and so does any error of
    [set] that is not a [TypeError], as the [OverflowError] of [float].  In
    each case the wrapped point keeps the value it held. *)
Theorem X6_derived_errors_propagate (env : func_env) (s : state)
  (self gp : loc) (f : fid) (c : point_class) (v : pyval) :
  heap s !! self = Some (ObjDerivedGaugePoint gp (WeakRef f)) ->
  heap s !! gp = Some (point_obj c v) ->
  target_alive env f = true ->
  (forall e,
     func_result env f = Raise e -> e <> TypeError ->
     DerivedGaugePoint_get_value env self s =
       (Raise e, after_events s [EvCall f]) /\
     DerivedGaugePoint_to_point_value env self s =
       (Raise e, after_events s [EvCall f])) /\
  (forall val,
     func_result env f = Ok val ->
     c = GaugePointLong -> isinstance_integer val = false ->
     DerivedGaugePoint_get_value env self s =
       (Raise ValueError, after_events s [EvCall f]) /\
     DerivedGaugePoint_to_point_value env self s =
       (Raise ValueError, after_events s [EvCall f])) /\
  (forall val e,
     func_result env f = Ok val ->
     stored_value c val = Raise e -> e <> TypeError ->
     (DerivedGaugePoint_get_value env self s).1 = Raise e /\
     (DerivedGaugePoint_to_point_value env self s).1 = Raise e /\
     heap (DerivedGaugePoint_get_value env self s).2 = heap s).
Proof.
  intros Hself Hgp Halive.
  pose proof (DerivedGaugePoint_get_value_spec env s self gp f c v Hself Hgp)
    as Hget.
  pose proof (DerivedGaugePoint_to_point_value_spec env s self gp f c v
                Hself Hgp) as Hto.
  rewrite Halive in Hget. cbn zeta in Hget.
  split; [|split].
  - intros e Hres Hne. rewrite Hres in Hget.
    destruct (decide (e = TypeError)); [contradiction|].
    rewrite Hto, Hget. auto.
  - intros val Hres -> Hint. rewrite Hres in Hget.
    cbn [stored_value] in Hget. rewrite Hint in Hget.
    destruct (decide (ValueError = TypeError)); [discriminate|].
    rewrite Hto, Hget. auto.
  - intros val e Hres Hst Hne. rewrite Hres, Hst in Hget.
    destruct (decide (e = TypeError)); [contradiction|].
    rewrite Hto, Hget. destruct c; auto.
Qed.

(** The derived point of the example long gauge: its function raising a
    runtime error, and returning the float [0.0]. *)
Lemma X6_witness :
  DerivedGaugePoint_get_value (env_raising (OtherError "RuntimeError"))
    3%nat example_derived.2 =
    (Raise (OtherError "RuntimeError"),
     after_events example_derived.2 [EvCall 7%nat]) /\
  DerivedGaugePoint_get_value (env_returning (VFloat (S754_zero false)))
    3%nat example_derived.2 =
    (Raise ValueError, after_events example_derived.2 [EvCall 7%nat]).
Proof.
  split.
  - apply (proj1 (X6_derived_errors_propagate
                    (env_raising (OtherError "RuntimeError"))
                    example_derived.2 3%nat 2%nat 7%nat GaugePointLong
                    (VInt 0) eq_refl eq_refl eq_refl)
             (OtherError "RuntimeError") eq_refl).
    discriminate.
  - apply (proj1 (proj2 (X6_derived_errors_propagate
                           (env_returning (VFloat (S754_zero false)))
                           example_derived.2 3%nat 2%nat 7%nat
                           GaugePointLong (VInt 0) eq_refl eq_refl eq_refl))
             (VFloat (S754_zero false)) eq_refl eq_refl eq_refl).
Defined.

(** X7. The wrapped point of a derived point keeps the last value that was
    read: after a read that stored [val], a second read while the function
    still returns [val] returns it again, and a read after the target was
    collected returns [None] without touching the wrapped point, which goes
    on holding [val]. *)
Theorem X7_wrapped_point_keeps_last_value (env env' : func_env) (s : state)
  (self gp : loc) (f : fid) (c : point_class) (v val : pyval) :
  heap s !! self = Some (ObjDerivedGaugePoint gp (WeakRef f)) ->
  heap s !! gp = Some (point_obj c v) ->
  target_alive env f = true ->
  func_result env f = Ok val ->
  value_ok c val = true ->
  target_alive env' f = false ->
  exists s1,
    DerivedGaugePoint_get_value env self s = (Ok val, s1) /\
    (DerivedGaugePoint_get_value env self s1).1 = Ok val /\
    heap (DerivedGaugePoint_get_value env self s1).2 = heap s1 /\
    DerivedGaugePoint_get_value env' self s1 = (Ok VNone, s1) /\
    DerivedGaugePoint_to_point_value env' self s1 = (Ok None, s1) /\
    call_get_value gp s1 = (Ok val, s1).
Proof.
  intros Hself Hgp Halive Hres Hval Hdead.
  destruct (DerivedGaugePoint_read_live env s self gp f c v val
              Hself Hgp Halive Hres Hval) as [Hget _].
  cbn zeta in Hget.
  set (s1 := mkState (<[gp := point_obj c val]> (heap s))
               (trace s ++
                  [EvCall f; EvAcquire (ValueLock gp);
                   EvRelease (ValueLock gp)])) in *.
  assert (Hself1 :
    heap s1 !! self = Some (ObjDerivedGaugePoint gp (WeakRef f))).
  { cbn [heap s1]. rewrite list_lookup_insert_ne; [exact Hself|].
    intros E. apply (self_not_gp s self gp f c v Hself Hgp). auto. }
  assert (Hgp1 : heap s1 !! gp = Some (point_obj c val))
    by (cbn [heap s1]; eapply lookup_insert_point, Hgp).
  exists s1. split; [exact Hget|].
  destruct (DerivedGaugePoint_read_live env s1 self gp f c val val
              Hself1 Hgp1 Halive Hres Hval) as [-> _].
  cbn [fst snd heap]. split; [reflexivity|].
  split; [apply list_insert_id, Hgp1|].
  pose proof (DerivedGaugePoint_get_value_spec env' s1 self gp f c val
                Hself1 Hgp1) as Hget'.
  rewrite Hdead in Hget'.
  split; [exact Hget'|].
  split.
  - rewrite (DerivedGaugePoint_to_point_value_spec env' s1 self gp f c val
               Hself1 Hgp1), Hget'. reflexivity.
  - apply (call_get_value_point s1 gp c val Hgp1).
Qed.

(** The derived point of the example gauge, read while its function
    returns 5 and read again after the target was collected. *)
Lemma X7_witness :
  exists s1,
    DerivedGaugePoint_get_value (env_returning (VInt 5)) 3%nat
      example_derived.2 = (Ok (VInt 5), s1) /\
    DerivedGaugePoint_get_value env_collected 3%nat s1 = (Ok VNone, s1) /\
    call_get_value 2%nat s1 = (Ok (VInt 5), s1).
Proof.
  destruct (X7_wrapped_point_keeps_last_value (env_returning (VInt 5))
              env_collected example_derived.2 3%nat 2%nat 7%nat
              GaugePointLong (VInt 0) (VInt 5)
              eq_refl eq_refl eq_refl eq_refl eq_refl eq_refl)
    as (s1 & H1 & _ & _ & H2 & _ & H3).
  exists s1. auto.
Defined.

(** ** The metric of a derived gauge *)

Lemma to_point_value_derived_value (env : func_env) (s : state) (p gp : loc)
  (f : fid) (c : point_class) (v : pyval) :
  heap s !! p = Some (ObjDerivedGaugePoint gp (WeakRef f)) ->
  heap s !! gp = Some (point_obj c v) ->
  readable env c f = true ->
  (to_point_value env p s).1 = Ok (exported_value env c (heap s) p).
Proof.
  intros Hp Hgp. unfold readable, exported_value, entry_func. rewrite Hp.
  destruct (get_value_derived env s p gp _ Hp) as [_ ->].
  rewrite (DerivedGaugePoint_to_point_value_spec env s p gp f c v Hp Hgp).
  rewrite (DerivedGaugePoint_get_value_spec env s p gp f c v Hp Hgp).
  destruct (target_alive env f); [|reflexivity].
  cbn zeta. destruct (func_result env f) as [val|e].
  - destruct (stored_value c val) as [r|e] eqn:Hst.
    + intros _. apply stored_value_ok in Hst.
      destruct r; try reflexivity.
      rewrite value_ok_not_None in Hst. discriminate.
    + intros He. apply bool_decide_eq_true in He. subst e.
      destruct (decide (TypeError = TypeError)); [reflexivity|congruence].
  - intros He. apply bool_decide_eq_true in He. subst e.
    destruct (decide (TypeError = TypeError)); [reflexivity|congruence].
Qed.

Lemma point_update_exported_value (env : func_env) (c : point_class)
  (h h' : list obj) (p : loc) :
  point_update h h' ->
  exported_value env c h' p = exported_value env c h p.
Proof.
  intros Hu. unfold exported_value.
  rewrite (point_update_entry_func h h' p Hu). reflexivity.
Qed.

Lemma get_timeseries_list_loop_derived_value (env : func_env)
  (t : timestamp) (cls : gauge_class)
  (items : list (label_values_t * loc)) :
  is_Gauge cls = false ->
  forall acc s,
    Forall (entry_ok (heap s) cls) items.*2 ->
    all_readable env (point_type cls) (heap s) items.*2 = true ->
    (get_timeseries_list_loop env items t acc s).1 =
      Ok (acc ++
            series t
              (map (fun kv =>
                      (kv.1,
                       exported_value env (point_type cls) (heap s) kv.2))
                 items)).
Proof.
  intros Hcls.
  induction items as [|[lv p] rest IH]; intros acc s.
  - intros _ _. cbn. rewrite app_nil_r. reflexivity.
  - change (((lv, p) :: rest).*2) with (p :: rest.*2).
    rewrite Forall_cons, all_readable_cons. intros [Hp Hrest] Hall.
    apply andb_true_iff in Hall as [Hone Hall].
    unfold entry_ok in Hp. rewrite Hcls in Hp.
    destruct Hp as (gp & f & Hp & v & Hgp).
    unfold entry_func in Hone. rewrite Hp in Hone.
    cbn [get_timeseries_list_loop].
    unfold mbind at 1. unfold M_bind at 1. unfold emit at 1.
    unfold mbind at 1. unfold M_bind at 1.
    set (s1 := mkState (heap s) (trace s ++ [EvToPointValue p])).
    pose proof (to_point_value_derived_value env s1 p gp f (point_type cls)
                  v Hp Hgp Hone) as Hval.
    destruct (to_point_value env p s1) as [[x|e] s2] eqn:Hrun;
      cbn [fst] in Hval; [|discriminate].
    injection Hval as ->.
    apply to_point_value_effect in Hrun as [Hu _]. cbn [heap s1] in Hu.
    rewrite IH.
    + cbn [map series fst snd heap s1]. rewrite <- app_assoc. cbn [app].
      do 3 f_equal. unfold series. f_equal.
      apply map_ext. intros kv.
      rewrite (point_update_exported_value _ _ _ _ _ Hu). reflexivity.
    + eapply Forall_impl; [exact Hrest|]. intros q.
      apply point_update_entry_ok, Hu.
    + rewrite (point_update_all_readable env _ _ _ rest.*2 Hu). exact Hall.
Qed.

(** X8. The metric of a derived gauge whose tracked functions are all
    readable has one time series per entry, in the order of the map, and
    the point of each carries what its own function returned, stored as
    the kind of the gauge.  An entry whose target was collected, or whose
    read ended in a [TypeError], is not left out: it is exported with a
    point whose value is [None]. *)
Theorem X8_derived_metric (env : func_env) (s : state) (g : loc)
  (gf : gauge_fields) (items : list (label_values_t * loc))
  (t : timestamp) :
  gauge_inv (heap s) g gf items ->
  is_Gauge (g_class gf) = false ->
  items <> [] ->
  all_readable env (point_type (g_class gf)) (heap s) items.*2 = true ->
  (BaseGauge_get_metric env g t s).1 =
    Ok (Some
          (mkMetric (descriptor gf)
             (map (fun kv =>
                     mkTimeSeries kv.1
                       [mkPoint
                          (exported_value env (point_type (g_class gf))
                             (heap s) kv.2) t] t)
                items))) /\
  (forall lv p f,
     (lv, p) ∈ items ->
     entry_func (heap s) p = Some f ->
     target_alive env f = false ->
     exported_value env (point_type (g_class gf)) (heap s) p = None).
Proof.
  intros Hinv Hcls Hne Hall. pose proof Hinv as [Hg Hd _ _ He _ _]. split.
  - rewrite (BaseGauge_get_metric_spec env s g gf items t Hg Hd).
    destruct items as [|kv rest] eqn:Hitems; [contradiction|].
    rewrite <- Hitems in *.
    pose proof (get_timeseries_list_loop_derived_value env t (g_class gf)
                  items Hcls []
                  (after_events s [EvAcquire (PointsLock g)]) He Hall)
      as Hloop.
    destruct (get_timeseries_list_loop env items t [] _) as [r s2].
    cbn [fst] in Hloop. subst r. cbn [fst app heap after_events].
    unfold series. rewrite map_map. reflexivity.
  - intros lv p f _ Hf Hdead. unfold exported_value.
    rewrite Hf, Hdead. reflexivity.
Qed.

(** The example derived gauge while its function returns 5, and after the
    target of its function was collected. *)
Lemma X8_witness :
  (BaseGauge_get_metric (env_returning (VInt 5)) 1%nat 42
     example_derived.2).1 =
    Ok (Some
          (mkMetric (descriptor example_derived_fields)
             [mkTimeSeries [] [mkPoint (Some (ValueLong (VInt 5))) 42] 42]))
  /\
  (BaseGauge_get_metric env_collected 1%nat 42 example_derived.2).1 =
    Ok (Some
          (mkMetric (descriptor example_derived_fields)
             [mkTimeSeries [] [mkPoint None 42] 42])).
Proof.
  split.
  - exact (proj1 (X8_derived_metric (env_returning (VInt 5))
                    example_derived.2 1%nat example_derived_fields
                    [([], 3%nat)] 42 example_derived_inv eq_refl
                    ltac:(discriminate) eq_refl)).
  - exact (proj1 (X8_derived_metric env_collected example_derived.2 1%nat
                    example_derived_fields [([], 3%nat)] 42
                    example_derived_inv eq_refl ltac:(discriminate)
                    eq_refl)).
Defined.

(** ** Exporting a direct gauge *)

(** X9. [get_metric] on a [LongGauge] or [DoubleGauge] only reads: it
    leaves every object of the store as it was, so the values of the
    points and the map are undisturbed, and asking again for the same
    timestamp gives the same answer. *)
Theorem X9_direct_export_reads_only (env env' : func_env) (s : state)
  (g : loc) (gf : gauge_fields) (items : list (label_values_t * loc))
  (t : timestamp) :
  gauge_inv (heap s) g gf items ->
  is_Gauge (g_class gf) = true ->
  heap (BaseGauge_get_metric env g t s).2 = heap s /\
  (BaseGauge_get_metric env' g t (BaseGauge_get_metric env g t s).2).1 =
    (BaseGauge_get_metric env g t s).1.
Proof.
  intros Hinv Hcls. pose proof Hinv as [Hg Hd _ _ _ _ _].
  destruct items as [|kv rest] eqn:Hitems.
  - rewrite (BaseGauge_get_metric_spec env s g gf [] t Hg Hd).
    cbn [fst snd]. split; [reflexivity|].
    rewrite (BaseGauge_get_metric_spec env' s g gf [] t Hg Hd). reflexivity.
  - rewrite <- Hitems in *.
    assert (Hne : items <> []) by (rewrite Hitems; discriminate).
    rewrite (BaseGauge_get_metric_direct env s g gf items t Hinv Hcls Hne).
    cbn [fst snd heap after_events]. split; [reflexivity|].
    rewrite (BaseGauge_get_metric_direct env' _ g gf items t);
      [reflexivity|exact Hinv|exact Hcls|exact Hne].
Qed.

(** The example long gauge, exported twice. *)
Lemma X9_witness :
  heap (BaseGauge_get_metric env_collected 1%nat 42 example_long.2).2 =
    heap example_long.2 /\
  (BaseGauge_get_metric (env_returning (VInt 5)) 1%nat 42
     (BaseGauge_get_metric env_collected 1%nat 42 example_long.2).2).1 =
    (BaseGauge_get_metric env_collected 1%nat 42 example_long.2).1.
Proof.
  exact (X9_direct_export_reads_only env_collected (env_returning (VInt 5))
           example_long.2 1%nat example_long_fields [([Some "GET"], 2%nat)]
           42 example_long_inv eq_refl).
Defined.

(** ** The checks of the creating methods *)

(** X10. [get_or_create_time_series] of the direct classes and
    [create_time_series] of the derived classes make the same three checks
    as [remove_time_series]: label values that are [None], that contain
    [None], or whose number differs from the number of label keys raise
    [ValueError] before the lock is taken and before any point is made, so
    the state is unchanged.  [create_default_time_series] without a
    function raises [ValueError] in the same way. *)
Theorem X10_creation_checks (s : state) (g : loc) (gf : gauge_fields)
  (label_values : option label_values_t) :
  heap s !! g = Some (ObjGauge gf) ->
  match label_values with
  | None => True
  | Some lv => any_is_None lv = true \/ length lv <> _len_label_keys gf
  end ->
  (is_Gauge (g_class gf) = true ->
   Gauge_get_or_create_time_series g label_values s =
     (Raise ValueError, s)) /\
  (is_Gauge (g_class gf) = false ->
   (forall func,
      DerivedGauge_create_time_series g label_values func s =
        (Raise ValueError, s)) /\
   DerivedGauge_create_default_time_series g None s =
     (Raise ValueError, s)).
Proof.
  intros Hg Hbad. split.
  - intros Hcls.
    rewrite (Gauge_get_or_create_time_series_eq s g gf Hg), Hcls.
    destruct label_values as [lv|]; [|reflexivity].
    destruct (any_is_None lv); [reflexivity|].
    destruct Hbad as [?|Hlen]; [discriminate|].
    destruct (Nat.eqb_spec (length lv) (_len_label_keys gf));
      [contradiction|reflexivity].
  - intros Hcls. split.
    + intros func.
      rewrite (DerivedGauge_create_time_series_eq s g gf Hg), Hcls.
      destruct label_values as [lv|]; [|reflexivity].
      destruct (any_is_None lv); [reflexivity|].
      destruct Hbad as [?|Hlen]; [discriminate|].
      destruct (Nat.eqb_spec (length lv) (_len_label_keys gf));
        [contradiction|reflexivity].
    + rewrite (DerivedGauge_create_default_time_series_eq s g gf Hg), Hcls.
      reflexivity.
Qed.

(** The example gauges have one label key: two label values, and a label
    value that is [None], are rejected. *)
Lemma X10_witness :
  Gauge_get_or_create_time_series 1%nat (Some [Some "GET"; Some "x"])
    example_long.2 = (Raise ValueError, example_long.2) /\
  DerivedGauge_create_time_series 1%nat (Some [None]) (Some 7%nat)
    example_derived_empty.2 = (Raise ValueError, example_derived_empty.2).
Proof.
  assert (Hlen : length [Some "GET"; Some "x"] <>
                 _len_label_keys example_long_fields)
    by (cbn; lia).
  split.
  - exact (proj1 (X10_creation_checks example_long.2 1%nat
                    example_long_fields (Some [Some "GET"; Some "x"])
                    eq_refl (or_intror Hlen)) eq_refl).
  - exact (proj1 (proj2 (X10_creation_checks example_derived_empty.2 1%nat
                           example_derived_empty_fields (Some [None])
                           eq_refl (or_introl eq_refl)) eq_refl)
             (Some 7%nat)).
Defined.

(** ** Creating a time series in a direct gauge *)

Lemma Gauge_get_or_create_time_series_frame (s : state) (g : loc)
  (gf : gauge_fields) (items : list (label_values_t * loc))
  (lv : label_values_t) :
  gauge_inv (heap s) g gf items ->
  is_Gauge (g_class gf) = true ->
  valid_label_values gf lv ->
  let c := point_type (g_class gf) in
  let n := length (heap s) in
  exists s',
    Gauge_get_or_create_time_series g (Some lv) s =
      (Ok (default n (dict_get lv items)), s') /\
    gauge_inv (heap s') g gf (items_after_setdefault items lv n) /\
    heap s' !! n = Some (point_obj c (zero_value c)) /\
    (forall l o, heap s !! l = Some o -> l <> points gf ->
                 heap s' !! l = Some o).
Proof.
  intros Hinv Hcls Hvalid c n. pose proof Hinv as [Hg Hd _ _ _ _ _].
  destruct (Gauge_get_or_create_time_series_inv s g gf items lv
              Hinv Hcls Hvalid) as (s' & Hrun & Hinv' & Hnew & _).
  exists s'. split; [exact Hrun|]. split; [exact Hinv'|].
  split; [exact Hnew|].
  rewrite (Gauge_get_or_create_time_series_eq s g gf Hg), Hcls in Hrun.
  apply valid_label_values_eqb in Hvalid as [Hn Hl].
  rewrite Hn, Hl in Hrun.
  rewrite (Gauge__get_or_create_time_series_spec s g gf items Hg Hd) in Hrun.
  cbn zeta in Hrun. intros l o Hlo Hne.
  assert (Hl1 : (heap s ++ [point_obj c (zero_value c)]) !! l = Some o)
    by (apply lookup_app_Some, Hlo).
  destruct (dict_get lv items); inversion Hrun; subst s'; cbn [heap].
  - exact Hl1.
  - rewrite list_lookup_insert_ne by auto. exact Hl1.
Qed.

Lemma snapshot_at_lookup (h h' : list obj) (p : loc) :
  h' !! p = h !! p -> snapshot_at h' p = snapshot_at h p.
Proof. unfold snapshot_at. intros ->. reflexivity. Qed.

Lemma snapshot_at_point (h : list obj) (p : loc) (c : point_class)
  (v : pyval) :
  h !! p = Some (point_obj c v) -> snapshot_at h p = Some (snapshot c v).
Proof.
  intros H. unfold snapshot_at. rewrite H. destruct c; reflexivity.
Qed.

Lemma entry_not_dict (h : list obj) (g : loc) (gf : gauge_fields)
  (items : list (label_values_t * loc)) (p : loc) :
  gauge_inv h g gf items -> p ∈ items.*2 ->
  exists o, h !! p = Some o /\ p <> points gf.
Proof.
  intros [_ Hd _ _ He _ _] Hin.
  rewrite Forall_forall in He. specialize (He p Hin).
  unfold entry_ok, direct_point in He.
  destruct (is_Gauge (g_class gf)).
  - destruct He as [v Hv]. eexists. split; [exact Hv|].
    intros E. rewrite E in Hv.
    assert (Hc : ObjOrderedDict items = point_obj (point_type (g_class gf)) v)
      by (apply Some_inj; exact (eq_trans (eq_sym Hd) Hv)).
    destruct (not_point_dict _ _ _ Hc).
  - destruct He as (gp & f & Hp & _). eexists. split; [exact Hp|].
    intros E. rewrite E in Hp.
    assert (Hc : ObjOrderedDict items = ObjDerivedGaugePoint gp (WeakRef f))
      by (apply Some_inj; exact (eq_trans (eq_sym Hd) Hp)).
    discriminate.
Qed.

Lemma direct_series_frame (h h' : list obj) (g : loc) (gf : gauge_fields)
  (items : list (label_values_t * loc)) (t : timestamp) :
  gauge_inv h g gf items ->
  (forall l o, h !! l = Some o -> l <> points gf -> h' !! l = Some o) ->
  map (fun kv => mkTimeSeries kv.1 [mkPoint (snapshot_at h' kv.2) t] t)
    items =
  map (fun kv => mkTimeSeries kv.1 [mkPoint (snapshot_at h kv.2) t] t)
    items.
Proof.
  intros Hinv Hframe. apply map_ext_in. intros [lv p] Hin. cbn [fst snd].
  destruct (entry_not_dict h g gf items p Hinv) as (o & Ho & Hne).
  { apply list_elem_of_fmap. exists (lv, p). split; [reflexivity|].
    apply list_elem_of_In. exact Hin. }
  rewrite (snapshot_at_lookup h h' p); [reflexivity|].
  rewrite Ho. apply Hframe; assumption.
Qed.

Lemma BaseGauge_get_metric_direct_fst (env : func_env) (s : state) (g : loc)
  (gf : gauge_fields) (items : list (label_values_t * loc))
  (t : timestamp) :
  gauge_inv (heap s) g gf items ->
  is_Gauge (g_class gf) = true ->
  items <> [] ->
  (BaseGauge_get_metric env g t s).1 =
    Ok (Some
          (mkMetric (descriptor gf)
             (map (fun kv =>
                     mkTimeSeries kv.1
                       [mkPoint (snapshot_at (heap s) kv.2) t] t)
                items))).
Proof.
  intros Hinv Hcls Hne.
  rewrite (BaseGauge_get_metric_direct env s g gf items t Hinv Hcls Hne).
  cbn [fst]. unfold series. rewrite map_map. reflexivity.
Qed.

(** X11. [get_or_create_time_series] for a tuple that is already in the
    map of a direct gauge returns the point of that tuple and resets
    nothing: the map is the same, every object of the store is as it was
    (the point that [setdefault] was handed as a default is dropped), and
    the metric of the gauge is unchanged. *)
Theorem X11_existing_series_untouched (env : func_env) (s : state) (g : loc)
  (gf : gauge_fields) (items : list (label_values_t * loc))
  (lv : label_values_t) (p : loc) (t : timestamp) :
  gauge_inv (heap s) g gf items ->
  is_Gauge (g_class gf) = true ->
  valid_label_values gf lv ->
  dict_get lv items = Some p ->
  exists s',
    Gauge_get_or_create_time_series g (Some lv) s = (Ok p, s') /\
    gauge_inv (heap s') g gf items /\
    (forall l o, heap s !! l = Some o -> heap s' !! l = Some o) /\
    (BaseGauge_get_metric env g t s').1 =
      (BaseGauge_get_metric env g t s).1.
Proof.
  intros Hinv Hcls Hvalid Hget.
  destruct (Gauge_get_or_create_time_series_frame s g gf items lv
              Hinv Hcls Hvalid) as (s' & Hrun & Hinv' & _ & Hframe).
  unfold items_after_setdefault in Hinv'.
  rewrite Hget in Hrun, Hinv'. cbn [default] in Hrun.
  exists s'. split; [exact Hrun|]. split; [exact Hinv'|].
  assert (Hne : items <> []) by (intros ->; discriminate).
  split.
  - intros l o Hlo. destruct (decide (l = points gf)) as [->|Hl].
    + destruct Hinv as [_ Hd _ _ _ _ _]. destruct Hinv' as [_ Hd' _ _ _ _ _].
      exact (eq_trans Hd' (eq_trans (eq_sym Hd) Hlo)).
    + apply Hframe; assumption.
  - rewrite (BaseGauge_get_metric_direct_fst env s' g gf items t
               Hinv' Hcls Hne).
    rewrite (BaseGauge_get_metric_direct_fst env s g gf items t
               Hinv Hcls Hne).
    rewrite (direct_series_frame (heap s) (heap s') g gf items t Hinv Hframe).
    reflexivity.
Qed.

(** The example gauge, asked again for the tuple it already has. *)
Lemma X11_witness :
  exists s',
    Gauge_get_or_create_time_series 1%nat (Some [Some "GET"]) example_long.2
      = (Ok 2%nat, s') /\
    (BaseGauge_get_metric env_collected 1%nat 42 s').1 =
      (BaseGauge_get_metric env_collected 1%nat 42 example_long.2).1.
Proof.
  destruct (X11_existing_series_untouched env_collected example_long.2
              1%nat example_long_fields [([Some "GET"], 2%nat)]
              [Some "GET"] 2%nat 42 example_long_inv eq_refl
              (conj eq_refl eq_refl) eq_refl)
    as (s' & H1 & _ & _ & H2).
  exists s'. auto.
Defined.

(** X12. A tuple that is new to a direct gauge gets a point that did not
    exist before, holding the zero of the kind of the gauge, and its entry
    goes last: the metric of the gauge is the one it was, in the same
    order and with the same values, followed by the time series of the new
    tuple with the value zero. *)
Theorem X12_new_series_goes_last (env : func_env) (s : state) (g : loc)
  (gf : gauge_fields) (items : list (label_values_t * loc))
  (lv : label_values_t) (t : timestamp) :
  gauge_inv (heap s) g gf items ->
  is_Gauge (g_class gf) = true ->
  valid_label_values gf lv ->
  dict_get lv items = None ->
  exists p s',
    Gauge_get_or_create_time_series g (Some lv) s = (Ok p, s') /\
    heap s !! p = None /\
    gauge_inv (heap s') g gf (items ++ [(lv, p)]) /\
    (BaseGauge_get_metric env g t s').1 =
      Ok (Some
            (mkMetric (descriptor gf)
               (map (fun kv =>
                       mkTimeSeries kv.1
                         [mkPoint (snapshot_at (heap s) kv.2) t] t)
                  items ++
                [mkTimeSeries lv
                   [mkPoint
                      (Some (snapshot (point_type (g_class gf))
                               (zero_value (point_type (g_class gf)))))
                      t] t]))).
Proof.
  intros Hinv Hcls Hvalid Hget.
  destruct (Gauge_get_or_create_time_series_frame s g gf items lv
              Hinv Hcls Hvalid) as (s' & Hrun & Hinv' & Hnew & Hframe).
  unfold items_after_setdefault in Hinv'.
  rewrite Hget in Hrun, Hinv'. cbn [default] in Hrun.
  exists (length (heap s)), s'. split; [exact Hrun|].
  split; [apply lookup_ge_None; lia|]. split; [exact Hinv'|].
  rewrite (BaseGauge_get_metric_direct_fst env s' g gf _ t Hinv' Hcls)
    by (destruct items; discriminate).
  rewrite map_app. cbn [map fst snd].
  rewrite (direct_series_frame (heap s) (heap s') g gf items t Hinv Hframe).
  rewrite (snapshot_at_point _ _ _ _ Hnew). reflexivity.
Qed.

(** The example gauge, asked for the new tuple [("PUT",)]. *)
Lemma X12_witness :
  exists p s',
    Gauge_get_or_create_time_series 1%nat (Some [Some "PUT"]) example_long.2
      = (Ok p, s') /\
    (BaseGauge_get_metric env_collected 1%nat 42 s').1 =
      Ok (Some
            (mkMetric (descriptor example_long_fields)
               [mkTimeSeries [Some "GET"]
                  [mkPoint (Some (ValueLong (VInt 0))) 42] 42;
                mkTimeSeries [Some "PUT"]
                  [mkPoint (Some (ValueLong (VInt 0))) 42] 42])).
Proof.
  destruct (X12_new_series_goes_last env_collected example_long.2 1%nat
              example_long_fields [([Some "GET"], 2%nat)] [Some "PUT"] 42
              example_long_inv eq_refl (conj eq_refl eq_refl) eq_refl)
    as (p & s' & H1 & _ & _ & H2).
  exists p, s'. split; [exact H1|exact H2].
Defined.

(** ** The default time series *)

Lemma any_is_None_replicate (n : nat) :
  n <> 0%nat -> any_is_None (replicate n None) = true.
Proof. destruct n; [congruence|reflexivity]. Qed.

(** X13. The default time series of a direct gauge is the entry of the
    tuple of as many [None]s as the gauge has label keys.
    [get_or_create_default_time_series] makes no check, returns the same
    point each time, and [remove_default_time_series] deletes that entry
    without an error.  When the gauge has label keys, no tuple that
    [get_or_create_time_series] accepts is the default tuple, so the
    default point is different from every labelled point; when the gauge
    has no label key, the empty tuple is both the only valid tuple and the
    default one, and [get_or_create_time_series([])] returns the default
    point. *)
Theorem X13_default_time_series (s : state) (g : loc) (gf : gauge_fields)
  (items : list (label_values_t * loc)) :
  gauge_inv (heap s) g gf items ->
  is_Gauge (g_class gf) = true ->
  let dflt := replicate (_len_label_keys gf) None in
  exists p s1 items1,
    Gauge_get_or_create_default_time_series g s = (Ok p, s1) /\
    gauge_inv (heap s1) g gf items1 /\
    dict_get dflt items1 = Some p /\
    (Gauge_get_or_create_default_time_series g s1).1 = Ok p /\
    (forall lv,
       valid_label_values gf lv -> _len_label_keys gf <> 0%nat ->
       exists q,
         (Gauge_get_or_create_time_series g (Some lv) s1).1 = Ok q /\
         q <> p) /\
    (_len_label_keys gf = 0%nat ->
     (Gauge_get_or_create_time_series g (Some []) s1).1 = Ok p) /\
    (exists s2 items2,
       BaseGauge_remove_default_time_series g s1 = (Ok tt, s2) /\
       gauge_inv (heap s2) g gf items2 /\
       dict_get dflt items2 = None).
Proof.
  intros Hinv Hcls dflt.
  pose proof Hinv as [Hg _ _ _ _ Hdef _]. fold dflt in Hdef.
  rewrite (Gauge_get_or_create_default_time_series_eq s g gf Hg), Hcls, Hdef.
  destruct (Gauge__get_or_create_time_series_inv s g gf items Hinv dflt Hcls)
    as (s1 & Hrun1 & Hinv1 & _).
  set (items1 := items_after_setdefault items dflt (length (heap s))) in *.
  set (p := default (length (heap s)) (dict_get dflt items)) in *.
  assert (Hp : dict_get dflt items1 = Some p)
    by apply dict_get_after_setdefault.
  pose proof Hinv1 as [Hg1 _ Hk1 _ _ _ _].
  exists p, s1, items1.
  split; [exact Hrun1|]. split; [exact Hinv1|]. split; [exact Hp|].
  split; [|split; [|split]].
  - rewrite (Gauge_get_or_create_default_time_series_eq s1 g gf Hg1),
      Hcls, Hdef.
    destruct (Gauge__get_or_create_time_series_inv s1 g gf items1 Hinv1
                dflt Hcls) as (s2 & -> & _).
    rewrite Hp. reflexivity.
  - intros lv Hvalid Hlen.
    assert (Hne : lv <> dflt).
    { intros ->. destruct Hvalid as [Hnone _].
      unfold dflt in Hnone.
      rewrite (any_is_None_replicate _ Hlen) in Hnone. discriminate. }
    destruct (Gauge_get_or_create_time_series_inv s1 g gf items1 lv
                Hinv1 Hcls Hvalid) as (s2 & -> & Hinv2 & _).
    eexists. split; [reflexivity|].
    set (items2 := items_after_setdefault items1 lv (length (heap s1))) in *.
    intros E. apply Hne.
    destruct Hinv2 as [_ _ _ Hlocs _ _ _].
    eapply (dict_get_inj lv dflt p items2 Hlocs).
    + unfold items2. rewrite dict_get_after_setdefault. f_equal. exact E.
    + apply dict_get_setdefault_mono, Hp.
  - intros Hlen.
    assert (Hvalid : valid_label_values gf [])
      by (split; [reflexivity|symmetry; exact Hlen]).
    destruct (Gauge_get_or_create_time_series_inv s1 g gf items1 []
                Hinv1 Hcls Hvalid) as (s2 & Hrun & _).
    apply (f_equal fst) in Hrun. cbn [fst] in Hrun.
    etransitivity; [exact Hrun|]. f_equal.
    assert (Hd0 : dflt = []) by (unfold dflt; rewrite Hlen; reflexivity).
    rewrite Hd0 in Hp. rewrite Hp. reflexivity.
  - rewrite (BaseGauge_remove_default_time_series_eq s1 g gf Hg1), Hdef.
    destruct (BaseGauge__remove_time_series_inv s1 g gf items1 Hinv1 dflt)
      as (s2 & Hrun2 & Hinv2 & _).
    exists s2, (dict_remove dflt items1).
    split; [exact Hrun2|]. split; [exact Hinv2|].
    rewrite dict_get_remove by exact Hk1.
    destruct (decide _) as [_|Hne]; [reflexivity|].
    exfalso. apply Hne. reflexivity.
Qed.

(** The example gauge: its default point is new, and different from the
    point of [("GET",)]. *)
Lemma X13_witness :
  exists p s1,
    Gauge_get_or_create_default_time_series 1%nat example_long.2 =
      (Ok p, s1) /\
    (Gauge_get_or_create_default_time_series 1%nat s1).1 = Ok p /\
    exists q,
      (Gauge_get_or_create_time_series 1%nat (Some [Some "GET"]) s1).1 =
        Ok q /\ q <> p.
Proof.
  destruct (X13_default_time_series example_long.2 1%nat example_long_fields
              [([Some "GET"], 2%nat)] example_long_inv eq_refl)
    as (p & s1 & items1 & H1 & _ & _ & H2 & H3 & _).
  exists p, s1. split; [exact H1|]. split; [exact H2|].
  apply (H3 [Some "GET"]).
  - split; reflexivity.
  - discriminate.
Defined.

(** ** Points that left the map *)

Lemma dict_get_elem (k : label_values_t) (p : loc)
  (items : list (label_values_t * loc)) :
  NoDup items.*1 -> (k, p) ∈ items -> dict_get k items = Some p.
Proof.
  induction items as [|[k1 q1] rest IH]; intros Hnd Hin;
    [inversion Hin|].
  cbn in Hnd. apply NoDup_cons in Hnd as [Hfresh Hnd].
  cbn [dict_get]. apply elem_of_cons in Hin as [Heq|Hin].
  - inversion Heq; subst k1 q1.
    destruct (decide (k = k)); [reflexivity|congruence].
  - destruct (decide (k1 = k)) as [E|_]; [|apply IH; assumption].
    exfalso. apply Hfresh. subst k1.
    apply list_elem_of_fmap. exists (k, p). auto.
Qed.

(** X14. A tuple removed from a direct gauge and created again gets a new
    point, different from the one it had, holding zero, and its entry goes
    to the end of the map.  The point it had before is not destroyed: it
    stays in the store with the value it held, for whoever kept it, but it
    is no longer an entry of the gauge. *)
Theorem X14_remove_then_create (s : state) (g : loc) (gf : gauge_fields)
  (items : list (label_values_t * loc)) (lv : label_values_t) (p : loc)
  (v : pyval) :
  gauge_inv (heap s) g gf items ->
  is_Gauge (g_class gf) = true ->
  valid_label_values gf lv ->
  dict_get lv items = Some p ->
  heap s !! p = Some (point_obj (point_type (g_class gf)) v) ->
  exists s1 p' s2,
    BaseGauge_remove_time_series g (Some lv) s = (Ok tt, s1) /\
    Gauge_get_or_create_time_series g (Some lv) s1 = (Ok p', s2) /\
    p' <> p /\
    heap s2 !! p' =
      Some (point_obj (point_type (g_class gf))
              (zero_value (point_type (g_class gf)))) /\
    heap s2 !! p = Some (point_obj (point_type (g_class gf)) v) /\
    gauge_inv (heap s2) g gf (dict_remove lv items ++ [(lv, p')]) /\
    p ∉ (dict_remove lv items ++ [(lv, p')]).*2.
Proof.
  intros Hinv Hcls Hvalid Hget Hp.
  pose proof Hinv as [Hg Hd Hk Hl _ _ _].
  rewrite (BaseGauge_remove_time_series_valid s g gf Hg lv Hvalid).
  destruct (BaseGauge__remove_time_series_inv s g gf items Hinv lv)
    as (s1 & Hrun1 & Hinv1 & _).
  assert (Hnone : dict_get lv (dict_remove lv items) = None).
  { rewrite dict_get_remove by exact Hk.
    destruct (decide (lv = lv)); congruence. }
  assert (Hp1 : heap s1 !! p = Some (point_obj (point_type (g_class gf)) v)).
  { rewrite (BaseGauge__remove_time_series_spec s g gf items Hg Hd) in Hrun1.
    rewrite Hget in Hrun1. inversion Hrun1; subst s1. cbn [heap].
    eapply lookup_insert_other; [exact Hd|exact Hp|]. apply not_point_dict. }
  destruct (Gauge_get_or_create_time_series_frame s1 g gf _ lv
              Hinv1 Hcls Hvalid) as (s2 & Hrun2 & Hinv2 & Hnew & Hframe).
  unfold items_after_setdefault in Hinv2.
  rewrite Hnone in Hrun2, Hinv2. cbn [default] in Hrun2.
  assert (Hlt : (p < length (heap s1))%nat) by (eapply lookup_lt_Some, Hp1).
  assert (Hpd : p <> points gf).
  { intros E. rewrite E in Hp.
    assert (Hc : ObjOrderedDict items =
                 point_obj (point_type (g_class gf)) v)
      by (apply Some_inj; exact (eq_trans (eq_sym Hd) Hp)).
    destruct (not_point_dict _ _ _ Hc). }
  exists s1, (length (heap s1)), s2.
  split; [exact Hrun1|]. split; [exact Hrun2|]. split; [lia|].
  split; [exact Hnew|]. split; [apply Hframe; assumption|].
  split; [exact Hinv2|].
  rewrite fmap_app, elem_of_app. intros [Hin|Hin].
  - (* p is the point of lv only, and lv is gone *)
    apply list_elem_of_fmap in Hin as ([k q] & Hq & Hin). cbn in Hq. subst q.
    assert (Hkp : dict_get k (dict_remove lv items) = Some p).
    { destruct Hinv1 as [_ _ Hk1 _ _ _ _].
      apply dict_get_elem; assumption. }
    rewrite dict_get_remove in Hkp by exact Hk.
    destruct (decide (lv = k)) as [->|Hne]; [discriminate|].
    apply Hne. eapply dict_get_inj; [exact Hl|exact Hget|exact Hkp].
  - apply list_elem_of_singleton in Hin. cbn in Hin. lia.
Qed.

(** The example gauge: [("GET",)] removed and created again. *)
Lemma X14_witness :
  exists s1 p' s2,
    BaseGauge_remove_time_series 1%nat (Some [Some "GET"]) example_long.2 =
      (Ok tt, s1) /\
    Gauge_get_or_create_time_series 1%nat (Some [Some "GET"]) s1 =
      (Ok p', s2) /\
    p' <> 2%nat /\
    heap s2 !! 2%nat = Some (ObjGaugePointLong (VInt 0)).
Proof.
  destruct (X14_remove_then_create example_long.2 1%nat example_long_fields
              [([Some "GET"], 2%nat)] [Some "GET"] 2%nat (VInt 0)
              example_long_inv eq_refl (conj eq_refl eq_refl)
              eq_refl eq_refl)
    as (s1 & p' & s2 & H1 & H2 & H3 & _ & H4 & _).
  exists s1, p', s2. auto.
Defined.

(** X15. [clear] does not destroy the points it drops: a point handed out
    before keeps its value, [add] on it still works and changes it, but the
    gauge no longer exports it, and [get_metric] goes on returning [None]
    until a time series is created again. *)
Theorem X15_clear_orphans_points (env : func_env) (s : state) (g : loc)
  (gf : gauge_fields) (items : list (label_values_t * loc)) (p : loc)
  (v : pyval) (z d : Z) (t : timestamp) :
  gauge_inv (heap s) g gf items ->
  heap s !! p = Some (ObjGaugePointLong v) ->
  int_of v = Some z ->
  exists s1 s2,
    BaseGauge_clear g s = (Ok tt, s1) /\
    heap s1 !! p = Some (ObjGaugePointLong v) /\
    GaugePointLong_add p (VInt d) s1 = (Ok tt, s2) /\
    heap s2 !! p = Some (ObjGaugePointLong (VInt (z + d))) /\
    BaseGauge_get_metric env g t s2 = (Ok None, s2).
Proof.
  intros Hinv Hp Hz. pose proof Hinv as [Hg _ _ _ _ _ _].
  destruct (BaseGauge_clear_inv s g gf items Hinv)
    as (s1 & Hrun & Hinv1 & _ & _).
  assert (Hp1 : heap s1 !! p = Some (ObjGaugePointLong v)).
  { rewrite (BaseGauge_clear_spec s g gf Hg) in Hrun.
    inversion Hrun; subst s1. cbn [heap].
    eapply lookup_insert_other;
      [apply lookup_app_Some, Hg|apply lookup_app_Some, Hp|discriminate]. }
  pose proof (GaugePointLong_add_spec s1 p v (VInt d) Hp1) as Hadd.
  cbn [isinstance_integer] in Hadd.
  assert (Hsum : py_add v (VInt d) = Ok (VInt (z + d))).
  { destruct v; try discriminate; simpl in *; congruence. }
  rewrite Hsum in Hadd.
  eexists s1, _. split; [exact Hrun|]. split; [exact Hp1|].
  split; [exact Hadd|]. cbn [heap].
  split; [eapply lookup_insert_point, Hp1|].
  assert (Hinv2 :
    gauge_inv (<[p := ObjGaugePointLong (VInt (z + d))]> (heap s1)) g
      (with_points gf (length (heap s))) []).
  { eapply gauge_inv_point_update; [|exact Hinv1].
    apply (pu_step _ _ p GaugePointLong v (VInt (z + d)));
      [constructor|exact Hp1|reflexivity]. }
  destruct Hinv2 as [Hg2 Hd2 _ _ _ _ _].
  apply (BaseGauge_get_metric_spec env
           (mkState (<[p := ObjGaugePointLong (VInt (z + d))]> (heap s1))
              (trace s1 ++
                 [EvAcquire (ValueLock p); EvRelease (ValueLock p)]))
           g _ [] t Hg2 Hd2).
Qed.

(** The example gauge, cleared, and its old point given 5. *)
Lemma X15_witness :
  exists s1 s2,
    BaseGauge_clear 1%nat example_long.2 = (Ok tt, s1) /\
    GaugePointLong_add 2%nat (VInt 5) s1 = (Ok tt, s2) /\
    heap s2 !! 2%nat = Some (ObjGaugePointLong (VInt 5)) /\
    BaseGauge_get_metric env_collected 1%nat 42 s2 = (Ok None, s2).
Proof.
  destruct (X15_clear_orphans_points env_collected example_long.2 1%nat
              example_long_fields [([Some "GET"], 2%nat)] 2%nat (VInt 0)
              0 5 42 example_long_inv eq_refl eq_refl)
    as (s1 & s2 & H1 & _ & H2 & H3 & H4).
  exists s1, s2. auto.
Defined.

(** ** Locks *)

Lemma lock_run_app (held : list lock) (e1 e2 : list event) :
  lock_run held (e1 ++ e2) =
    match lock_run held e1 with
    | Some h => lock_run h e2
    | None => None
    end.
Proof.
  revert held. induction e1 as [|ev e1 IH]; intros held; [reflexivity|].
  destruct ev as [l|l|f|p]; cbn [app lock_run].
  - destruct (may_acquire l held); [apply IH|reflexivity].
  - destruct held as [|l' held']; [reflexivity|].
    destruct (decide (l' = l)); [apply IH|reflexivity].
  - destruct (forallb is_points_lock held); [apply IH|reflexivity].
  - apply IH.
Qed.

Lemma silent_neutral {A : Type} (ok : list lock -> Prop) (m : M A) :
  silent m -> lock_neutral ok m.
Proof.
  intros H s. exists []. rewrite app_nil_r. split; [apply H|reflexivity].
Qed.

Lemma silent_ret {A : Type} (a : A) : silent (mret a : M A).
Proof. intros s. reflexivity. Qed.

Lemma silent_raise {A : Type} (e : exn) : silent (raise e : M A).
Proof. intros s. reflexivity. Qed.

Lemma silent_lift {A : Type} (r : outcome A) : silent (lift r).
Proof. intros s. reflexivity. Qed.

Lemma silent_load (l : loc) : silent (load l).
Proof. intros s. unfold load. destruct (heap s !! l); reflexivity. Qed.

Lemma silent_store (l : loc) (o : obj) : silent (store l o).
Proof. intros s. reflexivity. Qed.

Lemma silent_alloc (o : obj) : silent (alloc o).
Proof. intros s. reflexivity. Qed.

Lemma silent_bind {A B : Type} (m : M A) (k : A -> M B) :
  silent m -> (forall a, silent (k a)) -> silent (m ≫= k).
Proof.
  intros Hm Hk s. unfold mbind, M_bind.
  specialize (Hm s). destruct (m s) as [[a|e] s1]; cbn [snd] in *.
  - rewrite (Hk a s1). exact Hm.
  - exact Hm.
Qed.

Lemma silent_try_except {A : Type} (body handler : M A) (e : exn) :
  silent body -> silent handler -> silent (try_except body e handler).
Proof.
  intros Hb Hh s. unfold try_except.
  specialize (Hb s). destruct (body s) as [[a|e'] s1]; cbn [snd] in *.
  - exact Hb.
  - destruct (decide (e' = e)); [rewrite (Hh s1)|]; exact Hb.
Qed.

Lemma neutral_weaken {A : Type} (ok ok' : list lock -> Prop) (m : M A) :
  (forall held, ok' held -> ok held) ->
  lock_neutral ok m -> lock_neutral ok' m.
Proof.
  intros Himp Hm s. destruct (Hm s) as (evs & Ht & Hrun).
  exists evs. split; [exact Ht|]. intros held Hheld. apply Hrun, Himp, Hheld.
Qed.

Lemma neutral_bind {A B : Type} (ok : list lock -> Prop) (m : M A)
  (k : A -> M B) :
  lock_neutral ok m -> (forall a, lock_neutral ok (k a)) ->
  lock_neutral ok (m ≫= k).
Proof.
  intros Hm Hk s. unfold mbind, M_bind.
  destruct (Hm s) as (e1 & Ht1 & Hr1).
  destruct (m s) as [[a|e] s1]; cbn [snd] in *.
  - destruct (Hk a s1) as (e2 & Ht2 & Hr2).
    exists (e1 ++ e2). rewrite Ht2, Ht1, app_assoc. split; [reflexivity|].
    intros held Hheld. rewrite lock_run_app, (Hr1 held Hheld).
    apply Hr2, Hheld.
  - exists e1. auto.
Qed.

Lemma neutral_try_except {A : Type} (ok : list lock -> Prop)
  (body handler : M A) (e : exn) :
  lock_neutral ok body -> lock_neutral ok handler ->
  lock_neutral ok (try_except body e handler).
Proof.
  intros Hb Hh s. unfold try_except.
  destruct (Hb s) as (e1 & Ht1 & Hr1).
  destruct (body s) as [[a|e'] s1]; cbn [snd] in *.
  - exists e1. auto.
  - destruct (decide (e' = e)).
    + destruct (Hh s1) as (e2 & Ht2 & Hr2).
      exists (e1 ++ e2). rewrite Ht2, Ht1, app_assoc. split; [reflexivity|].
      intros held Hheld. rewrite lock_run_app, (Hr1 held Hheld).
      apply Hr2, Hheld.
    + exists e1. auto.
Qed.

(** [with l: body]: [l] may be taken, the body keeps the discipline with
    [l] held, and [l] is released last. *)
Lemma neutral_with_lock {A : Type} (ok ok' : list lock -> Prop) (l : lock)
  (body : M A) :
  (forall held, ok held -> may_acquire l held = true /\ ok' (l :: held)) ->
  lock_neutral ok' body ->
  lock_neutral ok (with_lock l body).
Proof.
  intros Hok Hb s. unfold with_lock, emit. cbn [heap trace snd].
  destruct (Hb (mkState (heap s) (trace s ++ [EvAcquire l])))
    as (e1 & Ht1 & Hr1).
  destruct (body _) as [r s2]. cbn [snd trace] in *.
  exists ([EvAcquire l] ++ e1 ++ [EvRelease l]).
  rewrite Ht1, <- !app_assoc. split; [reflexivity|].
  intros held Hheld. destruct (Hok held Hheld) as [Hmay Hok'].
  cbn [app lock_run]. rewrite Hmay, lock_run_app, (Hr1 _ Hok').
  cbn [lock_run]. destruct (decide (l = l)); [reflexivity|congruence].
Qed.

Lemma neutral_call (env : func_env) (callee : option fid) :
  lock_neutral holds_maps_only (py_call env callee).
Proof.
  destruct callee as [f|]; [|apply silent_neutral, silent_raise].
  intros s. exists [EvCall f]. split.
  - unfold py_call, mbind, M_bind, emit, lift. reflexivity.
  - intros held Hheld. cbn [lock_run]. unfold holds_maps_only in Hheld.
    rewrite Hheld. reflexivity.
Qed.

Lemma neutral_emit_to_point_value (ok : list lock -> Prop) (p : loc) :
  lock_neutral ok (emit (EvToPointValue p)).
Proof. intros s. exists [EvToPointValue p]. split; reflexivity. Qed.

Lemma silent_getattr_value (self : loc) : silent (getattr_value self).
Proof.
  apply silent_bind; [apply silent_load|].
  intros []; first [apply silent_ret|apply silent_raise].
Qed.

Lemma silent_setattr_value (self : loc) (v : pyval) :
  silent (setattr_value self v).
Proof.
  apply silent_bind; [apply silent_load|].
  intros []; first [apply silent_store|apply silent_raise].
Qed.

Lemma value_lock_ok (p : loc) (held : list lock) :
  holds_maps_only held ->
  may_acquire (ValueLock p) held = true /\ True.
Proof. intros H. split; [exact H|exact I]. Qed.

Lemma neutral_point_write (self : loc) (val : pyval) :
  lock_neutral holds_maps_only (GaugePointLong_add self val) /\
  lock_neutral holds_maps_only (GaugePointLong_set self val) /\
  lock_neutral holds_maps_only (GaugePointDouble_add self val) /\
  lock_neutral holds_maps_only (GaugePointDouble_set self val).
Proof.
  assert (Hadd : lock_neutral (fun _ => True)
            (v ← getattr_value self;
             r ← lift (py_add v val);
             setattr_value self r)).
  { apply silent_neutral, silent_bind; [apply silent_getattr_value|].
    intros v. apply silent_bind; [apply silent_lift|].
    intros r. apply silent_setattr_value. }
  assert (Hset : lock_neutral (fun _ => True) (setattr_value self val))
    by apply silent_neutral, silent_setattr_value.
  assert (Hfl : lock_neutral (fun _ => True)
            (r ← lift (py_float val); setattr_value self r)).
  { apply silent_neutral, silent_bind; [apply silent_lift|].
    intros r. apply silent_setattr_value. }
  unfold GaugePointLong_add, GaugePointLong_set, GaugePointDouble_add,
    GaugePointDouble_set.
  repeat split;
    try (destruct (negb (isinstance_integer val));
         [apply silent_neutral, silent_raise|]);
    (apply (neutral_with_lock holds_maps_only (fun _ => True));
     [intros held Hheld; apply (value_lock_ok self held Hheld)|assumption]).
Qed.

Lemma neutral_call_set (p : loc) (val : pyval) :
  lock_neutral holds_maps_only (call_set p val).
Proof.
  apply neutral_bind; [apply silent_neutral, silent_load|].
  intros []; try apply silent_neutral, silent_raise;
    apply neutral_point_write.
Qed.

Lemma neutral_call_add (p : loc) (val : pyval) :
  lock_neutral holds_maps_only (call_add p val).
Proof.
  apply neutral_bind; [apply silent_neutral, silent_load|].
  intros []; try apply silent_neutral, silent_raise;
    apply neutral_point_write.
Qed.

Lemma silent_call_get_value (p : loc) : silent (call_get_value p).
Proof.
  apply silent_bind; [apply silent_load|].
  intros []; try apply silent_raise; apply silent_getattr_value.
Qed.

Lemma silent_call_to_point_value (p : loc) : silent (call_to_point_value p).
Proof.
  apply silent_bind; [apply silent_load|].
  intros []; try apply silent_raise;
    (apply silent_bind; [apply silent_getattr_value|]);
    intros v; apply silent_ret.
Qed.

Lemma neutral_derived_get_value (env : func_env) (self : loc) :
  lock_neutral holds_maps_only (DerivedGaugePoint_get_value env self).
Proof.
  apply neutral_bind; [apply silent_neutral, silent_load|].
  intros []; try apply silent_neutral, silent_raise.
  apply neutral_bind.
  - apply neutral_try_except; [|apply silent_neutral, silent_ret].
    apply neutral_bind; [apply neutral_call|].
    intros v. apply neutral_bind; [apply neutral_call_set|].
    intros _. apply silent_neutral, silent_ret.
  - intros [r|]; apply silent_neutral;
      [apply silent_ret|apply silent_call_get_value].
Qed.

Lemma neutral_derived_to_point_value (env : func_env) (self : loc) :
  lock_neutral holds_maps_only (DerivedGaugePoint_to_point_value env self).
Proof.
  apply neutral_bind; [apply neutral_derived_get_value|].
  intros v.
  assert (Hrest : lock_neutral holds_maps_only
            (o ← load self;
             match o with
             | ObjDerivedGaugePoint gauge_point _ =>
                 call_to_point_value gauge_point
             | _ => raise AttributeError
             end)).
  { apply silent_neutral, silent_bind; [apply silent_load|].
    intros []; try apply silent_raise. apply silent_call_to_point_value. }
  destruct v; try exact Hrest. apply silent_neutral, silent_ret.
Qed.

Lemma neutral_to_point_value (env : func_env) (p : loc) :
  lock_neutral holds_maps_only (to_point_value env p).
Proof.
  apply neutral_bind; [apply silent_neutral, silent_load|].
  intros []; try apply silent_neutral, silent_raise.
  - apply silent_neutral, silent_bind; [apply silent_getattr_value|].
    intros v. apply silent_ret.
  - apply silent_neutral, silent_bind; [apply silent_getattr_value|].
    intros v. apply silent_ret.
  - apply neutral_derived_to_point_value.
Qed.

Lemma neutral_get_value (env : func_env) (p : loc) :
  lock_neutral holds_maps_only (get_value env p).
Proof.
  apply neutral_bind; [apply silent_neutral, silent_load|].
  intros []; try apply silent_neutral, silent_raise.
  - apply silent_neutral, silent_getattr_value.
  - apply silent_neutral, silent_getattr_value.
  - apply neutral_derived_get_value.
Qed.

Lemma neutral_loop (env : func_env) (t : timestamp)
  (items : list (label_values_t * loc)) :
  forall acc,
    lock_neutral holds_maps_only
      (get_timeseries_list_loop env items t acc).
Proof.
  induction items as [|[lv gp] rest IH]; intros acc;
    cbn [get_timeseries_list_loop].
  - apply silent_neutral, silent_ret.
  - apply neutral_bind; [apply neutral_emit_to_point_value|].
    intros _. apply neutral_bind; [apply neutral_to_point_value|].
    intros v. apply IH.
Qed.

Lemma silent_getattr_gauge (self : loc) : silent (getattr_gauge self).
Proof.
  apply silent_bind; [apply silent_load|].
  intros []; first [apply silent_ret|apply silent_raise].
Qed.

Lemma silent_dict_items (d : loc) : silent (dict_items d).
Proof.
  apply silent_bind; [apply silent_load|].
  intros []; first [apply silent_ret|apply silent_raise].
Qed.

Lemma silent_dict_delitem (d : loc) (k : label_values_t) :
  silent (dict_delitem d k).
Proof.
  apply silent_bind; [apply silent_dict_items|].
  intros items. destruct (dict_get k items);
    [apply silent_store|apply silent_raise].
Qed.

Lemma silent_dict_setdefault (d : loc) (k : label_values_t) (p : loc) :
  silent (dict_setdefault d k p).
Proof.
  apply silent_bind; [apply silent_dict_items|].
  intros items. destruct (dict_get k items); [apply silent_ret|].
  apply silent_bind; [apply silent_store|]. intros _. apply silent_ret.
Qed.

Lemma silent_new_point (c : point_class) : silent (new_point c).
Proof. destruct c; apply silent_alloc. Qed.

Lemma points_lock_ok (g : loc) (held : list lock) :
  holds_nothing held ->
  may_acquire (PointsLock g) held = true /\
  holds_maps_only (PointsLock g :: held).
Proof. intros ->. split; reflexivity. Qed.

Lemma neutral_locked {A : Type} (g : loc) (body : M A) :
  lock_neutral holds_maps_only body ->
  lock_neutral holds_nothing (with_lock (PointsLock g) body).
Proof.
  apply (neutral_with_lock holds_nothing holds_maps_only).
  apply points_lock_ok.
Qed.

(** The checks that come before the lock, then the locked part. *)
Lemma neutral_checked {A : Type} (self : loc)
  (label_values : option label_values_t) (k : label_values_t -> M A) :
  (forall lv, lock_neutral holds_nothing (k lv)) ->
  lock_neutral holds_nothing
    match label_values with
    | None => raise ValueError
    | Some label_values =>
        if any_is_None label_values then raise ValueError
        else
          g ← getattr_gauge self;
          if negb (length label_values =? _len_label_keys g)%nat
          then raise ValueError
          else k label_values
    end.
Proof.
  intros Hk. destruct label_values as [lv|];
    [|apply silent_neutral, silent_raise].
  destruct (any_is_None lv); [apply silent_neutral, silent_raise|].
  apply neutral_bind; [apply silent_neutral, silent_getattr_gauge|].
  intros gf. destruct (negb _); [apply silent_neutral, silent_raise|].
  apply Hk.
Qed.

Lemma neutral__remove (self : loc) (lv : label_values_t) :
  lock_neutral holds_nothing (BaseGauge__remove_time_series self lv).
Proof.
  apply neutral_locked, silent_neutral, silent_try_except;
    [|apply silent_ret].
  apply silent_bind; [apply silent_getattr_gauge|].
  intros gf. apply silent_dict_delitem.
Qed.

Lemma neutral__get_or_create (self : loc) (lv : label_values_t) :
  lock_neutral holds_nothing (Gauge__get_or_create_time_series self lv).
Proof.
  apply neutral_locked, silent_neutral.
  apply silent_bind; [apply silent_getattr_gauge|].
  intros gf. apply silent_bind; [apply silent_new_point|].
  intros p. apply silent_dict_setdefault.
Qed.

Lemma neutral__create (self : loc) (lv : label_values_t) (f : fid) :
  lock_neutral holds_nothing (DerivedGauge__create_time_series self lv f).
Proof.
  apply neutral_locked, silent_neutral.
  apply silent_bind; [apply silent_getattr_gauge|].
  intros gf. apply silent_bind; [apply silent_new_point|].
  intros gp. apply silent_bind; [apply silent_alloc|].
  intros p. apply silent_dict_setdefault.
Qed.

Lemma neutral_method_check (self : loc) :
  lock_neutral holds_nothing (Gauge_method self) /\
  lock_neutral holds_nothing (DerivedGauge_method self).
Proof.
  split; apply silent_neutral;
    (apply silent_bind; [apply silent_getattr_gauge|]);
    intros gf; [destruct (is_Gauge _)|destruct (is_DerivedGauge _)];
    first [apply silent_ret|apply silent_raise].
Qed.

Lemma neutral_get_metric (env : func_env) (self : loc) (t : timestamp) :
  lock_neutral holds_nothing (BaseGauge_get_metric env self t).
Proof.
  apply neutral_bind; [apply silent_neutral, silent_getattr_gauge|].
  intros gf. apply neutral_bind; [apply silent_neutral, silent_dict_items|].
  intros [|kv rest]; [apply silent_neutral, silent_ret|].
  apply neutral_bind.
  - apply neutral_locked.
    apply neutral_bind; [apply silent_neutral, silent_getattr_gauge|].
    intros gf'.
    apply neutral_bind; [apply silent_neutral, silent_dict_items|].
    intros items. apply neutral_loop.
  - intros l.
    apply neutral_bind; [apply silent_neutral, silent_getattr_gauge|].
    intros gf'. apply silent_neutral, silent_ret.
Qed.

Lemma neutral_from_nothing {A : Type} (m : M A) :
  lock_neutral holds_maps_only m -> lock_neutral holds_nothing m.
Proof. apply neutral_weaken. intros held ->. reflexivity. Qed.

Lemma neutral_run_call (env : func_env) (self : loc) (c : call) :
  lock_neutral holds_nothing (run_call env self c).
Proof.
  destruct c as [lvs| |lvs func|func|lvs| | |t|p val|p val|p|p];
    cbn [run_call].
  - apply neutral_bind; [|intros; apply silent_neutral, silent_ret].
    apply neutral_bind; [apply neutral_method_check|].
    intros _. apply neutral_checked. apply neutral__get_or_create.
  - apply neutral_bind; [|intros; apply silent_neutral, silent_ret].
    apply neutral_bind; [apply neutral_method_check|].
    intros _.
    apply neutral_bind; [apply silent_neutral, silent_getattr_gauge|].
    intros gf. apply neutral__get_or_create.
  - apply neutral_bind; [|intros; apply silent_neutral, silent_ret].
    apply neutral_bind; [apply neutral_method_check|].
    intros _. apply neutral_checked. intros lv.
    destruct func; [apply neutral__create|].
    apply silent_neutral, silent_raise.
  - apply neutral_bind; [|intros; apply silent_neutral, silent_ret].
    apply neutral_bind; [apply neutral_method_check|].
    intros _. destruct func; [|apply silent_neutral, silent_raise].
    apply neutral_bind; [apply silent_neutral, silent_getattr_gauge|].
    intros gf. apply neutral__create.
  - apply neutral_checked. apply neutral__remove.
  - apply neutral_bind; [apply silent_neutral, silent_getattr_gauge|].
    intros gf. apply neutral__remove.
  - apply neutral_locked, silent_neutral.
    apply silent_bind; [apply silent_alloc|].
    intros d. apply silent_bind; [apply silent_getattr_gauge|].
    intros gf. apply silent_store.
  - apply neutral_bind; [apply neutral_get_metric|].
    intros; apply silent_neutral, silent_ret.
  - apply neutral_from_nothing, neutral_call_add.
  - apply neutral_from_nothing, neutral_call_set.
  - apply neutral_bind; [apply neutral_from_nothing, neutral_get_value|].
    intros; apply silent_neutral, silent_ret.
  - apply neutral_bind;
      [apply neutral_from_nothing, neutral_to_point_value|].
    intros; apply silent_neutral, silent_ret.
Qed.

(** X16. Provided that no code run inside a method calls back into the
    module (a tracked function only returns a value or raises, as
    [func_env] has it, and [add] and [set] are given [None], a [bool], an
    [int] or a [float], whose arithmetic and conversion run no code of the
    caller), every sequence of public calls, on any store and whether the
    calls return or raise, keeps the discipline of the locks and ends with
    no lock held: the lock of the map is only taken when nothing is held,
    the lock of a point only when no lock of a point is held (so no lock is
    taken twice, and a map lock always comes before a point lock), each
    lock is released by the [with] that took it, the last taken first, also
    on an exception, and a tracked function is never called while the lock
    of a point is held.  The tracked functions themselves are called while
    the lock of the map is held, so the proviso is needed: a function that
    called a method of the gauge would wait for that lock. *)
Theorem X16_lock_discipline (self : loc) (cs : list (func_env * call))
  (s : state) :
  plain_calls cs = true ->
  exists evs,
    trace (run_calls self cs s) = trace s ++ evs /\
    lock_run [] evs = Some [].
Proof.
  intros _.
  revert s. induction cs as [|[env c] rest IH]; intros s; cbn [run_calls].
  - exists []. rewrite app_nil_r. auto.
  - destruct (neutral_run_call env self c s) as (e1 & Ht1 & Hr1).
    destruct (IH (run_call env self c s).2) as (e2 & Ht2 & Hr2).
    exists (e1 ++ e2). rewrite Ht2, Ht1, app_assoc. split; [reflexivity|].
    rewrite lock_run_app, (Hr1 [] eq_refl). exact Hr2.
Qed.

(** The example derived gauge, exported while its function returns 5, and
    its wrapped point then given 1. *)
Lemma X16_witness :
  exists evs,
    trace (run_calls 1%nat
             [(env_returning (VInt 5), Call_get_metric 0);
              (env_collected, Call_add 2%nat (VInt 1))]
             example_derived.2) = trace example_derived.2 ++ evs /\
    lock_run [] evs = Some [].
Proof.
  exact (X16_lock_discipline 1%nat
           [(env_returning (VInt 5), Call_get_metric 0);
            (env_collected, Call_add 2%nat (VInt 1))]
           example_derived.2 eq_refl).
Defined.

(** A trace that takes the lock of a map twice breaks the discipline, and so
    does one that calls a function under the lock of a point. *)
Lemma lock_run_rejects :
  lock_run [] [EvAcquire (PointsLock 1%nat); EvAcquire (PointsLock 1%nat)]
    = None /\
  lock_run [] [EvAcquire (ValueLock 2%nat); EvCall 7%nat;
               EvRelease (ValueLock 2%nat)] = None /\
  lock_run [] [EvAcquire (ValueLock 2%nat); EvAcquire (PointsLock 1%nat)]
    = None.
Proof. repeat split. Qed.

(** ** Derived points do not share their wrapped points *)

(** X17. Two new tuples registered in a derived gauge get two different
    derived points, each tracking its own function and each wrapping a
    point of its own, made for it and holding zero.  Reading one of them
    stores the result in its own wrapped point only: the wrapped point of
    the other keeps its value. *)
Theorem X17_derived_points_are_separate (env : func_env) (s : state)
  (g : loc) (gf : gauge_fields) (items : list (label_values_t * loc))
  (t1 t2 : label_values_t) (f1 f2 : fid) (val : pyval) :
  gauge_inv (heap s) g gf items ->
  is_Gauge (g_class gf) = false ->
  valid_label_values gf t1 ->
  valid_label_values gf t2 ->
  t1 <> t2 ->
  dict_get t1 items = None ->
  dict_get t2 items = None ->
  target_alive env f1 = true ->
  func_result env f1 = Ok val ->
  value_ok (point_type (g_class gf)) val = true ->
  let c := point_type (g_class gf) in
  exists p1 p2 gp1 gp2 s1 s2 s3,
    DerivedGauge_create_time_series g (Some t1) (Some f1) s = (Ok p1, s1) /\
    DerivedGauge_create_time_series g (Some t2) (Some f2) s1 = (Ok p2, s2) /\
    p1 <> p2 /\ gp1 <> gp2 /\
    heap s2 !! p1 = Some (ObjDerivedGaugePoint gp1 (WeakRef f1)) /\
    heap s2 !! p2 = Some (ObjDerivedGaugePoint gp2 (WeakRef f2)) /\
    heap s2 !! gp1 = Some (point_obj c (zero_value c)) /\
    heap s2 !! gp2 = Some (point_obj c (zero_value c)) /\
    get_value env p1 s2 = (Ok val, s3) /\
    heap s3 !! gp1 = Some (point_obj c val) /\
    heap s3 !! gp2 = Some (point_obj c (zero_value c)).
Proof.
  intros Hinv Hcls Hv1 Hv2 Hne Hn1 Hn2 Halive Hres Hval c.
  destruct (DerivedGauge_create_time_series_inv s g gf items t1 f1
              Hinv Hcls Hv1) as (s1 & Hrun1 & Hinv1 & Hgp1 & Hp1 & _).
  unfold items_after_setdefault in Hinv1.
  rewrite Hn1 in Hrun1, Hinv1. cbn [default] in Hrun1.
  assert (Hn2' :
    dict_get t2 (items ++ [(t1, S (length (heap s)))]) = None).
  { rewrite dict_get_app, Hn2. destruct (decide (t1 = t2)); congruence. }
  destruct (DerivedGauge_create_time_series_inv s1 g gf
              (items ++ [(t1, S (length (heap s)))]) t2 f2
              Hinv1 Hcls Hv2) as (s2 & Hrun2 & Hinv2 & Hgp2 & Hp2 & Hframe).
  unfold items_after_setdefault in Hinv2.
  rewrite Hn2' in Hrun2, Hinv2. cbn [default] in Hrun2.
  set (gp1 := length (heap s)) in *. set (p1 := S gp1) in *.
  set (gp2 := length (heap s1)) in *. set (p2 := S gp2) in *.
  assert (Hlt : (p1 < gp2)%nat) by (eapply lookup_lt_Some, Hp1).
  pose proof Hinv1 as [_ Hd1 _ _ _ _ _].
  assert (Hp1' :
    heap s2 !! p1 = Some (ObjDerivedGaugePoint gp1 (WeakRef f1))).
  { apply Hframe; [exact Hp1|]. intros E. rewrite E in Hp1.
    assert (Hc : ObjOrderedDict (items ++ [(t1, p1)]) =
                 ObjDerivedGaugePoint gp1 (WeakRef f1))
      by (apply Some_inj; exact (eq_trans (eq_sym Hd1) Hp1)).
    discriminate. }
  assert (Hgp1' : heap s2 !! gp1 = Some (point_obj c (zero_value c))).
  { apply Hframe; [exact Hgp1|]. intros E. rewrite E in Hgp1.
    assert (Hc : ObjOrderedDict (items ++ [(t1, p1)]) =
                 point_obj c (zero_value c))
      by (apply Some_inj; exact (eq_trans (eq_sym Hd1) Hgp1)).
    destruct (not_point_dict _ _ _ Hc). }
  destruct (get_value_derived env s2 p1 gp1 _ Hp1') as [Hdisp _].
  destruct (DerivedGaugePoint_read_live env s2 p1 gp1 f1 c (zero_value c)
              val Hp1' Hgp1' Halive Hres Hval) as [Hread _].
  cbn zeta in Hread.
  exists p1, p2, gp1, gp2, s1, s2. eexists.
  split; [exact Hrun1|]. split; [exact Hrun2|].
  split; [unfold p2; lia|]. split; [unfold p1 in Hlt; lia|].
  split; [exact Hp1'|]. split; [exact Hp2|].
  split; [exact Hgp1'|]. split; [exact Hgp2|].
  split; [rewrite Hdisp; exact Hread|]. cbn [heap].
  split; [eapply lookup_insert_point, Hgp1'|].
  rewrite list_lookup_insert_ne; [exact Hgp2|]. unfold p1 in Hlt. lia.
Qed.

(** The example derived gauge without entries: the tuples [("a",)] and
    [("b",)] registered for the functions 7 and 8, and the first one read
    while its function returns 5. *)
Lemma X17_witness :
  exists p1 p2 gp1 gp2 s1 s2 s3,
    DerivedGauge_create_time_series 1%nat (Some [Some "a"]) (Some 7%nat)
      example_derived_empty.2 = (Ok p1, s1) /\
    DerivedGauge_create_time_series 1%nat (Some [Some "b"]) (Some 8%nat)
      s1 = (Ok p2, s2) /\
    p1 <> p2 /\ gp1 <> gp2 /\
    get_value (env_returning (VInt 5)) p1 s2 = (Ok (VInt 5), s3) /\
    heap s3 !! gp2 = Some (ObjGaugePointLong (VInt 0)).
Proof.
  destruct (X17_derived_points_are_separate (env_returning (VInt 5))
              example_derived_empty.2 1%nat example_derived_empty_fields []
              [Some "a"] [Some "b"] 7%nat 8%nat (VInt 5)
              example_derived_empty_inv eq_refl
              (conj eq_refl eq_refl) (conj eq_refl eq_refl)
              ltac:(discriminate) eq_refl eq_refl eq_refl eq_refl eq_refl)
    as (p1 & p2 & gp1 & gp2 & s1 & s2 & s3 &
        H1 & H2 & H3 & H4 & _ & _ & _ & _ & H5 & _ & H6).
  exists p1, p2, gp1, gp2, s1, s2, s3.
  split; [exact H1|]. split; [exact H2|]. split; [exact H3|].
  split; [exact H4|]. split; [exact H5|exact H6].
Defined.

(** ** A new gauge *)

(** X18. The constructor makes two objects that did not exist, the gauge
    and its empty map, and changes no object of the store.  The new gauge
    has nothing to export: [get_metric] returns [None], and removing any
    valid tuple or the default time series from it is accepted and does
    nothing to the map. *)
Theorem X18_new_gauge (env : func_env) (cls : gauge_class)
  (name description unit : string) (label_keys : list string) (s : state)
  (t : timestamp) :
  values_ok (heap s) ->
  exists g s0 gf,
    BaseGauge_init cls name description unit label_keys s = (Ok g, s0) /\
    heap s !! g = None /\ heap s !! points gf = None /\
    (forall l o, heap s !! l = Some o -> heap s0 !! l = Some o) /\
    gauge_inv (heap s0) g gf [] /\
    BaseGauge_get_metric env g t s0 = (Ok None, s0) /\
    (forall lv,
       valid_label_values gf lv ->
       exists s1,
         BaseGauge_remove_time_series g (Some lv) s0 = (Ok tt, s1) /\
         heap s1 = heap s0) /\
    (exists s1,
       BaseGauge_remove_default_time_series g s0 = (Ok tt, s1) /\
       heap s1 = heap s0).
Proof.
  intros Hok.
  pose proof (BaseGauge_init_spec cls name description unit label_keys s)
    as Hspec.
  destruct (BaseGauge_init_inv cls name description unit label_keys s Hok)
    as (gf & s0 & Hinit & Hinv & _).
  pose proof Hinv as [Hg Hd _ _ _ _ _].
  assert (Hs0 : s0 =
    mkState
      (heap s ++
         [ObjOrderedDict [];
          ObjGauge
            {| g_class := cls;
               _len_label_keys := length label_keys;
               default_label_values := replicate (length label_keys) None;
               descriptor :=
                 mkMetricDescriptor name description unit
                   (descriptor_type cls) label_keys;
               points := length (heap s) |}])
      (trace s)) by congruence.
  assert (Hpts : points gf = length (heap s)).
  { rewrite Hs0 in Hg. cbn [heap] in Hg.
    rewrite lookup_app_r in Hg by lia.
    replace (S (length (heap s)) - length (heap s))%nat with 1%nat in Hg
      by lia.
    cbn in Hg. inversion Hg. reflexivity. }
  exists (S (length (heap s))), s0, gf.
  split; [exact Hinit|].
  split; [apply lookup_ge_None; lia|].
  split; [rewrite Hpts; apply lookup_ge_None; lia|].
  split.
  { intros l o Hlo. rewrite Hs0. cbn [heap].
    apply lookup_app_l_Some, Hlo. }
  split; [exact Hinv|].
  split; [apply (BaseGauge_get_metric_spec env s0 _ gf [] t Hg Hd)|].
  split.
  - intros lv Hvalid.
    rewrite (BaseGauge_remove_time_series_valid s0 _ gf Hg lv Hvalid).
    rewrite (BaseGauge__remove_time_series_spec s0 _ gf [] Hg Hd).
    eexists. split; reflexivity.
  - rewrite (BaseGauge_remove_default_time_series_eq s0 _ gf Hg).
    rewrite (BaseGauge__remove_time_series_spec s0 _ gf [] Hg Hd).
    eexists. split; reflexivity.
Qed.

(** A double gauge made in the store of the example long gauge. *)
Lemma X18_witness :
  exists g s0,
    BaseGauge_init DoubleGauge "load" "load average" "1" ["host"]
      example_long.2 = (Ok g, s0) /\
    heap example_long.2 !! g = None /\
    BaseGauge_get_metric env_collected g 42 s0 = (Ok None, s0).
Proof.
  destruct (X18_new_gauge env_collected DoubleGauge "load" "load average"
              "1" ["host"] example_long.2 42)
    as (g & s0 & gf & H1 & H2 & _ & _ & _ & H3 & _).
  - destruct example_long_inv as [_ _ _ _ _ _ Hvals]. exact Hvals.
  - exists g, s0. auto.
Defined.
